(** * OSv virtio drivers: transport core, entropy device, network datapath

    A shallow embedding of [drivers/virtio.cc], [drivers/virtio-rng.cc] and
    [drivers/virtio-net.cc], with the statements of the driver specification
    proved (or refuted) over it.

    Layout: the embedding first (one module per translation unit or class),
    then the lemmas, grouped by the function they speak about. *)

From Stdlib Require Import ZArith Lia List Bool.
From stdpp Require Import base tactics option list.
Import ListNotations.

Set Default Proof Using "Type".

(* ===================================================================== *)
(** * Part I: the embedding                                               *)
(* ===================================================================== *)

(** ** The vring

    Modelled from the spec: the class [vring] ([virtio-vring.hh], not among
    the sources).  The model keeps what the public contract of section 4.1
    speaks about: the number of free descriptors, the scatter-gather staging
    vector, the chains published on the available ring, the completions
    posted on the used ring that the guest has not reclaimed yet (the
    entries between [last_used_idx] and the host's head) and the interrupt
    suppression flag. *)
Module Vring.

Inductive sg_dir := SgOut | SgIn.

Record sg_node := { sg_dir_of : sg_dir; sg_paddr : Z; sg_len : Z }.

Section WithCookie.
Context {cookie : Type}.

Record chain := { ch_cookie : cookie; ch_sg : list sg_node }.

Record used_elem := { ue_chain : chain; ue_len : Z }.

Record vring := {
  vq_num : nat;                 (* capacity N *)
  vq_paddr : Z;                 (* physical base of the ring memory *)
  vq_free : nat;                (* free descriptors *)
  _sg_vec : list sg_node;       (* staging vector *)
  vq_avail : list chain;        (* published, not completed *)
  vq_used : list used_elem;     (* completed, not reclaimed *)
  vq_intr : bool;               (* NO_INTERRUPT flag is clear *)
  vq_kicks : nat                (* notifications sent to the host *)
}.

Definition set_free (n : nat) (q : vring) : vring :=
  {| vq_num := vq_num q; vq_paddr := vq_paddr q; vq_free := n;
     _sg_vec := _sg_vec q; vq_avail := vq_avail q; vq_used := vq_used q;
     vq_intr := vq_intr q; vq_kicks := vq_kicks q |}.

Definition set_sg (sg : list sg_node) (q : vring) : vring :=
  {| vq_num := vq_num q; vq_paddr := vq_paddr q; vq_free := vq_free q;
     _sg_vec := sg; vq_avail := vq_avail q; vq_used := vq_used q;
     vq_intr := vq_intr q; vq_kicks := vq_kicks q |}.

Definition set_avail (a : list chain) (q : vring) : vring :=
  {| vq_num := vq_num q; vq_paddr := vq_paddr q; vq_free := vq_free q;
     _sg_vec := _sg_vec q; vq_avail := a; vq_used := vq_used q;
     vq_intr := vq_intr q; vq_kicks := vq_kicks q |}.

Definition set_used (u : list used_elem) (q : vring) : vring :=
  {| vq_num := vq_num q; vq_paddr := vq_paddr q; vq_free := vq_free q;
     _sg_vec := _sg_vec q; vq_avail := vq_avail q; vq_used := u;
     vq_intr := vq_intr q; vq_kicks := vq_kicks q |}.

Definition set_intr (b : bool) (q : vring) : vring :=
  {| vq_num := vq_num q; vq_paddr := vq_paddr q; vq_free := vq_free q;
     _sg_vec := _sg_vec q; vq_avail := vq_avail q; vq_used := vq_used q;
     vq_intr := b; vq_kicks := vq_kicks q |}.

Definition set_kicks (k : nat) (q : vring) : vring :=
  {| vq_num := vq_num q; vq_paddr := vq_paddr q; vq_free := vq_free q;
     _sg_vec := _sg_vec q; vq_avail := vq_avail q; vq_used := vq_used q;
     vq_intr := vq_intr q; vq_kicks := k |}.

(** [new vring(driver, num, index)]: every descriptor free, nothing
    staged, published or completed. *)
Definition new_vring (num : nat) (paddr : Z) : vring :=
  {| vq_num := num; vq_paddr := paddr; vq_free := num; _sg_vec := [];
     vq_avail := []; vq_used := []; vq_intr := true; vq_kicks := 0 |}.

Definition size (q : vring) : nat := vq_num q.
Definition get_paddr (q : vring) : Z := vq_paddr q.

(** [init_sg()] resets the staging vector to empty. *)
Definition init_sg (q : vring) : vring := set_sg [] q.

(** [add_out_sg] / [add_in_sg] append one host-readable / host-writable
    entry to the staging vector. *)
Definition add_out_sg (paddr len : Z) (q : vring) : vring :=
  set_sg (_sg_vec q ++ [{| sg_dir_of := SgOut; sg_paddr := paddr; sg_len := len |}]) q.

Definition add_in_sg (paddr len : Z) (q : vring) : vring :=
  set_sg (_sg_vec q ++ [{| sg_dir_of := SgIn; sg_paddr := paddr; sg_len := len |}]) q.

(** [avail_ring_has_room(n)]: at least [n] free descriptors remain. *)
Definition avail_ring_has_room (n : nat) (q : vring) : bool :=
  (n <=? vq_free q)%nat.

(** [avail_ring_not_empty()]: room to publish at least one more chain. *)
Definition avail_ring_not_empty (q : vring) : bool := (0 <? vq_free q)%nat.

(** [used_ring_not_empty()]: [last_used_idx != used_ring.head], that is,
    some completion has not been reclaimed. *)
Definition used_ring_not_empty (q : vring) : bool :=
  match vq_used q with [] => false | _ :: _ => true end.

(** [used_ring_can_gc()]: the synonym used for pacing producers. *)
Definition used_ring_can_gc (q : vring) : bool := used_ring_not_empty q.

(** The argument-free predicates of the public contract, that is, the
    members a [bool (vring::* )() const] can point to: what
    [wait_for_queue] may be handed as its predicate. *)
Inductive predicate :=
| AvailRingNotEmpty
| UsedRingNotEmpty
| UsedRingCanGc.

(** [(queue->*pred)()] *)
Definition holds (p : predicate) (q : vring) : bool :=
  match p with
  | AvailRingNotEmpty => avail_ring_not_empty q
  | UsedRingNotEmpty => used_ring_not_empty q
  | UsedRingCanGc => used_ring_can_gc q
  end.

(** [add_buf(cookie)]: allocate a chain of [|staging|] descriptors,
    record the cookie, publish, reset staging; fails when the free
    descriptors do not suffice. *)
Definition add_buf (c : cookie) (q : vring) : bool * vring :=
  let n := length (_sg_vec q) in
  if (n <=? vq_free q)%nat then
    (true,
     set_sg [] (set_avail (vq_avail q ++ [{| ch_cookie := c; ch_sg := _sg_vec q |}])
                  (set_free (vq_free q - n) q)))
  else (false, q).

(** [get_buf_elem(&len)]: peek the next completed chain. *)
Definition get_buf_elem (q : vring) : option (cookie * Z) :=
  match vq_used q with
  | [] => None
  | e :: _ => Some (ch_cookie (ue_chain e), ue_len e)
  end.

(** [get_buf_finalize()]: commit the peek, recover its descriptors. *)
Definition get_buf_finalize (q : vring) : vring :=
  match vq_used q with
  | [] => q
  | e :: rest =>
      set_used rest (set_free (vq_free q + length (ch_sg (ue_chain e))) q)
  end.

(** The descriptors held by the completions not reclaimed yet. *)
Definition reclaimed (q : vring) : nat :=
  list_sum (map (fun e => length (ch_sg (ue_chain e))) (vq_used q)).

(** [get_buf_gc()]: bulk-drain all completed chains; returns the count. *)
Definition get_buf_gc (q : vring) : nat * vring :=
  (length (vq_used q), set_used [] (set_free (vq_free q + reclaimed q) q)).

(** [kick()]: notify the host. *)
Definition kick (q : vring) : vring := set_kicks (S (vq_kicks q)) q.

(** [enable_interrupts()] / [disable_interrupts()] toggle the flag. *)
Definition enable_interrupts (q : vring) : vring := set_intr true q.
Definition disable_interrupts (q : vring) : vring := set_intr false q.

(** The host side: it posts a completion on the used ring... *)
Definition host_push (e : used_elem) (q : vring) : vring :=
  set_used (vq_used q ++ [e]) q.

(** ... normally for the oldest chain published on the available ring,
    reporting [len] bytes written. *)
Definition host_complete (len : Z) (q : vring) : vring :=
  match vq_avail q with
  | [] => q
  | c :: rest => host_push {| ue_chain := c; ue_len := len |} (set_avail rest q)
  end.

Definition host_inject (es : list used_elem) (q : vring) : vring :=
  fold_left (fun q e => host_push e q) es q.

(** The staging vector and the available ring belong to the guest: two
    states of a queue that agree on them. *)
Definition same_pub (q q' : vring) : Prop :=
  _sg_vec q' = _sg_vec q /\ vq_avail q' = vq_avail q.

End WithCookie.

Arguments chain : clear implicits.
Arguments used_elem : clear implicits.
Arguments vring : clear implicits.

End Vring.

(** ** The scheduler and the host

    The driver thread and the host run concurrently; the host can only post
    completions.  An execution is an interleaving: at every instant the
    harness injects the completions scheduled for it, and the driver's
    accesses to the ring are atomic steps between two instants.  The
    interrupt handlers of the devices (which wake the waiting thread and,
    for the network device, clear the interrupt flag of the queue) are not
    part of an instant: what is stated of the flag below is stated of the
    queue right after the step that sets or clears it.
    [sched::thread::wait_until] ([osv/sched.hh], not among the sources)
    evaluates its closure, returns when it yields [true] and otherwise
    suspends the thread until the next wake-up, after which the closure is
    evaluated again. *)
Module Sched.
Import Vring.

Inductive event :=
| EvPred (have_elements : bool)
| EvEnable
| EvDisable
| EvSuspend
| EvReturn.

Section WithQueue.
Context {cookie : Type}.
Variable harness : nat -> list (used_elem cookie).

Record world := { now : nat; queue : vring cookie; trace : list event }.

(** The host's turn: the completions of instant [now] arrive. *)
Definition tick (w : world) : world :=
  {| now := S (now w);
     queue := host_inject (harness (now w)) (queue w);
     trace := trace w |}.

Definition emit (e : event) (w : world) : world :=
  {| now := now w; queue := queue w; trace := trace w ++ [e] |}.

Definition on_queue (f : vring cookie -> vring cookie) (w : world) : world :=
  {| now := now w; queue := f (queue w); trace := trace w |}.

Definition do_suspend (w : world) : world := emit EvSuspend (tick w).
Definition do_return (w : world) : world := emit EvReturn (tick w).

(** Modelled from the spec: [sched::thread::wait_until(closure)]; [fuel]
    bounds the number of times the closure is evaluated, [None] is a thread
    still suspended. *)
Fixpoint wait_until (closure : world -> bool * world) (fuel : nat) (w : world)
  : option world :=
  match fuel with
  | O => None
  | S fuel' =>
      let '(done, w') := closure w in
      if done then Some (do_return w')
      else wait_until closure fuel' (do_suspend w')
  end.

End WithQueue.

Arguments world : clear implicits.

End Sched.

(** ** [virtio_driver::wait_for_queue] ([drivers/virtio.cc]) *)
Module WaitForQueue.
Import Vring Sched.

Section WithQueue.
Context {cookie : Type}.
Variable pred : vring cookie -> bool.
Variable harness : nat -> list (used_elem cookie).

(** [(queue->*pred)()] *)
Definition eval_pred (w : world cookie) : bool * world cookie :=
  let w' := tick harness w in
  (pred (queue w'), emit (EvPred (pred (queue w'))) w').

(** [queue->enable_interrupts()] *)
Definition do_enable (w : world cookie) : world cookie :=
  emit EvEnable (on_queue enable_interrupts (tick harness w)).

(** [queue->disable_interrupts()] *)
Definition do_disable (w : world cookie) : world cookie :=
  emit EvDisable (on_queue disable_interrupts (tick harness w)).

(** The closure handed to [wait_until]. *)
Definition poll (w : world cookie) : bool * world cookie :=
  let '(have_elements, w) := eval_pred w in
  if negb have_elements then
    let w := do_enable w in
    let '(have_elements, w) := eval_pred w in
    if have_elements then (have_elements, do_disable w)
    else (have_elements, w)
  else (have_elements, w).

Definition wait_for_queue (fuel : nat) (w : world cookie) : option (world cookie) :=
  wait_until harness poll fuel w.

End WithQueue.

(** The check-enable-recheck discipline as a language of event
    sequences. *)
Fixpoint disciplined (evs : list event) : bool :=
  match evs with
  | EvPred true :: EvReturn :: [] => true
  | EvPred false :: EvEnable :: EvPred true :: EvDisable :: EvReturn :: [] => true
  | EvPred false :: EvEnable :: EvPred false :: EvSuspend :: rest => disciplined rest
  | _ => false
  end.

End WaitForQueue.

(** ** The entropy device ([drivers/virtio-rng.cc]) *)
Module Rng.
Import Vring Sched.
Local Open Scope Z_scope.

Definition byte := Byte.byte.

(** Arithmetic on [size_t]. *)
Definition size_t (z : Z) : Z := z mod 2 ^ 64.

(** Condition-variable signals sent so far. *)
Inductive signal := ProducerWakeOne | ConsumerWakeAll.

(** The queue's cookie is [void* data], the address of the refill buffer;
    the model identifies the address with the bytes found there when the
    completion is read. *)
Record rng := {
  _entropy : list byte;          (* the pool, front first *)
  _queue : vring (list byte);
  _now : nat;                    (* the instant, for the host's schedule *)
  signals : list signal
}.

Definition set_entropy (e : list byte) (r : rng) : rng :=
  {| _entropy := e; _queue := _queue r; _now := _now r; signals := signals r |}.

Definition set_world (w : world (list byte)) (r : rng) : rng :=
  {| _entropy := _entropy r; _queue := queue w; _now := now w;
     signals := signals r |}.

Definition signalled (s : signal) (r : rng) : rng :=
  {| _entropy := _entropy r; _queue := _queue r; _now := _now r;
     signals := signals r ++ [s] |}.

Definition world_of (r : rng) : world (list byte) :=
  {| now := _now r; queue := _queue r; trace := [] |}.

(** [rng::get_random_bytes(buf, size)].  [buf] is the caller's memory from
    the pointer onwards.  The body runs under [_mtx]; [None] is a caller
    still inside [_consumer.wait_until], the state untouched. *)
Definition get_random_bytes (buf : list byte) (size : Z) (r : rng)
  : option (Z * list byte * rng) :=
  if 0 <? Z.of_nat (length (_entropy r)) then
    let len := Z.min (Z.of_nat (length (_entropy r))) size in
    let buf := take (Z.to_nat len) (_entropy r) ++ drop (Z.to_nat len) buf in
    let r := set_entropy (drop (Z.to_nat len) (_entropy r)) r in
    let r := signalled ProducerWakeOne r in
    Some (len, buf, r)
  else None.

Section WithDevice.
(** [_pool_size] is declared in [virtio-rng.hh], not among the sources. *)
Variable _pool_size : Z.
(** The physical address of the refill buffer, chosen by the allocator. *)
Variable data_paddr : Z.
(** The completions the host posts on the queue, instant by instant. *)
Variable harness : nat -> list (used_elem (list byte)).
(** What the memory behind the refill buffer holds, byte by byte. *)
Variable beyond : nat -> byte.

(** The locals of [refill] that live across the dropped lock. *)
Record frame := { remaining : Z; buf : list byte }.

(** [refill], under the lock: [remaining] and the zero-filled buffer. *)
Definition refill_prologue (r : rng) : frame :=
  let remaining := size_t (_pool_size - Z.of_nat (length (_entropy r))) in
  {| remaining := remaining; buf := replicate (Z.to_nat remaining) Byte.x00 |}.

(** [sched::thread::wait_until([&] { return _queue->used_ring_can_gc(); })] *)
Definition can_gc_closure (w : world (list byte)) : bool * world (list byte) :=
  let w := tick harness w in (used_ring_can_gc (queue w), w).

(** The inner loop of [refill]: wait for room on the available ring. *)
Fixpoint make_room (fuel : nat) (w : world (list byte)) : option (world (list byte)) :=
  match fuel with
  | O => None
  | S fuel' =>
      if avail_ring_has_room (length (_sg_vec (queue w))) (queue w) then Some w
      else
        w ← wait_until harness can_gc_closure fuel' w;
        make_room fuel' (on_queue (fun q => snd (get_buf_gc q)) w)
  end.

(** The outer loop of [refill]: publish the staged buffer. *)
Fixpoint publish (data : list byte) (fuel : nat) (w : world (list byte))
  : option (world (list byte)) :=
  match fuel with
  | O => None
  | S fuel' =>
      let '(ok, q) := add_buf data (queue w) in
      if ok then Some (on_queue (fun _ => q) w)
      else
        w ← make_room fuel' (on_queue (fun _ => q) w);
        publish data fuel' w
  end.

(** [refill], with the lock dropped: the exchange with the host.  Returns
    the queue, the length the host reported and what the buffer holds. *)
Definition refill_dma (f : frame) (fuel : nat) (w : world (list byte))
  : option (world (list byte) * Z * list byte) :=
  let w := on_queue init_sg w in
  let w := on_queue (add_in_sg data_paddr (remaining f)) w in
  w ← publish (buf f) fuel w;
  let w := on_queue kick w in
  w ← WaitForQueue.wait_for_queue used_ring_not_empty harness fuel w;
  '(data, len) ← get_buf_elem (queue w);
  let w := on_queue get_buf_finalize w in
  Some (w, len, resize (Z.to_nat (remaining f)) Byte.x00 data).

(** [copy_n(buf.begin(), len, ...)] reads [len] bytes from the start of the
    vector, whatever its size: past its end, what the memory holds. *)
Definition copy_n (buf : list byte) (len : Z) : list byte :=
  take (Z.to_nat len) buf ++
  map beyond (seq 0 (Z.to_nat len - length buf)).

(** [refill], the lock reacquired: [copy_n(buf.begin(), len,
    back_inserter(_entropy))], with the length the host reported. *)
Definition refill_epilogue (buf : list byte) (len : Z) (r : rng) : rng :=
  set_entropy (_entropy r ++ copy_n buf len) r.

(** [rng::refill()] when no other thread runs in between. *)
Definition refill (fuel : nat) (r : rng) : option rng :=
  let f := refill_prologue r in
  '(w, len, buf) ← refill_dma f fuel (world_of r);
  Some (refill_epilogue buf len (set_world w r)).

(** One round of [rng::worker()], when no other thread runs in between;
    [None] is a worker still inside [_producer.wait_until] (or inside one of
    the waits of [refill]). *)
Definition worker_round (fuel : nat) (r : rng) : option rng :=
  if Z.of_nat (length (_entropy r)) <? _pool_size then
    r ← refill fuel r;
    Some (signalled ConsumerWakeAll r)
  else None.

(** The device with its threads: clients calling [get_random_bytes] and
    the worker, which is either waiting for the pool to drain or inside
    [DROP_LOCK] with the locals of [refill]. *)
Record system := { dev : rng; inflight : option frame }.

Inductive action :=
| Consume (buf : list byte) (size : Z)
| RefillBegin
| RefillEnd (fuel : nat).

Definition exec (a : action) (s : system) : option system :=
  match a, inflight s with
  | Consume buf size, _ =>
      '(_, _, r) ← get_random_bytes buf size (dev s);
      Some {| dev := r; inflight := inflight s |}
  | RefillBegin, None =>
      if Z.of_nat (length (_entropy (dev s))) <? _pool_size then
        Some {| dev := dev s; inflight := Some (refill_prologue (dev s)) |}
      else None
  | RefillEnd fuel, Some f =>
      '(w, len, buf) ← refill_dma f fuel (world_of (dev s));
      let r := refill_epilogue buf len (set_world w (dev s)) in
      Some {| dev := signalled ConsumerWakeAll r; inflight := None |}
  | _, _ => None
  end.

Fixpoint run (acts : list action) (s : system) : option system :=
  match acts with
  | [] => Some s
  | a :: acts => s ← exec a s; run acts s
  end.

(** The bound on the pool, with the room the worker has reserved while it
    is inside [DROP_LOCK]. *)
Definition pool_inv (s : system) : Prop :=
  Z.of_nat (length (_entropy (dev s))) <= _pool_size /\
  match inflight s with
  | None => True
  | Some f =>
      0 <= remaining f /\
      Z.of_nat (length (_entropy (dev s))) + remaining f <= _pool_size
  end.

End WithDevice.

(** The state the constructor leaves: an empty pool. *)
Definition init (q : vring (list byte)) : system :=
  {| dev := {| _entropy := []; _queue := q; _now := 0; signals := [] |};
     inflight := None |}.

End Rng.

(** ** The transport core ([drivers/virtio.cc]) *)
Module Virtio.
Import Vring.
Local Open Scope Z_scope.

(** The constants of [drivers/virtio.hh], which is not among the sources;
    the code is embedded over any choice of them. *)
Record virtio_hh := {
  VIRTIO_PCI_ABI_VERSION : Z;
  VIRTIO_PCI_ID_MIN : Z;
  VIRTIO_PCI_ID_MAX : Z;
  VIRTIO_CONFIG_S_ACKNOWLEDGE : Z;
  VIRTIO_CONFIG_S_DRIVER : Z;
  VIRTIO_CONFIG_S_DRIVER_OK : Z;
  VIRTIO_PCI_QUEUE_ADDR_SHIFT : Z;
  max_virtqueues_nr : Z
}.

(** Their values in the legacy virtio PCI interface. *)
Definition legacy : virtio_hh :=
  {| VIRTIO_PCI_ABI_VERSION := 0;
     VIRTIO_PCI_ID_MIN := 0x1000;
     VIRTIO_PCI_ID_MAX := 0x103f;
     VIRTIO_CONFIG_S_ACKNOWLEDGE := 1;
     VIRTIO_CONFIG_S_DRIVER := 2;
     VIRTIO_CONFIG_S_DRIVER_OK := 4;
     VIRTIO_PCI_QUEUE_ADDR_SHIFT := 12;
     max_virtqueues_nr := 64 |}.

(** Modelled from the spec: the registers of the transport behind BAR1
    (the register map of section 6). *)
Inductive reg :=
| VIRTIO_PCI_HOST_FEATURES
| VIRTIO_PCI_GUEST_FEATURES
| VIRTIO_PCI_QUEUE_PFN
| VIRTIO_PCI_QUEUE_NUM
| VIRTIO_PCI_QUEUE_SEL
| VIRTIO_PCI_QUEUE_NOTIFY
| VIRTIO_PCI_STATUS
| VIRTIO_PCI_ISR
| VIRTIO_MSI_CONFIG_VECTOR
| VIRTIO_MSI_QUEUE_VECTOR.

(** The PCI function handed to the driver ([pci::device], an external
    collaborator) and what the host answers behind it. *)
Record pci_device := {
  pci_parse_ok : bool;            (* pci::device::parse_pci_config() *)
  pci_has_bar1 : bool;            (* get_bar(1) != nullptr *)
  pci_revision_id : Z;            (* u8 *)
  pci_device_id : Z;              (* u16 *)
  pci_is_msix : bool;
  host_features : Z;              (* HOST_FEATURES *)
  host_queue_num : Z -> Z;        (* QUEUE_NUM of each queue, 0 when absent *)
  host_takes_vector : Z -> bool   (* does the host accept a vector for the queue *)
}.

(** What the driver does to the outside. *)
Inductive io :=
| IoSetBusMaster (on : bool)
| IoMsixEnable
| IoWrite (width : Z) (r : reg) (v : Z)
| IoRead (width : Z) (r : reg) (v : Z)
| IoNewVring (index : Z) (num : Z).

Section WithCookie.
Context {cookie : Type}.
Variable hh : virtio_hh.
(** [sched::cpus.size()] *)
Variable ncpus : Z.
(** The physical address the allocator gives to the ring of each queue. *)
Variable alloc_paddr : Z -> Z.

Record virtio_driver := {
  _dev : pci_device;
  _num_queues : Z;
  _queues : list (option (vring cookie));
  _bar1 : bool;                   (* _bar1 != nullptr *)
  h_status : Z;                   (* the host's side of the registers *)
  h_queue_sel : Z;
  h_guest_features : Z;
  h_vector : Z -> Z;
  h_pfn : Z -> Z;
  log : list io
}.

Definition set_num_queues (n : Z) (s : virtio_driver) : virtio_driver :=
  {| _dev := _dev s; _num_queues := n; _queues := _queues s; _bar1 := _bar1 s;
     h_status := h_status s; h_queue_sel := h_queue_sel s;
     h_guest_features := h_guest_features s; h_vector := h_vector s;
     h_pfn := h_pfn s; log := log s |}.

Definition set_queues (qs : list (option (vring cookie))) (s : virtio_driver)
  : virtio_driver :=
  {| _dev := _dev s; _num_queues := _num_queues s; _queues := qs;
     _bar1 := _bar1 s; h_status := h_status s; h_queue_sel := h_queue_sel s;
     h_guest_features := h_guest_features s; h_vector := h_vector s;
     h_pfn := h_pfn s; log := log s |}.

Definition set_bar1 (b : bool) (s : virtio_driver) : virtio_driver :=
  {| _dev := _dev s; _num_queues := _num_queues s; _queues := _queues s;
     _bar1 := b; h_status := h_status s; h_queue_sel := h_queue_sel s;
     h_guest_features := h_guest_features s; h_vector := h_vector s;
     h_pfn := h_pfn s; log := log s |}.

Definition logged (e : io) (s : virtio_driver) : virtio_driver :=
  {| _dev := _dev s; _num_queues := _num_queues s; _queues := _queues s;
     _bar1 := _bar1 s; h_status := h_status s; h_queue_sel := h_queue_sel s;
     h_guest_features := h_guest_features s; h_vector := h_vector s;
     h_pfn := h_pfn s; log := log s ++ [e] |}.

Definition upd (f : Z -> Z) (i v : Z) : Z -> Z :=
  fun j => if j =? i then v else f j.

(** Modelled from the spec: the host's side of a register write. *)
Definition host_write (r : reg) (v : Z) (s : virtio_driver) : virtio_driver :=
  match r with
  | VIRTIO_PCI_STATUS =>
      {| _dev := _dev s; _num_queues := _num_queues s; _queues := _queues s;
         _bar1 := _bar1 s; h_status := v; h_queue_sel := h_queue_sel s;
         h_guest_features := h_guest_features s; h_vector := h_vector s;
         h_pfn := h_pfn s; log := log s |}
  | VIRTIO_PCI_QUEUE_SEL =>
      {| _dev := _dev s; _num_queues := _num_queues s; _queues := _queues s;
         _bar1 := _bar1 s; h_status := h_status s; h_queue_sel := v;
         h_guest_features := h_guest_features s; h_vector := h_vector s;
         h_pfn := h_pfn s; log := log s |}
  | VIRTIO_PCI_GUEST_FEATURES =>
      {| _dev := _dev s; _num_queues := _num_queues s; _queues := _queues s;
         _bar1 := _bar1 s; h_status := h_status s; h_queue_sel := h_queue_sel s;
         h_guest_features := v; h_vector := h_vector s;
         h_pfn := h_pfn s; log := log s |}
  | VIRTIO_MSI_QUEUE_VECTOR =>
      let v := if host_takes_vector (_dev s) (h_queue_sel s) then v else 0xffff in
      {| _dev := _dev s; _num_queues := _num_queues s; _queues := _queues s;
         _bar1 := _bar1 s; h_status := h_status s; h_queue_sel := h_queue_sel s;
         h_guest_features := h_guest_features s;
         h_vector := upd (h_vector s) (h_queue_sel s) v;
         h_pfn := h_pfn s; log := log s |}
  | VIRTIO_PCI_QUEUE_PFN =>
      {| _dev := _dev s; _num_queues := _num_queues s; _queues := _queues s;
         _bar1 := _bar1 s; h_status := h_status s; h_queue_sel := h_queue_sel s;
         h_guest_features := h_guest_features s; h_vector := h_vector s;
         h_pfn := upd (h_pfn s) (h_queue_sel s) v; log := log s |}
  | _ => s
  end.

(** Modelled from the spec: the host's answer to a register read. *)
Definition host_read (r : reg) (s : virtio_driver) : Z :=
  match r with
  | VIRTIO_PCI_HOST_FEATURES => host_features (_dev s)
  | VIRTIO_PCI_GUEST_FEATURES => h_guest_features s
  | VIRTIO_PCI_QUEUE_PFN => h_pfn s (h_queue_sel s)
  | VIRTIO_PCI_QUEUE_NUM => host_queue_num (_dev s) (h_queue_sel s)
  | VIRTIO_PCI_QUEUE_SEL => h_queue_sel s
  | VIRTIO_PCI_STATUS => h_status s
  | VIRTIO_MSI_QUEUE_VECTOR => h_vector s (h_queue_sel s)
  | _ => 0
  end.

(** The driver's code: a state monad with two ways not to finish. *)
Inductive result (A : Type) :=
| Done (a : A) (s : virtio_driver)
| Fault (s : virtio_driver)        (* a null [_bar1] was dereferenced *)
| OutOfFuel.                         (* the fuel of a loop ran out *)
Arguments Done {A}.
Arguments Fault {A}.
Arguments OutOfFuel {A}.

Definition M (A : Type) : Type := virtio_driver -> result A.

Definition ret {A} (a : A) : M A := fun s => Done a s.

Definition bind {A B} (m : M A) (k : A -> M B) : M B :=
  fun s => match m s with
           | Done a s' => k a s'
           | Fault s' => Fault s'
           | OutOfFuel => OutOfFuel
           end.

Notation "x <- m ;; k" := (bind m (fun x => k))
  (at level 20, m at level 99, k at level 200, only parsing).
Notation "m ;;; k" := (bind m (fun _ => k))
  (at level 100, k at level 200, only parsing, right associativity).

Definition get {A} (f : virtio_driver -> A) : M A := fun s => Done (f s) s.
Definition modify (f : virtio_driver -> virtio_driver) : M unit :=
  fun s => Done tt (f s).

(** [virtio_conf_write{b,w,l}] and [virtio_conf_read{b,w,l}]: accesses
    through [_bar1]. *)
Definition virtio_conf_write (width : Z) (r : reg) (v : Z) : M unit :=
  fun s =>
    if _bar1 s then
      let v := v mod 2 ^ width in
      Done tt (host_write r v (logged (IoWrite width r v) s))
    else Fault s.

Definition virtio_conf_read (width : Z) (r : reg) : M Z :=
  fun s =>
    if _bar1 s then
      let v := host_read r s mod 2 ^ width in
      Done v (logged (IoRead width r v) s)
    else Fault s.

Definition virtio_conf_writeb := virtio_conf_write 8.
Definition virtio_conf_writew := virtio_conf_write 16.
Definition virtio_conf_writel := virtio_conf_write 32.
Definition virtio_conf_readb := virtio_conf_read 8.
Definition virtio_conf_readw := virtio_conf_read 16.
Definition virtio_conf_readl := virtio_conf_read 32.

(** [virtio_driver::parse_pci_config()] *)
Definition parse_pci_config : M bool :=
  ok <- get (fun s => pci_parse_ok (_dev s)) ;;
  if negb ok then ret false
  else
    modify (fun s => set_bar1 (pci_has_bar1 (_dev s)) s) ;;;
    bar1 <- get _bar1 ;;
    if negb bar1 then ret false
    else
      rev <- get (fun s => pci_revision_id (_dev s)) ;;
      if negb (rev =? VIRTIO_PCI_ABI_VERSION hh) then ret false
      else
        dev_id <- get (fun s => pci_device_id (_dev s)) ;;
        if (dev_id <? VIRTIO_PCI_ID_MIN hh) || (dev_id >? VIRTIO_PCI_ID_MAX hh)
        then ret false
        else ret true.

(** [get_dev_status], [set_dev_status], [add_dev_status],
    [del_dev_status], [reset_host_side] *)
Definition get_dev_status : M Z := virtio_conf_readb VIRTIO_PCI_STATUS.

Definition set_dev_status (status : Z) : M unit :=
  virtio_conf_writeb VIRTIO_PCI_STATUS status.

Definition add_dev_status (status : Z) : M unit :=
  old <- get_dev_status ;;
  set_dev_status (Z.lor old status).

Definition del_dev_status (status : Z) : M unit :=
  old <- get_dev_status ;;
  set_dev_status (Z.land old (Z.lnot status)).

Definition reset_host_side : M unit := set_dev_status 0.

(** [virtio_driver::kick(queue)] *)
Definition kick (queue : Z) : M bool :=
  virtio_conf_writew VIRTIO_PCI_QUEUE_NOTIFY queue ;;;
  ret true.

(** The state before the body of the constructor runs. *)
Definition fresh (dev : pci_device) : virtio_driver :=
  {| _dev := dev; _num_queues := 0;
     _queues := replicate (Z.to_nat (max_virtqueues_nr hh)) None;
     _bar1 := false; h_status := 0; h_queue_sel := 0; h_guest_features := 0;
     h_vector := fun _ => 0xffff; h_pfn := fun _ => 0; log := [] |}.

(** [virtio_driver::virtio_driver(dev)]; the result of
    [parse_pci_config()] is not looked at. *)
Definition ctor : M unit :=
  _ <- parse_pci_config ;;
  modify (logged (IoSetBusMaster true)) ;;;
  modify (logged IoMsixEnable) ;;;
  reset_host_side ;;;
  add_dev_status (Z.lor (VIRTIO_CONFIG_S_ACKNOWLEDGE hh) (VIRTIO_CONFIG_S_DRIVER hh)).

Definition virtio_driver_new (dev : pci_device) : result unit := ctor (fresh dev).

(** [virtio_driver::probe_virt_queues()].  Each round of the [do ... while
    (true)] either leaves the function or goes round again. *)
Fixpoint probe_virt_queues (fuel : nat) : M unit :=
  match fuel with
  | O => fun _ => OutOfFuel
  | S fuel' =>
      n <- get _num_queues ;;
      if n >=? max_virtqueues_nr hh then ret tt
      else
        virtio_conf_writew VIRTIO_PCI_QUEUE_SEL n ;;;
        qsize <- virtio_conf_readw VIRTIO_PCI_QUEUE_NUM ;;
        if 0 =? qsize then ret tt
        else
          let queue := new_vring (Z.to_nat qsize) (alloc_paddr n) in
          modify (logged (IoNewVring n qsize)) ;;;
          modify (fun s => set_queues (<[Z.to_nat n := Some queue]> (_queues s)) s) ;;;
          msix <- get (fun s => pci_is_msix (_dev s)) ;;
          bound <-
            (if msix then
               virtio_conf_writew VIRTIO_MSI_QUEUE_VECTOR n ;;;
               v <- virtio_conf_readw VIRTIO_MSI_QUEUE_VECTOR ;;
               ret (v =? n)
             else ret true) ;;
          if negb bound then ret tt
          else
            modify (set_num_queues ((n + 1) mod 2 ^ 32)) ;;;
            virtio_conf_writel VIRTIO_PCI_QUEUE_PFN
              (Z.shiftr (get_paddr queue) (VIRTIO_PCI_QUEUE_ADDR_SHIFT hh)) ;;;
            n' <- get _num_queues ;;
            if n' >=? 2 * ncpus then ret tt
            else probe_virt_queues fuel'
  end.

(** [virtio_driver::get_virt_queue(idx)] *)
Definition get_virt_queue (idx : Z) (s : virtio_driver) : option (vring cookie) :=
  if idx >=? _num_queues s then None
  else mjoin (_queues s !! Z.to_nat idx).

(** The transport part of [rng::rng(pci_dev)] ([drivers/virtio-rng.cc]):
    the base constructor, [probe_virt_queues()], [_queue =
    get_virt_queue(0)], [add_dev_status(VIRTIO_CONFIG_S_DRIVER_OK)]. *)
Definition rng_new (fuel : nat) (dev : pci_device)
  : result (option (vring cookie)) :=
  (ctor ;;;
   probe_virt_queues fuel ;;;
   _queue <- get (get_virt_queue 0) ;;
   add_dev_status (VIRTIO_CONFIG_S_DRIVER_OK hh) ;;;
   ret _queue) (fresh dev).

(** [for (idx = 0; idx < _num_queues / 2; idx++) body(idx)], the loop over
    the queue pairs that [net::net] runs four times. *)
Fixpoint for_pairs (fuel : nat) (idx : Z) (body : Z -> M unit) : M unit :=
  match fuel with
  | O => fun _ => OutOfFuel
  | S fuel' =>
      n <- get _num_queues ;;
      if idx <? n / 2 then
        body idx ;;;
        for_pairs fuel' ((idx + 1) mod 2 ^ 32) body
      else ret tt
  end.

(** The transport part of [net::net(dev)] ([drivers/virtio-net.cc]): the
    base constructor, the loops over the queue pairs and
    [add_dev_status(VIRTIO_CONFIG_S_DRIVER_OK)], which is not reached when
    [if_alloc] fails.  The bodies of the loops belong to the network
    layer and are taken as they come: creating [_rxq[idx]] and [_txq[idx]],
    adding up the sizes of the transmit rings, starting the poll task, and
    registering the interrupt and filling the receive ring.  Neither
    [probe_virt_queues()] nor [setup_features()] is called. *)
Definition net_new (new_pair sum_size start_poll irq_and_fill : Z -> M unit)
    (if_alloc_ok : bool) (fuel : nat) (dev : pci_device) : result bool :=
  (ctor ;;;
   for_pairs fuel 0 new_pair ;;;
   if negb if_alloc_ok then ret false
   else
     for_pairs fuel 0 sum_size ;;;
     for_pairs fuel 0 start_poll ;;;
     for_pairs fuel 0 irq_and_fill ;;;
     add_dev_status (VIRTIO_CONFIG_S_DRIVER_OK hh) ;;;
     ret true) (fresh dev).

(** Does the device pass the four checks of [parse_pci_config]? *)
Definition acceptable (dev : pci_device) : bool :=
  pci_parse_ok dev && pci_has_bar1 dev
  && (pci_revision_id dev =? VIRTIO_PCI_ABI_VERSION hh)
  && (VIRTIO_PCI_ID_MIN hh <=? pci_device_id dev)
  && (pci_device_id dev <=? VIRTIO_PCI_ID_MAX hh).

(** The status values written so far, oldest first. *)
Definition status_writes (l : list io) : list Z :=
  omap (fun e => match e with
                 | IoWrite _ VIRTIO_PCI_STATUS v => Some v
                 | _ => None
                 end) l.

(** The queue indices selected so far, oldest first. *)
Definition queue_selects (l : list io) : list Z :=
  omap (fun e => match e with
                 | IoWrite _ VIRTIO_PCI_QUEUE_SEL v => Some v
                 | _ => None
                 end) l.

(** The queue indices from [from] up to the transport cap, in order. *)
Definition queue_indices (from : Z) : list Z :=
  Z.of_nat <$> seq (Z.to_nat from) (Z.to_nat (max_virtqueues_nr hh - from)).

(** The enumeration of the queues in the words of the specification (step 6
    of the probe sequence, the control queue left out), as the accesses it
    makes over the indices still to visit: select the index and read its
    size; a size of 0 ends the enumeration; otherwise a ring of that size
    is allocated, with MSI-X the vector of the same number is written for
    the queue and read back, a vector the host did not take ending the
    enumeration, and the page frame number of the ring is written; the
    enumeration ends after [2 * ncpus] queues, or with the indices. *)
Fixpoint spec_enumeration (dev : pci_device) (indices : list Z) : list io :=
  match indices with
  | [] => []
  | n :: rest =>
      let qsize := host_queue_num dev n mod 2 ^ 16 in
      [IoWrite 16 VIRTIO_PCI_QUEUE_SEL n; IoRead 16 VIRTIO_PCI_QUEUE_NUM qsize] ++
      if 0 =? qsize then []
      else
        [IoNewVring n qsize] ++
        (if pci_is_msix dev then
           [IoWrite 16 VIRTIO_MSI_QUEUE_VECTOR n;
            IoRead 16 VIRTIO_MSI_QUEUE_VECTOR
              (if host_takes_vector dev n then n else 0xffff)]
         else []) ++
        if negb (pci_is_msix dev) || host_takes_vector dev n then
          [IoWrite 32 VIRTIO_PCI_QUEUE_PFN
             (Z.shiftr (alloc_paddr n) (VIRTIO_PCI_QUEUE_ADDR_SHIFT hh) mod 2 ^ 32)] ++
          if n + 1 >=? 2 * ncpus then [] else spec_enumeration dev rest
        else []
  end.

(** The accesses that configure queues: anything but bus mastering,
    MSI-X enabling, and writes to the status or the feature register. *)
Definition queue_io (e : io) : bool :=
  match e with
  | IoSetBusMaster _ | IoMsixEnable => false
  | IoWrite _ VIRTIO_PCI_STATUS _ => false
  | IoWrite _ VIRTIO_PCI_GUEST_FEATURES _ => false
  | _ => true
  end.

(** Feature negotiation and queue configuration: the accesses to the
    feature registers and to the queue registers, and the allocation of a
    ring. *)
Definition negotiation_or_queue_io (e : io) : bool :=
  match e with
  | IoWrite _ r _ | IoRead _ r _ =>
      match r with
      | VIRTIO_PCI_HOST_FEATURES | VIRTIO_PCI_GUEST_FEATURES
      | VIRTIO_PCI_QUEUE_PFN | VIRTIO_PCI_QUEUE_NUM | VIRTIO_PCI_QUEUE_SEL
      | VIRTIO_PCI_QUEUE_NOTIFY | VIRTIO_MSI_QUEUE_VECTOR => true
      | _ => false
      end
  | IoNewVring _ _ => true
  | _ => false
  end.

(** Some status write sets [ACKNOWLEDGE] and leaves [DRIVER] clear. *)
Definition acknowledge_alone (ws : list Z) : bool :=
  existsb (fun v => negb (Z.land v (VIRTIO_CONFIG_S_ACKNOWLEDGE hh) =? 0)
                    && (Z.land v (VIRTIO_CONFIG_S_DRIVER hh) =? 0)) ws.

End WithCookie.

Arguments virtio_driver : clear implicits.
Arguments result : clear implicits.
Arguments Done {cookie A}.
Arguments Fault {cookie A}.
Arguments OutOfFuel {cookie A}.

End Virtio.

(** ** The network device ([drivers/virtio-net.cc]) *)
Module Net.
Import Vring.
Local Open Scope Z_scope.

(** The constants of the BSD network headers ([bsd/sys/net/ethernet.h],
    [netinet/ip.h], [netinet/udp.h], [netinet/tcp.h], [sys/mbuf.h]), which
    are not among the sources; the code is embedded over any choice of
    them. *)
Record bsd_hh := {
  sizeof_ether_header : Z;
  sizeof_ip : Z;
  sizeof_udphdr : Z;
  offsetof_ether_type : Z;        (* offsetof(struct ether_header, ether_type) *)
  offsetof_evl_proto : Z;         (* offsetof(struct ether_vlan_header, evl_proto) *)
  offsetof_uh_sum : Z;            (* offsetof(struct udphdr, uh_sum) *)
  offsetof_th_sum : Z;            (* offsetof(struct tcphdr, th_sum) *)
  ETHERTYPE_VLAN : Z;
  ETHERTYPE_IP : Z;
  CSUM_DATA_VALID : Z;
  CSUM_PSEUDO_HDR : Z
}.

(** Modelled from the spec: the ethernet header is 14 bytes and the IP
    header 20 (section 8, scenarios 4 and 5); the other values are those of
    the protocols and of FreeBSD's [mbuf.h]. *)
Definition bsd : bsd_hh :=
  {| sizeof_ether_header := 14;
     sizeof_ip := 20;
     sizeof_udphdr := 8;
     offsetof_ether_type := 12;
     offsetof_evl_proto := 16;
     offsetof_uh_sum := 6;
     offsetof_th_sum := 16;
     ETHERTYPE_VLAN := 0x8100;
     ETHERTYPE_IP := 0x0800;
     CSUM_DATA_VALID := 0x0400;
     CSUM_PSEUDO_HDR := 0x0800 |}.

(** One [struct mbuf]: the fields the driver reads or writes.  A packet is
    the list of its fragments, head first ([m_hdr.mh_next] links them); the
    packet header fields are those of the head. *)
Record mbuf := {
  mh_len : Z;                     (* int *)
  mh_data : list Z;               (* the bytes at [mh_data] *)
  mh_paddr : Z;                   (* where they live *)
  csum_flags : Z;
  csum_data : Z
}.

(** [struct net_hdr] and [struct net_hdr_mrg_rxbuf] *)
Record net_hdr := {
  flags : Z;
  gso_type : Z;
  hdr_len : Z;
  gso_size : Z;
  csum_start : Z;
  csum_offset : Z
}.

Record net_hdr_mrg_rxbuf := { hdr : net_hdr; num_buffers : Z }.

(** *** Receive checksum *)

Definition byte_at (m : mbuf) (off : Z) : Z := nth (Z.to_nat off) (mh_data m) 0.

(** [ntohs] of the 16-bit field at [off]. *)
Definition ntohs_at (m : mbuf) (off : Z) : Z :=
  Z.lor (Z.shiftl (byte_at m off) 8) (byte_at m (off + 1)).

(** The 16-bit field at [off] as the (little-endian) guest reads it. *)
Definition u16_at (m : mbuf) (off : Z) : Z :=
  Z.lor (byte_at m off) (Z.shiftl (byte_at m (off + 1)) 8).

Section WithHeaders.
Variable hh : bsd_hh.

(** The ethertype, behind the VLAN tag if there is one. *)
Definition eth_type_of (m : mbuf) : Z :=
  let eth_type := ntohs_at m (offsetof_ether_type hh) in
  if eth_type =? ETHERTYPE_VLAN hh then ntohs_at m (offsetof_evl_proto hh)
  else eth_type.

Definition csum_valid (m : mbuf) : mbuf :=
  {| mh_len := mh_len m; mh_data := mh_data m; mh_paddr := mh_paddr m;
     csum_flags := Z.lor (csum_flags m)
                     (Z.lor (CSUM_DATA_VALID hh) (CSUM_PSEUDO_HDR hh));
     csum_data := 0xFFFF |}.

(** [net::bad_rx_csum(m, hdr)]: [true] when the checksum is bad. *)
Definition bad_rx_csum (m : mbuf) (hdr : net_hdr) : bool * mbuf :=
  let csum_len := csum_start hdr + csum_offset hdr in
  if csum_len <? sizeof_ether_header hh + sizeof_ip hh then (true, m)
  else if mh_len m <? csum_len then (true, m)
  else
    let eth_type := eth_type_of m in
    if negb (eth_type =? ETHERTYPE_IP hh) then (true, m)
    else if csum_offset hdr =? offsetof_uh_sum hh then
      if mh_len m <? csum_start hdr + sizeof_udphdr hh then (true, m)
      else if u16_at m (csum_start hdr + offsetof_uh_sum hh) =? 0 then (false, m)
      else (false, csum_valid m)
    else if csum_offset hdr =? offsetof_th_sum hh then (false, csum_valid m)
    else (true, m).

(** The decision procedure as the specification words it: reject when
    [csum_start + csum_offset] is shorter than the ethernet plus IP headers
    or than the first fragment, or when the ethertype is not IPv4, or when
    [csum_offset] is neither checksum field; accept untouched a UDP
    checksum of zero; accept and mark otherwise. *)
Definition bad_rx_csum_worded (m : mbuf) (hdr : net_hdr) : bool * mbuf :=
  let csum_len := csum_start hdr + csum_offset hdr in
  if (csum_len <? sizeof_ether_header hh + sizeof_ip hh)
     || (csum_len <? mh_len m)
     || negb (eth_type_of m =? ETHERTYPE_IP hh)
     || negb ((csum_offset hdr =? offsetof_uh_sum hh)
              || (csum_offset hdr =? offsetof_th_sum hh))
  then (true, m)
  else if (csum_offset hdr =? offsetof_uh_sum hh)
          && (u16_at m (csum_start hdr + offsetof_uh_sum hh) =? 0)
  then (false, m)
  else (false, csum_valid m).

End WithHeaders.

(** *** Transmit *)

Inductive errno := EINVAL | ENOBUFS.

Record txq_stats := {
  tx_packets : Z;                 (* u64 counters *)
  tx_bytes : Z;
  tx_err : Z;
  tx_drops : Z;
  tx_csum : Z;
  tx_tso : Z
}.

Definition u64 (z : Z) : Z := z mod 2 ^ 64.
Definition u16 (z : Z) : Z := z mod 2 ^ 16.

(** [struct net_req]: the header sent ahead of the packet, and the packet
    it owns. *)
Record net_req := { mhdr : net_hdr_mrg_rxbuf; um : list mbuf }.

Record txq := { vqueue : vring net_req; stats : txq_stats }.

Record net := {
  _num_queues : Z;
  _txq : list txq;                (* the [_num_queues / 2] queues set up *)
  _hdr_size : Z;
  kicked : list Z                 (* queues notified, oldest first *)
}.

Definition set_txq (idx : nat) (t : txq) (n : net) : net :=
  {| _num_queues := _num_queues n; _txq := <[idx := t]> (_txq n);
     _hdr_size := _hdr_size n; kicked := kicked n |}.

(** Ways not to return. *)
Inductive outcome (A : Type) :=
| Ok (a : A)
| Undefined                       (* an access outside [_txq], a null packet *)
| OutOfFuel.
Arguments Ok {A}.
Arguments Undefined {A}.
Arguments OutOfFuel {A}.

(** [net::pick_txq(m)]: the index, and what [printf] was given. *)
Definition pick_txq (cpu_id : Z) (n : net) : Z * option Z :=
  let idx := cpu_id in
  (idx, if idx >=? _num_queues n / 2 then Some idx else None).

(** [net::tx_gc(idx)], on the queue: the loop, then [get_buf_gc()]. *)
Fixpoint tx_gc_loop (fuel : nat) (vq : vring net_req) : outcome (vring net_req) :=
  match get_buf_elem vq with
  | None => Ok vq
  | Some _ =>
      match fuel with
      | O => OutOfFuel
      | S fuel' => tx_gc_loop fuel' (get_buf_finalize vq)
      end
  end.

Definition tx_gc (fuel : nat) (vq : vring net_req) : outcome (vring net_req) :=
  match tx_gc_loop fuel vq with
  | Ok vq => Ok (snd (get_buf_gc vq))
  | Undefined => Undefined
  | OutOfFuel => OutOfFuel
  end.

(** [net_hdr::VIRTIO_NET_HDR_F_NEEDS_CSUM], from [virtio-net.hh] (not among
    the sources): its value in the virtio interface. *)
Definition VIRTIO_NET_HDR_F_NEEDS_CSUM : Z := 1.

Section WithOffload.
(** [net::tx_offload(m, hdr)], taken as given: the packet (after
    [m_pullup]) and the header it filled, or [nullptr]. *)
Variable tx_offload : list mbuf -> net_hdr -> option (list mbuf * net_hdr).
(** The address [new net_req] returns. *)
Variable req_paddr : Z.

Definition zero_hdr : net_hdr_mrg_rxbuf :=
  {| hdr := {| flags := 0; gso_type := 0; hdr_len := 0; gso_size := 0;
               csum_start := 0; csum_offset := 0 |};
     num_buffers := 0 |}.

(** The loop over the fragments: the scatter-gather entries, the count of
    buffers and the bytes. *)
Definition stage_frags (frags : list mbuf) (acc : vring net_req * Z * Z)
  : vring net_req * Z * Z :=
  fold_left
    (fun '(vq, num_buffers, tx_bytes) m =>
       let frag_len := mh_len m in
       if negb (frag_len =? 0) then
         (add_out_sg (mh_paddr m) (mh_len m) vq,
          u16 (num_buffers + 1), u64 (tx_bytes + frag_len))
       else (vq, num_buffers, tx_bytes))
    frags acc.

(** The statistics update at [out:]. *)
Definition account (rc : option errno) (tx_bytes : Z) (req : net_req)
    (st : txq_stats) : txq_stats :=
  match rc with
  | None =>
      {| tx_packets := u64 (tx_packets st + 1);
         tx_bytes := u64 (Net.tx_bytes st + tx_bytes);
         tx_err := tx_err st; tx_drops := tx_drops st;
         tx_csum := if negb (Z.land (flags (hdr (mhdr req)))
                                    VIRTIO_NET_HDR_F_NEEDS_CSUM =? 0)
                    then u64 (tx_csum st + 1) else tx_csum st;
         tx_tso := if negb (gso_type (hdr (mhdr req)) =? 0)
                   then u64 (tx_tso st + 1) else tx_tso st |}
  | Some ENOBUFS =>
      {| tx_packets := tx_packets st; tx_bytes := Net.tx_bytes st;
         tx_err := tx_err st; tx_drops := u64 (tx_drops st + 1);
         tx_csum := tx_csum st; tx_tso := tx_tso st |}
  | Some _ =>
      {| tx_packets := tx_packets st; tx_bytes := Net.tx_bytes st;
         tx_err := u64 (tx_err st + 1); tx_drops := tx_drops st;
         tx_csum := tx_csum st; tx_tso := tx_tso st |}
  end.

Definition finish (idx : nat) (rc : option errno) (tx_bytes : Z) (req : net_req)
    (vq : vring net_req) (t : txq) (n : net) : outcome (option errno * net) :=
  Ok (rc, set_txq idx {| vqueue := vq; stats := account rc tx_bytes req (stats t) |} n).

(** The first step of [tx_locked]: [tx_offload] when the packet asks for
    an offload. *)
Definition offload (m_head : list mbuf) : option (list mbuf * net_hdr) :=
  match m_head with
  | [] => None
  | m :: _ =>
      if negb (csum_flags m =? 0) then tx_offload m_head (hdr zero_hdr)
      else Some (m_head, hdr zero_hdr)
  end.

(** The scatter-gather of a packet: the header, then every fragment that
    is not empty. *)
Definition tx_stage (n : net) (vq : vring net_req) (m_head : list mbuf)
  : vring net_req * Z * Z :=
  let vq := init_sg vq in
  let vq := add_out_sg req_paddr (_hdr_size n) vq in
  stage_frags m_head (vq, 0, 0).

(** The test for room: the queue to publish on, or [None] for "no room
    and nothing to reclaim". *)
Definition tx_room (fuel : nat) (vq : vring net_req)
  : outcome (option (vring net_req)) :=
  if negb (avail_ring_has_room (length (_sg_vec vq)) vq) then
    if used_ring_not_empty vq then
      match tx_gc fuel vq with
      | Ok vq => Ok (Some vq)
      | Undefined => Undefined
      | OutOfFuel => OutOfFuel
      end
    else Ok None
  else Ok (Some vq).

(** [net::tx_locked(idx, m_head)]: [None] is the return value 0. *)
Definition tx_locked (fuel : nat) (idx : Z) (m_head : list mbuf) (n : net)
  : outcome (option errno * net) :=
  match _txq n !! Z.to_nat idx, m_head with
  | None, _ | _, [] => Undefined
  | Some t, _ :: _ =>
      let idx := Z.to_nat idx in
      let req := {| mhdr := zero_hdr; um := m_head |} in
      match offload m_head with
      | None => finish idx (Some EINVAL) 0 req (vqueue t) t n
      | Some (m_head, h) =>
          let '(vq, num_buffers, tx_bytes) := tx_stage n (vqueue t) m_head in
          let req := {| mhdr := {| hdr := h; num_buffers := num_buffers |};
                        um := m_head |} in
          match tx_room fuel vq with
          | Undefined => Undefined
          | OutOfFuel => OutOfFuel
          | Ok None => finish idx (Some ENOBUFS) tx_bytes req vq t n
          | Ok (Some vq) =>
              let '(ok, vq) := add_buf req vq in
              if negb ok then finish idx (Some ENOBUFS) tx_bytes req vq t n
              else finish idx None tx_bytes req vq t n
          end
      end
  end.

(** [if_transmit(ifp, m_head)], under [_tx_ring_lock]. *)
Definition if_transmit (fuel : nat) (cpu_id : Z) (m_head : list mbuf) (n : net)
  : outcome (option errno * net) :=
  let idx := fst (pick_txq cpu_id n) in
  match tx_locked fuel idx m_head n with
  | Ok (None, n) =>
      Ok (None,
          {| _num_queues := _num_queues n; _txq := _txq n;
             _hdr_size := _hdr_size n; kicked := kicked n ++ [2 * idx + 1] |})
  | r => r
  end.

End WithOffload.

End Net.

(** ** The transport core, continued ([drivers/virtio.cc]) *)
Module VirtioExt.
Import Vring Virtio.
Local Open Scope Z_scope.

(** The driver's private capability flags, set by [set_indirect_buf_cap] and
    [set_event_idx_cap]. *)
Record caps := { _cap_indirect_buf : bool; _cap_event_idx : bool }.

Section WithCookie.
Context {cookie : Type}.
(** The ring feature bits of [drivers/virtio.hh], which is not among the
    sources. *)
Variable VIRTIO_RING_F_INDIRECT_DESC : Z.
Variable VIRTIO_RING_F_EVENT_IDX : Z.
(** [this->get_driver_features()], a virtual function: what the device
    personality supports. *)
Variable drv_features : Z.
(** [max_virtqueues_nr], the length of [_queues]. *)
Variable hh : virtio_hh.

Notation "x <- m ;; k" := (bind (cookie:=cookie) m (fun x => k))
  (at level 20, m at level 99, k at level 200, only parsing).
Notation "m ;;; k" := (bind (cookie:=cookie) m (fun _ => k))
  (at level 100, k at level 200, only parsing, right associativity).

(** [1 << bit] as an [int] converted to [u32]. *)
Definition bit_mask (bit : Z) : Z := Z.shiftl 1 bit mod 2 ^ 32.

(** [virtio_driver::get_virtio_config_bit(offset, bit)] *)
Definition get_virtio_config_bit (offset : reg) (bit : Z) : M (cookie:=cookie) bool :=
  v <- virtio_conf_readl offset ;;
  ret (negb (Z.land v (bit_mask bit) =? 0)).

(** [virtio_driver::set_virtio_config_bit(offset, bit, on)] *)
Definition set_virtio_config_bit (offset : reg) (bit : Z) (on : bool)
  : M (cookie:=cookie) unit :=
  val <- virtio_conf_readl offset ;;
  let newval :=
    Z.lor (Z.land val (Z.lnot (Z.shiftl 1 bit))) (Z.shiftl (Z.b2z on) bit) in
  virtio_conf_writel offset newval.

(** [get_device_features], [get_device_feature_bit], [set_guest_features],
    [set_guest_feature_bit], [get_guest_features],
    [get_guest_feature_bit] *)
Definition get_device_features : M (cookie:=cookie) Z :=
  virtio_conf_readl VIRTIO_PCI_HOST_FEATURES.

Definition get_device_feature_bit (bit : Z) : M (cookie:=cookie) bool :=
  get_virtio_config_bit VIRTIO_PCI_HOST_FEATURES bit.

Definition set_guest_features (features : Z) : M (cookie:=cookie) unit :=
  virtio_conf_writel VIRTIO_PCI_GUEST_FEATURES features.

Definition set_guest_feature_bit (bit : Z) (on : bool) : M (cookie:=cookie) unit :=
  set_virtio_config_bit VIRTIO_PCI_GUEST_FEATURES bit on.

Definition get_guest_features : M (cookie:=cookie) Z :=
  virtio_conf_readl VIRTIO_PCI_GUEST_FEATURES.

Definition get_guest_feature_bit (bit : Z) : M (cookie:=cookie) bool :=
  get_virtio_config_bit VIRTIO_PCI_GUEST_FEATURES bit.

(** [virtio_driver::setup_features()]; the loop that only logs the common
    bits is left out. *)
Definition setup_features (c : caps) : M (cookie:=cookie) caps :=
  dev_features <- get_device_features ;;
  let subset := Z.land dev_features drv_features in
  let c := if negb (Z.land subset (bit_mask VIRTIO_RING_F_INDIRECT_DESC) =? 0)
           then {| _cap_indirect_buf := true; _cap_event_idx := _cap_event_idx c |}
           else c in
  let c := if negb (Z.land subset (bit_mask VIRTIO_RING_F_EVENT_IDX) =? 0)
           then {| _cap_indirect_buf := _cap_indirect_buf c; _cap_event_idx := true |}
           else c in
  set_guest_features subset ;;;
  ret c.

(** [virtio_driver::free_queues()] *)
Definition free_queues (s : virtio_driver cookie) : virtio_driver cookie :=
  fold_left
    (fun s i =>
       match mjoin (_queues s !! i) with
       | Some _ => set_queues (<[i := None]> (_queues s)) s
       | None => s
       end)
    (seq 0 (Z.to_nat (max_virtqueues_nr hh))) s.

(** [virtio_driver::~virtio_driver()] *)
Definition dtor : M (cookie:=cookie) unit :=
  reset_host_side ;;;
  modify free_queues.

(** What [probe_virt_queues] has done for every queue it counts: the slot
    holds a ring of the size the host reported, the host has its page frame
    number and, with MSI-X, the vector equal to the index. *)
Definition registered (alloc_paddr : Z -> Z) (s : virtio_driver cookie) : Prop :=
  forall idx, 0 <= idx < _num_queues s ->
    let qsize := host_queue_num (_dev s) idx mod 2 ^ 16 in
    qsize <> 0 /\
    _queues s !! Z.to_nat idx
      = Some (Some (new_vring (Z.to_nat qsize) (alloc_paddr idx))) /\
    h_pfn s idx
      = Z.shiftr (alloc_paddr idx) (VIRTIO_PCI_QUEUE_ADDR_SHIFT hh) mod 2 ^ 32 /\
    (pci_is_msix (_dev s) = true -> h_vector s idx = idx).

End WithCookie.

(** [virtio_driver::virtio_conf_write(offset, buf, length)] and
    [virtio_conf_read(offset, buf, length)]: byte by byte through
    [_bar1].  The BAR ([pci::bar], an external collaborator) is any state
    with a byte read and a byte write. *)
Section WithBar.
Context {bar : Type}.
Variable readb : bar -> Z -> Z.
Variable writeb : bar -> Z -> Z -> bar.

(** [offset + i] in [u32]. *)
Definition u32_add (offset i : Z) : Z := (offset + i) mod 2 ^ 32.

Definition virtio_conf_write (offset : Z) (buf : list Z) (length : Z) (b : bar)
  : bar :=
  fold_left (fun b i => writeb b (u32_add offset (Z.of_nat i)) (nth i buf 0))
    (seq 0 (Z.to_nat length)) b.

Definition virtio_conf_read (offset : Z) (length : Z) (b : bar) : list Z :=
  map (fun i => readb b (u32_add offset (Z.of_nat i))) (seq 0 (Z.to_nat length)).

End WithBar.

End VirtioExt.

(** ** The network device, receive side and interface hooks
    ([drivers/virtio-net.cc]) *)
Module NetRx.
Import Vring Sched.
Local Open Scope Z_scope.

(** The constants of the BSD headers used on this side ([net/ethernet.h],
    [sys/param.h], [sys/mbuf.h], [net/if.h], [sys/sockio.h]), which are not
    among the sources; the code is embedded over any choice of them. *)
Record if_hh := {
  ETHER_HDR_LEN : Z;
  MCLBYTES : Z;
  M_PKTHDR : Z;
  IFCAP_RXCSUM : Z;
  IFF_UP : Z;
  IFF_DRV_RUNNING : Z;
  SIOCSIFMTU : Z;
  SIOCSIFFLAGS : Z;
  SIOCADDMULTI : Z;
  SIOCDELMULTI : Z
}.

(** Their values in FreeBSD. *)
Definition freebsd : if_hh :=
  {| ETHER_HDR_LEN := 14;
     MCLBYTES := 2048;
     M_PKTHDR := 0x2;
     IFCAP_RXCSUM := 0x1;
     IFF_UP := 0x1;
     IFF_DRV_RUNNING := 0x40;
     SIOCSIFMTU := 0x80206934;
     SIOCSIFFLAGS := 0x80206910;
     SIOCADDMULTI := 0x80206931;
     SIOCDELMULTI := 0x80206932 |}.

(** Conversions to [u32] and to [int]. *)
Definition u32 (z : Z) : Z := z mod 2 ^ 32.
Definition s32 (z : Z) : Z := (z + 2 ^ 31) mod 2 ^ 32 - 2 ^ 31.

(** [struct mbuf] as the receive path sees it: the fields of [Net.mbuf]
    and, beside them, [m_hdr.mh_flags], [pkthdr.len] and whether
    [pkthdr.rcvif] is this interface. *)
Record rx_mbuf := {
  m_hdr : Net.mbuf;
  mh_flags : Z;
  pkthdr_len : Z;
  pkthdr_rcvif : bool
}.

Definition set_mh_len (len : Z) (m : Net.mbuf) : Net.mbuf :=
  {| Net.mh_len := len; Net.mh_data := Net.mh_data m;
     Net.mh_paddr := Net.mh_paddr m; Net.csum_flags := Net.csum_flags m;
     Net.csum_data := Net.csum_data m |}.

Definition set_csum_flags (f : Z) (m : Net.mbuf) : Net.mbuf :=
  {| Net.mh_len := Net.mh_len m; Net.mh_data := Net.mh_data m;
     Net.mh_paddr := Net.mh_paddr m; Net.csum_flags := f;
     Net.csum_data := Net.csum_data m |}.

Definition set_m_hdr (h : Net.mbuf) (m : rx_mbuf) : rx_mbuf :=
  {| m_hdr := h; mh_flags := mh_flags m; pkthdr_len := pkthdr_len m;
     pkthdr_rcvif := pkthdr_rcvif m |}.

(** A packet: the head and the fragments linked behind it through
    [m_hdr.mh_next]. *)
Definition packet : Type := rx_mbuf * list rx_mbuf.

(** *** [net::fill_rx_ring] *)

Section WithConstants.
Variable hh : if_hh.

(** The loop of [fill_rx_ring].  [m_getjcl(M_NOWAIT, MT_DATA, M_PKTHDR,
    MCLBYTES)] belongs to the packet layer: [allocs] lists its answers to
    come, [None] for [nullptr]; an exhausted list answers [nullptr].  The
    result carries the answers left, the queue, [added] and the buffers given
    back with [m_freem].  ([added] is an [int]; it is bounded by the size of
    the ring.) *)
Fixpoint fill_rx_loop (allocs : list (option rx_mbuf)) (vq : vring rx_mbuf)
    (added : Z) (freed : list rx_mbuf)
  : list (option rx_mbuf) * vring rx_mbuf * Z * list rx_mbuf :=
  match allocs with
  | [] => (allocs, vq, added, freed)
  | a :: allocs' =>
      if avail_ring_not_empty vq then
        match a with
        | None => (allocs', vq, added, freed)
        | Some m =>
            let m := set_m_hdr (set_mh_len (MCLBYTES hh) (m_hdr m)) m in
            let vq := init_sg vq in
            let vq := add_in_sg (Net.mh_paddr (m_hdr m)) (Net.mh_len (m_hdr m)) vq in
            let '(ok, vq) := add_buf m vq in
            if negb ok then (allocs', vq, added, freed ++ [m])
            else fill_rx_loop allocs' vq (added + 1) freed
        end
      else (allocs, vq, added, freed)
  end.

(** [net::fill_rx_ring(idx)], on the queue of [_rxq[idx]]. *)
Definition fill_rx_ring (allocs : list (option rx_mbuf)) (vq : vring rx_mbuf)
  : list (option rx_mbuf) * vring rx_mbuf * Z * list rx_mbuf :=
  let '(allocs, vq, added, freed) := fill_rx_loop allocs vq 0 [] in
  (allocs, if negb (added =? 0) then kick vq else vq, added, freed).

End WithConstants.

(** *** [net::receiver] *)

Definition u64 (z : Z) : Z := z mod 2 ^ 64.

(** [struct rxq_stats] *)
Record rxq_stats := {
  rx_packets : Z;                 (* u64 counters *)
  rx_bytes : Z;
  rx_drops : Z;
  rx_csum : Z;
  rx_csum_err : Z
}.

(** [struct ifnet]: the fields the driver reads or writes. *)
Record ifnet := {
  if_flags : Z;
  if_drv_flags : Z;
  if_capenable : Z;
  if_mtu : Z
}.

Definition set_if_drv_flags (f : Z) (ifp : ifnet) : ifnet :=
  {| if_flags := if_flags ifp; if_drv_flags := f;
     if_capenable := if_capenable ifp; if_mtu := if_mtu ifp |}.

(** The counters local to one round of [receiver]. *)
Record rx_locals := {
  l_rx_drops : Z;
  l_rx_packets : Z;
  l_csum_ok : Z;
  l_csum_err : Z;
  l_rx_bytes : Z
}.

Definition zero_locals : rx_locals :=
  {| l_rx_drops := 0; l_rx_packets := 0; l_csum_ok := 0; l_csum_err := 0;
     l_rx_bytes := 0 |}.

Definition drop_one (l : rx_locals) : rx_locals :=
  {| l_rx_drops := u64 (l_rx_drops l + 1); l_rx_packets := l_rx_packets l;
     l_csum_ok := l_csum_ok l; l_csum_err := l_csum_err l;
     l_rx_bytes := l_rx_bytes l |}.

(** One receive queue with its surroundings: the queue of [_rxq[idx]] and
    the instant, its statistics, the interface, the packets passed to the
    upper layers (oldest first), the buffers given back with [m_free] or
    [m_freem], and the answers the allocator has in store. *)
Record rx := {
  rx_w : world rx_mbuf;
  stats : rxq_stats;
  _ifn : ifnet;
  delivered : list packet;
  freed : list rx_mbuf;
  allocs : list (option rx_mbuf)
}.

Definition set_rx_w (w : world rx_mbuf) (s : rx) : rx :=
  {| rx_w := w; stats := stats s; _ifn := _ifn s; delivered := delivered s;
     freed := freed s; allocs := allocs s |}.

Definition m_free (m : rx_mbuf) (s : rx) : rx :=
  {| rx_w := rx_w s; stats := stats s; _ifn := _ifn s; delivered := delivered s;
     freed := freed s ++ [m]; allocs := allocs s |}.

Section WithDevice.
Variable hh : if_hh.
Variable bsd_hh : Net.bsd_hh.
(** [_hdr_size] (a [u32]) and [_mergeable_bufs], members of [net]. *)
Variable _hdr_size : Z.
Variable _mergeable_bufs : bool.
(** [mtod(m, net_hdr_mrg_rxbuf* )]: the header found at the front of the
    buffer; its layout is in [virtio-net.hh], not among the sources. *)
Variable mtod_hdr : rx_mbuf -> Net.net_hdr_mrg_rxbuf.
(** [m_adj(m_head, offset)], the packet layer's. *)
Variable m_adj : packet -> Z -> packet.
(** The upper layers: [if_classifier.post_packet] and, when it declines,
    [if_input]; they may change the interface (stop it, for one). *)
Variable if_input : packet -> ifnet -> ifnet.
(** [vring::refill_ring_cond()] *)
Variable refill_ring_cond : vring rx_mbuf -> bool.
(** The completions the host posts on the queue, instant by instant. *)
Variable harness : nat -> list (used_elem rx_mbuf).

(** [vq->get_buf_elem(&len)], after the host has had its turn. *)
Definition fetch (w : world rx_mbuf) : option (rx_mbuf * Z) * world rx_mbuf :=
  let w := tick harness w in (get_buf_elem (queue w), w).

(** The loop [while (--nbufs > 0)], [n] rounds at most: the queue, the
    head's [pkthdr.len], the fragments linked so far and [rx_drops]. *)
Fixpoint read_fragments (n : nat) (w : world rx_mbuf) (head_len : Z)
    (frags : list rx_mbuf) (l : rx_locals)
  : world rx_mbuf * Z * list rx_mbuf * rx_locals :=
  match n with
  | O => (w, head_len, frags, l)
  | S n' =>
      let '(cur, w) := fetch w in
      match cur with
      | None => (w, head_len, frags, drop_one l)
      | Some (m, len) =>
          let w := on_queue get_buf_finalize w in
          let len := u32 len in
          let len := if Net.mh_len (m_hdr m) <? s32 len
                     then u32 (Net.mh_len (m_hdr m)) else len in
          let m := {| m_hdr := set_mh_len (s32 len) (m_hdr m);
                      mh_flags := Z.land (mh_flags m) (Z.lnot (M_PKTHDR hh));
                      pkthdr_len := pkthdr_len m;
                      pkthdr_rcvif := pkthdr_rcvif m |} in
          read_fragments n' w (s32 (head_len + len)) (frags ++ [m]) l
      end
  end.

(** The body of the drain loop for a frame that is long enough, up to the
    hand-over to the upper layers. *)
Definition rx_packet (m : rx_mbuf) (len : Z) (s : rx) (l : rx_locals)
  : rx * rx_locals :=
  let mhdr := mtod_hdr m in
  let nbufs := if negb _mergeable_bufs then 1 else Net.num_buffers mhdr in
  let m_head :=
    {| m_hdr := set_mh_len (s32 len) (set_csum_flags 0 (m_hdr m));
       mh_flags := mh_flags m; pkthdr_len := s32 len; pkthdr_rcvif := true |} in
  let '(w, head_len, frags, l) :=
    read_fragments (Z.to_nat (nbufs - 1)) (rx_w s) (pkthdr_len m_head) [] l in
  let m_head :=
    {| m_hdr := m_hdr m_head; mh_flags := mh_flags m_head;
       pkthdr_len := head_len; pkthdr_rcvif := pkthdr_rcvif m_head |} in
  let '(m_head, frags) := m_adj (m_head, frags) (s32 (u32 _hdr_size)) in
  let rxcsum :=
    negb (Z.land (if_capenable (_ifn s)) (IFCAP_RXCSUM hh) =? 0)
    && negb (Z.land (Net.flags (Net.hdr mhdr)) Net.VIRTIO_NET_HDR_F_NEEDS_CSUM =? 0) in
  let '(bad, mh) :=
    if rxcsum then Net.bad_rx_csum bsd_hh (m_hdr m_head) (Net.hdr mhdr)
    else (false, m_hdr m_head) in
  let m_head := set_m_hdr mh m_head in
  let l :=
    {| l_rx_drops := l_rx_drops l;
       l_rx_packets := u64 (l_rx_packets l + 1);
       l_csum_ok := if rxcsum && negb bad then u64 (l_csum_ok l + 1)
                    else l_csum_ok l;
       l_csum_err := if rxcsum && bad then u64 (l_csum_err l + 1)
                     else l_csum_err l;
       l_rx_bytes := u64 (l_rx_bytes l + pkthdr_len m_head) |} in
  ({| rx_w := w; stats := stats s;
      _ifn := if_input (m_head, frags) (_ifn s);
      delivered := delivered s ++ [(m_head, frags)];
      freed := freed s; allocs := allocs s |}, l).

(** The loop [while (m != nullptr)]; [cur] is what the last
    [get_buf_elem] returned. *)
Fixpoint drain (fuel : nat) (cur : option (rx_mbuf * Z)) (s : rx) (l : rx_locals)
  : option (rx * rx_locals) :=
  match cur with
  | None => Some (s, l)
  | Some (m, len) =>
      match fuel with
      | O => None
      | S fuel' =>
          let s := set_rx_w (on_queue get_buf_finalize (rx_w s)) s in
          if u32 len <? u32 (_hdr_size + ETHER_HDR_LEN hh) then
            let l := drop_one l in
            let s := m_free m s in
            let '(cur, w) := fetch (rx_w s) in
            drain fuel' cur (set_rx_w w s) l
          else
            let '(s, l) := rx_packet m (u32 len) s l in
            if Z.land (if_drv_flags (_ifn s)) (IFF_DRV_RUNNING hh) =? 0
            then Some (s, l)
            else
              let '(cur, w) := fetch (rx_w s) in
              drain fuel' cur (set_rx_w w s) l
      end
  end.

(** [if (vq->refill_ring_cond()) fill_rx_ring(idx)] *)
Definition refill (s : rx) : rx :=
  if refill_ring_cond (queue (rx_w s)) then
    let '(allocs, vq, _, fr) := fill_rx_ring hh (allocs s) (queue (rx_w s)) in
    {| rx_w := on_queue (fun _ => vq) (rx_w s); stats := stats s;
       _ifn := _ifn s; delivered := delivered s; freed := freed s ++ fr;
       allocs := allocs |}
  else s.

(** The update of the statistics that closes a round. *)
Definition update_stats (l : rx_locals) (st : rxq_stats) : rxq_stats :=
  {| rx_drops := u64 (rx_drops st + l_rx_drops l);
     rx_packets := u64 (rx_packets st + l_rx_packets l);
     rx_csum := u64 (rx_csum st + l_csum_ok l);
     rx_csum_err := u64 (rx_csum_err st + l_csum_err l);
     rx_bytes := u64 (rx_bytes st + l_rx_bytes l) |}.

(** One round of the [while (1)] of [net::receiver()]; [None] is a poll
    task still waiting or still draining. *)
Definition receiver_round (fuel : nat) (s : rx) : option rx :=
  w ← WaitForQueue.wait_for_queue used_ring_not_empty harness fuel (rx_w s);
  let '(cur, w) := fetch w in
  '(s, l) ← drain fuel cur (set_rx_w w s) zero_locals;
  let s := refill s in
  Some {| rx_w := rx_w s; stats := update_stats l (stats s); _ifn := _ifn s;
          delivered := delivered s; freed := freed s; allocs := allocs s |}.

(** *** [if_ioctl] *)

Section Ioctl.
Context {caddr_t : Type}.
(** [ether_ioctl], the ethernet layer's. *)
Variable ether_ioctl : ifnet -> Z -> caddr_t -> Z * ifnet.

(** [if_ioctl(ifp, command, data)]: the error and the interface. *)
Definition if_ioctl (ifp : ifnet) (command : Z) (data : caddr_t) : Z * ifnet :=
  if command =? SIOCSIFMTU hh then (0, ifp)
  else if command =? SIOCSIFFLAGS hh then
    if negb (Z.land (if_flags ifp) (IFF_UP hh) =? 0) then
      (0, set_if_drv_flags (Z.lor (if_drv_flags ifp) (IFF_DRV_RUNNING hh)) ifp)
    else
      (0, set_if_drv_flags
            (Z.land (if_drv_flags ifp) (Z.lnot (IFF_DRV_RUNNING hh))) ifp)
  else if (command =? SIOCADDMULTI hh) || (command =? SIOCDELMULTI hh) then (0, ifp)
  else ether_ioctl ifp command data.

End Ioctl.

End WithDevice.

(** *** [if_getinfo], [net::fill_stats], [net::fill_qstats] *)

(** [struct if_data]: the counters the driver fills ([u_long]). *)
Record if_data := {
  ifi_ipackets : Z;
  ifi_ibytes : Z;
  ifi_iqdrops : Z;
  ifi_ierrors : Z;
  ifi_opackets : Z;
  ifi_obytes : Z;
  ifi_oerrors : Z
}.

(** Ways for [fill_stats] to end. *)
Inductive filled :=
| Filled (out_data : if_data)
| AssertFailed                    (* the [assert] of [fill_qstats] *)
| OutOfBounds.                    (* a queue that was never set up *)

(** [net::fill_qstats(rxq, out_data)] *)
Definition fill_qstats_rx (st : rxq_stats) (out_data : if_data) : if_data :=
  {| ifi_ipackets := u64 (ifi_ipackets out_data + rx_packets st);
     ifi_ibytes := u64 (ifi_ibytes out_data + rx_bytes st);
     ifi_iqdrops := u64 (ifi_iqdrops out_data + rx_drops st);
     ifi_ierrors := u64 (ifi_ierrors out_data + rx_csum_err st);
     ifi_opackets := ifi_opackets out_data;
     ifi_obytes := ifi_obytes out_data;
     ifi_oerrors := ifi_oerrors out_data |}.

(** [net::fill_qstats(txq, out_data)] *)
Definition fill_qstats_tx (st : Net.txq_stats) (out_data : if_data) : filled :=
  if (ifi_oerrors out_data =? 0) && (ifi_obytes out_data =? 0)
     && (ifi_opackets out_data =? 0)
  then
    Filled
      {| ifi_ipackets := ifi_ipackets out_data;
         ifi_ibytes := ifi_ibytes out_data;
         ifi_iqdrops := ifi_iqdrops out_data;
         ifi_ierrors := ifi_ierrors out_data;
         ifi_opackets := u64 (ifi_opackets out_data + Net.tx_packets st);
         ifi_obytes := u64 (ifi_obytes out_data + Net.tx_bytes st);
         ifi_oerrors := u64 (ifi_oerrors out_data
                             + u64 (Net.tx_err st + Net.tx_drops st)) |}
  else AssertFailed.

(** [net::fill_stats(out_data)]: the loop over the [_num_queues / 2]
    pairs, from pair [idx] on. *)
Fixpoint fill_stats_from (n : nat) (idx : nat) (_rxq : list rxq_stats)
    (_txq : list Net.txq_stats) (out_data : if_data) : filled :=
  match n with
  | O => Filled out_data
  | S n' =>
      match _rxq !! idx, _txq !! idx with
      | Some r, Some t =>
          match fill_qstats_tx t (fill_qstats_rx r out_data) with
          | Filled out_data => fill_stats_from n' (S idx) _rxq _txq out_data
          | e => e
          end
      | _, _ => OutOfBounds
      end
  end.

Definition fill_stats (_num_queues : Z) (_rxq : list rxq_stats)
    (_txq : list Net.txq_stats) (out_data : if_data) : filled :=
  fill_stats_from (Z.to_nat (u32 _num_queues / 2)) 0 _rxq _txq out_data.

(** [if_getinfo(ifp, out_data)]: [memcpy] of [ifp->if_data], then
    [fill_stats]. *)
Definition if_getinfo (ifp_if_data : if_data) (_num_queues : Z)
    (_rxq : list rxq_stats) (_txq : list Net.txq_stats) : filled :=
  fill_stats _num_queues _rxq _txq ifp_if_data.

End NetRx.

(** ** The network device: transmit offloads ([net::tx_offload],
    [drivers/virtio-net.cc]) *)
Module NetTx.
Import Net.
Local Open Scope Z_scope.

(** More constants and layouts of the BSD and virtio headers
    ([net/if_vlan_var.h], [netinet/ip.h], [netinet/tcp.h], [sys/mbuf.h],
    [drivers/virtio-net.hh]), none of them among the sources; the code is
    embedded over any choice of them.  [ip_hl] and [th_off] extract a
    bit-field from the byte that holds it. *)
Record tx_hh := {
  sizeof_ether_vlan_header : Z;
  sizeof_tcphdr : Z;
  offsetof_ip_p : Z;              (* offsetof(struct ip, ip_p) *)
  offsetof_th_off : Z;            (* the byte of struct tcphdr holding th_off *)
  offsetof_th_flags : Z;          (* offsetof(struct tcphdr, th_flags) *)
  ip_hl : Z -> Z;
  th_off : Z -> Z;
  IPPROTO_TCP : Z;
  TH_CWR : Z;
  CSUM_TSO : Z;
  VIRTIO_NET_CSUM_OFFLOAD : Z;
  VIRTIO_NET_HDR_GSO_TCPV4 : Z;
  VIRTIO_NET_HDR_GSO_ECN : Z
}.

(** Their values on the wire, in FreeBSD and in the virtio interface. *)
Definition wire : tx_hh :=
  {| sizeof_ether_vlan_header := 18;
     sizeof_tcphdr := 20;
     offsetof_ip_p := 9;
     offsetof_th_off := 12;
     offsetof_th_flags := 13;
     ip_hl := fun b => Z.land b 0xf;
     th_off := fun b => Z.shiftr b 4;
     IPPROTO_TCP := 6;
     TH_CWR := 0x80;
     CSUM_TSO := 0x20;
     VIRTIO_NET_CSUM_OFFLOAD := 0x6;
     VIRTIO_NET_HDR_GSO_TCPV4 := 1;
     VIRTIO_NET_HDR_GSO_ECN := 0x80 |}.

Definition u8 (z : Z) : Z := z mod 2 ^ 8.

Section WithPacketLayer.
Variable hh : bsd_hh.
Variable th : tx_hh.
(** [_tso_ecn], a member of [net]. *)
Variable _tso_ecn : bool.
(** [m_pullup(m, len)], the packet layer's; it answers [nullptr] ([None])
    when it cannot make [len] bytes contiguous. *)
Variable m_pullup : list mbuf -> Z -> option (list mbuf).
(** [m->M_dat.MH.MH_pkthdr.tso_segsz], a field [Net.mbuf] does not
    carry. *)
Variable tso_segsz : mbuf -> Z.

(** [if (m->m_hdr.mh_len < len) m = m_pullup(m, len)]; the empty chain is
    the null pointer. *)
Definition pullup_if_short (m : list mbuf) (len : Z) : option (list mbuf) :=
  match m with
  | [] => None
  | h :: _ => if mh_len h <? len then m_pullup m len else Some m
  end.

(** [hdr->flags |= bit] *)
Definition or_flags (bit : Z) (hdr : net_hdr) : net_hdr :=
  {| flags := u8 (Z.lor (flags hdr) bit); gso_type := gso_type hdr;
     hdr_len := hdr_len hdr; gso_size := gso_size hdr;
     csum_start := csum_start hdr; csum_offset := csum_offset hdr |}.

(** The block under [csum_flags & VIRTIO_NET_CSUM_OFFLOAD]. *)
Definition needs_csum (start offset : Z) (hdr : net_hdr) : net_hdr :=
  let hdr := or_flags VIRTIO_NET_HDR_F_NEEDS_CSUM hdr in
  {| flags := flags hdr; gso_type := gso_type hdr; hdr_len := hdr_len hdr;
     gso_size := gso_size hdr; csum_start := start; csum_offset := u16 offset |}.

(** The three assignments under [csum_flags & CSUM_TSO]. *)
Definition gso (type len size : Z) (hdr : net_hdr) : net_hdr :=
  {| flags := flags hdr; gso_type := type; hdr_len := u16 len;
     gso_size := u16 size; csum_start := csum_start hdr;
     csum_offset := csum_offset hdr |}.

(** [net::tx_offload(m, hdr)]: the packet and the header, or [None] for
    [nullptr]. *)
Definition tx_offload (m : list mbuf) (hdr : net_hdr)
  : option (list mbuf * net_hdr) :=
  let ip_offset := sizeof_ether_header hh in
  m ← pullup_if_short m ip_offset;
  h ← head m;
  let eth_type := ntohs_at h (offsetof_ether_type hh) in
  '(m, ip_offset, eth_type) ←
    (if eth_type =? ETHERTYPE_VLAN hh then
       let ip_offset := sizeof_ether_vlan_header th in
       m ← pullup_if_short m ip_offset;
       h ← head m;
       Some (m, ip_offset, ntohs_at h (offsetof_evl_proto hh))
     else Some (m, ip_offset, eth_type));
  if negb (eth_type =? ETHERTYPE_IP hh) then Some (m, hdr)
  else
    m ← pullup_if_short m (ip_offset + sizeof_ip hh);
    h ← head m;
    let ip_proto := u8 (byte_at h (ip_offset + offsetof_ip_p th)) in
    let csum_start := u16 (ip_offset + Z.shiftl (ip_hl th (byte_at h ip_offset)) 2) in
    let gso_type := u8 (VIRTIO_NET_HDR_GSO_TCPV4 th) in
    let hdr :=
      if negb (Z.land (csum_flags h) (VIRTIO_NET_CSUM_OFFLOAD th) =? 0)
      then needs_csum csum_start (csum_data h) hdr
      else hdr in
    if negb (Z.land (csum_flags h) (CSUM_TSO th) =? 0) then
      if negb (ip_proto =? IPPROTO_TCP th) then Some (m, hdr)
      else
        m ← pullup_if_short m (csum_start + sizeof_tcphdr th);
        h ← head m;
        let hdr :=
          gso gso_type
            (csum_start
             + Z.shiftl (th_off th (byte_at h (csum_start + offsetof_th_off th))) 2)
            (tso_segsz h) hdr in
        if negb (Z.land (byte_at h (csum_start + offsetof_th_flags th)) (TH_CWR th)
                 =? 0) then
          if negb _tso_ecn then None
          else Some (m, or_flags (VIRTIO_NET_HDR_GSO_ECN th) hdr)
        else Some (m, hdr)
    else Some (m, hdr).

End WithPacketLayer.

End NetTx.

(* ===================================================================== *)
(** * Part II: the properties                                             *)
(* ===================================================================== *)

Section VringFacts.
Import Vring.
Context {cookie : Type}.
Implicit Types q : vring cookie.

Lemma used_ring_not_empty_intr q b :
  used_ring_not_empty (set_intr b q) = used_ring_not_empty q.
Proof. reflexivity. Qed.

Lemma used_ring_not_empty_push q (e : used_elem cookie) :
  used_ring_not_empty (host_push e q) = true.
Proof.
  unfold used_ring_not_empty, host_push; simpl.
  destruct (vq_used q); reflexivity.
Qed.

Lemma host_inject_app q (es es' : list (used_elem cookie)) :
  host_inject (es ++ es') q = host_inject es' (host_inject es q).
Proof. unfold host_inject. apply fold_left_app. Qed.

Lemma vq_used_host_inject q (es : list (used_elem cookie)) :
  vq_used (host_inject es q) = vq_used q ++ es.
Proof.
  revert q; induction es as [|e es IH]; intros q; simpl.
  - now rewrite app_nil_r.
  - rewrite IH. simpl. now rewrite <- app_assoc.
Qed.

(** The three predicates of the vring that fit [wait_for_queue] do not
    look at the interrupt flag and survive a completion. *)
Lemma vring_predicates_stable (pred : vring cookie -> bool) :
  pred = used_ring_not_empty \/ pred = used_ring_can_gc \/
  pred = avail_ring_not_empty ->
  (forall q, pred (disable_interrupts q) = pred q) /\
  (forall q e, pred q = true -> pred (host_push e q) = true).
Proof.
  intros [-> | [-> | ->]]; split; try reflexivity; intros q e H;
    try apply used_ring_not_empty_push; exact H.
Qed.

(** So it is for every predicate [wait_for_queue] can be handed. *)
Lemma holds_stable (p : predicate) :
  (forall q, holds p (disable_interrupts q) = holds p q) /\
  (forall q e, holds p q = true -> holds p (host_push e q) = true).
Proof.
  apply vring_predicates_stable. destruct p; auto.
Qed.

End VringFacts.


(** ** [wait_for_queue] *)

Section WaitForQueueFacts.
Import Vring Sched WaitForQueue.
Context {cookie : Type}.
Variable pred : vring cookie -> bool.
Variable harness : nat -> list (used_elem cookie).

(** The predicates handed to [wait_for_queue] are [const] members reading
    the ring indices: they do not look at the interrupt flag, and a
    completion posted by the host never turns them off. *)
Hypothesis pred_disable : forall q, pred (disable_interrupts q) = pred q.
Hypothesis pred_push : forall q e, pred q = true -> pred (host_push e q) = true.

Abbreviation poll := (poll pred harness).
Abbreviation tick := (tick harness).
Abbreviation wait_for_queue := (wait_for_queue pred harness).

Lemma wait_for_queue_S fuel w :
  wait_for_queue (S fuel) w =
  (let '(have_elements, w') := poll w in
   if have_elements then Some (do_return harness w')
   else wait_for_queue fuel (do_suspend harness w')).
Proof. reflexivity. Qed.

Lemma pred_inject q es : pred q = true -> pred (host_inject es q) = true.
Proof using pred_push.
  revert q; induction es as [|e es IH]; intros q Hq; simpl; auto.
Qed.

(** One evaluation of the closure, case by case. *)
Lemma poll_cases w :
  let w1 := tick w in
  let w3 := tick (do_enable harness (emit (EvPred false) w1)) in
  match pred (queue w1), pred (queue w3) with
  | true, _ => poll w = (true, emit (EvPred true) w1)
  | false, true => poll w = (true, do_disable harness (emit (EvPred true) w3))
  | false, false => poll w = (false, emit (EvPred false) w3)
  end.
Proof.
  unfold WaitForQueue.poll, eval_pred; cbn zeta.
  destruct (pred (queue (tick w))) eqn:E1; cbn [negb]; [reflexivity|].
  match goal with |- context [pred (queue ?x)] =>
    destruct (pred (queue x)) eqn:E2 end; reflexivity.
Qed.

Lemma poll_true w w' : poll w = (true, w') -> pred (queue w') = true.
Proof using pred_disable pred_push.
  intros H. pose proof (poll_cases w) as C; cbn zeta in C.
  destruct (pred (queue (tick w))) eqn:E1.
  - rewrite C in H. injection H as <-. exact E1.
  - match type of C with context [pred (queue ?x)] =>
      destruct (pred (queue x)) eqn:E2 end;
      rewrite C in H; [|discriminate].
    injection H as <-. cbn. rewrite pred_disable. now apply pred_inject.
Qed.

Lemma poll_trace w b w' :
  poll w = (b, w') ->
  trace w' = trace w ++
    (if b then
       if pred (queue (tick w)) then [EvPred true]
       else [EvPred false; EvEnable; EvPred true; EvDisable]
     else [EvPred false; EvEnable; EvPred false]).
Proof.
  intros H. pose proof (poll_cases w) as C; cbn zeta in C.
  destruct (pred (queue (tick w))) eqn:E1.
  - rewrite C in H. injection H as <- <-. reflexivity.
  - match type of C with context [pred (queue ?x)] =>
      destruct (pred (queue x)) eqn:E2 end;
      rewrite C in H; injection H as <- <-; cbn; now rewrite <- !app_assoc.
Qed.

Lemma wait_for_queue_pred fuel w w' :
  wait_for_queue fuel w = Some w' -> pred (queue w') = true.
Proof using pred_disable pred_push.
  revert w; induction fuel as [|fuel IH]; intros w H; [discriminate|].
  rewrite wait_for_queue_S in H. destruct (poll w) as [b w1] eqn:P. destruct b.
  - injection H as <-. cbn. apply pred_inject. eapply poll_true; eauto.
  - eapply IH; eauto.
Qed.

Lemma wait_for_queue_trace fuel w w' :
  wait_for_queue fuel w = Some w' ->
  exists evs, trace w' = trace w ++ evs /\ disciplined evs = true.
Proof.
  revert w; induction fuel as [|fuel IH]; intros w H; [discriminate|].
  rewrite wait_for_queue_S in H. destruct (poll w) as [b w1] eqn:P.
  apply poll_trace in P. destruct b.
  - injection H as <-. cbn. rewrite P.
    destruct (pred (queue (tick w)));
      eexists; rewrite <- app_assoc; split; reflexivity.
  - apply IH in H as (evs & Ht & Hd). rewrite Ht. cbn. rewrite P.
    exists ([EvPred false; EvEnable; EvPred false; EvSuspend] ++ evs).
    split; [now rewrite <- !app_assoc | exact Hd].
Qed.

Lemma wait_for_queue_hit fuel w :
  pred (queue (tick w)) = true -> is_Some (wait_for_queue (S fuel) w).
Proof.
  intros E. pose proof (poll_cases w) as C; cbn zeta in C. rewrite E in C.
  rewrite wait_for_queue_S, C. eauto.
Qed.

(** Whatever the predicate: the closure answers true on the queue its last
    evaluation found, or on that queue with completions added and the
    interrupt flag cleared. *)
Lemma poll_last_eval w w' :
  poll w = (true, w') ->
  exists q, pred q = true /\
    (queue w' = q \/
     exists es, queue w' = disable_interrupts (host_inject es q)).
Proof.
  intros H. pose proof (poll_cases w) as C; cbn zeta in C.
  destruct (pred (queue (tick w))) eqn:E1.
  - rewrite C in H. injection H as <-. exists (queue (tick w)). auto.
  - match type of C with context [pred (queue ?x)] =>
      destruct (pred (queue x)) eqn:E2; rewrite C in H; [|discriminate];
      exists (queue x)
    end.
    injection H as <-. split; [exact E2|]. right. eexists. reflexivity.
Qed.

Lemma wait_for_queue_last_eval fuel w w' :
  wait_for_queue fuel w = Some w' ->
  exists q es, pred q = true /\
    (queue w' = host_inject es q \/
     exists es', queue w' = host_inject es (disable_interrupts (host_inject es' q))).
Proof.
  revert w; induction fuel as [|fuel IH]; intros w H; [discriminate|].
  rewrite wait_for_queue_S in H. destruct (poll w) as [b w1] eqn:P. destruct b.
  - injection H as <-. apply poll_last_eval in P as (q & Hq & [E | (es' & E)]).
    + exists q, (harness (now w1)). split; [exact Hq|]. left.
      cbn. now rewrite E.
    + exists q, (harness (now w1)). split; [exact Hq|]. right. exists es'.
      cbn. now rewrite E.
  - eapply IH; eauto.
Qed.

End WaitForQueueFacts.

(** C1. [wait_for_queue] follows the check-enable-recheck discipline, for
    every queue and every predicate.  One evaluation of its closure, the
    host acting before each step: the predicate is evaluated; if it holds
    the closure answers true and the queue has not been touched; if not,
    interrupts are enabled (the flag is set) and the predicate is evaluated
    again; if it holds now, interrupts are disabled (the flag is clear) and
    the closure answers true; otherwise it answers false, and the thread is
    suspended.  The events of a call that returns are a sequence of rounds
    "predicate false, enable interrupts, predicate false again, suspend"
    closed by either "predicate true, return" or "predicate false, enable
    interrupts, predicate true, disable interrupts, return".  The last
    evaluation of the predicate answered true, and since then the queue has
    only seen completions posted by the host and, after a recheck, the
    clearing of the interrupt flag: for each predicate the vring has
    ([avail_ring_not_empty], [used_ring_not_empty], [used_ring_can_gc]) the
    predicate therefore holds on the queue at the moment of return, whatever
    completions the host injects in between.  And the call does return at
    once when the predicate holds at its first evaluation. *)
Theorem wait_for_queue_check_enable_recheck
    {cookie : Type} (pred : Vring.vring cookie -> bool)
    (harness : nat -> list (Vring.used_elem cookie))
    (fuel : nat) (w : Sched.world cookie) :
  (let w1 := Sched.tick harness w in
   let w2 := Sched.on_queue Vring.enable_interrupts
               (Sched.tick harness (Sched.emit (Sched.EvPred false) w1)) in
   let w3 := Sched.tick harness (Sched.emit Sched.EvEnable w2) in
   let w4 := Sched.on_queue Vring.disable_interrupts
               (Sched.tick harness (Sched.emit (Sched.EvPred true) w3)) in
   WaitForQueue.poll pred harness w =
     (if pred (Sched.queue w1) then (true, Sched.emit (Sched.EvPred true) w1)
      else if pred (Sched.queue w3) then (true, Sched.emit Sched.EvDisable w4)
      else (false, Sched.emit (Sched.EvPred false) w3)) /\
   Vring.vq_intr (Sched.queue w2) = true /\
   Vring.vq_intr (Sched.queue w4) = false) /\
  (forall w', WaitForQueue.wait_for_queue pred harness fuel w = Some w' ->
     (exists evs, Sched.trace w' = Sched.trace w ++ evs /\
                  WaitForQueue.disciplined evs = true) /\
     (exists q es,
        pred q = true /\
        (Sched.queue w' = Vring.host_inject es q \/
         exists es',
           Sched.queue w' =
             Vring.host_inject es
               (Vring.disable_interrupts (Vring.host_inject es' q))))) /\
  (forall (p : Vring.predicate) w',
     WaitForQueue.wait_for_queue (Vring.holds p) harness fuel w = Some w' ->
     Vring.holds p (Sched.queue w') = true) /\
  (pred (Sched.queue (Sched.tick harness w)) = true ->
     is_Some (WaitForQueue.wait_for_queue pred harness (S fuel) w)).
Proof.
  split_and!.
  - pose proof (poll_cases pred harness w) as C. cbn zeta in C.
    split; [|split; reflexivity].
    destruct (pred (Sched.queue (Sched.tick harness w))); [exact C|].
    match type of C with context [pred (Sched.queue ?x)] =>
      change x with
        (Sched.tick harness
           (Sched.emit Sched.EvEnable
              (Sched.on_queue Vring.enable_interrupts
                 (Sched.tick harness
                    (Sched.emit (Sched.EvPred false) (Sched.tick harness w))))))
        in C
    end.
    match goal with |- context [if pred (Sched.queue ?x) then _ else _] =>
      destruct (pred (Sched.queue x)) end; exact C.
  - intros w' H. split.
    + eapply wait_for_queue_trace; eauto.
    + eapply wait_for_queue_last_eval; eauto.
  - intros p w' H. destruct (@holds_stable cookie p) as [Hd Hp].
    eapply wait_for_queue_pred; eauto.
  - intros E. now apply wait_for_queue_hit.
Qed.

Lemma wait_for_queue_check_enable_recheck_witness :
  let pred := @Vring.holds nat Vring.UsedRingNotEmpty in
  let e := {| Vring.ue_chain := {| Vring.ch_cookie := 7%nat; Vring.ch_sg := [] |};
              Vring.ue_len := 16 |} in
  let harness := fun n : nat => if Nat.eqb n 2 then [e] else [] in
  let w := {| Sched.now := 0;
              Sched.queue := Vring.disable_interrupts (Vring.new_vring 4 0);
              Sched.trace := [] |} in
  exists w',
    WaitForQueue.wait_for_queue pred harness 1 w = Some w' /\
    Sched.trace w' =
      [Sched.EvPred false; Sched.EvEnable; Sched.EvPred true; Sched.EvDisable;
       Sched.EvReturn] /\
    pred (Sched.queue w') = true /\
    Vring.vq_intr (Sched.queue w') = false.
Proof.
  cbv zeta. eexists. split; [vm_compute; reflexivity|].
  split; [reflexivity|]. split; [|reflexivity].
  match goal with |- Vring.holds _ (Sched.queue ?w') = true =>
    apply (proj1 (proj2 (proj2
             (wait_for_queue_check_enable_recheck
                (@Vring.holds nat Vring.UsedRingNotEmpty)
                (fun n : nat =>
                   if Nat.eqb n 2
                   then [{| Vring.ue_chain :=
                              {| Vring.ch_cookie := 7%nat; Vring.ch_sg := [] |};
                            Vring.ue_len := 16 |}]
                   else [])
                1
                {| Sched.now := 0;
                   Sched.queue := Vring.disable_interrupts (Vring.new_vring 4 0);
                   Sched.trace := [] |})))
             Vring.UsedRingNotEmpty w')
  end.
  vm_compute; reflexivity.
Defined.

(** ** The entropy device *)

Section GetRandomBytes.
Import Rng.
Local Open Scope Z_scope.

Lemma get_random_bytes_blocks buf size r :
  _entropy r = [] -> get_random_bytes buf size r = None.
Proof. intros E. unfold get_random_bytes. now rewrite E. Qed.

Lemma get_random_bytes_returns buf size r :
  _entropy r <> [] ->
  let len := Z.min (Z.of_nat (length (_entropy r))) size in
  get_random_bytes buf size r =
  Some (len,
        take (Z.to_nat len) (_entropy r) ++ drop (Z.to_nat len) buf,
        signalled ProducerWakeOne
          (set_entropy (drop (Z.to_nat len) (_entropy r)) r)).
Proof.
  intros E len. unfold get_random_bytes.
  destruct (_entropy r) as [|b pool] eqn:Ep; [congruence|].
  reflexivity.
Qed.

End GetRandomBytes.

(** C2. [get_random_bytes(buf, size)] waits while the pool is empty; once
    it is not, it returns [len = min(|pool|, size)], the first [len] bytes
    of the buffer are the first [len] bytes of the pool and the rest of the
    buffer is untouched, exactly those bytes have left the front of the
    pool, and one producer has been woken.  When [size] exceeds the pool the
    call still succeeds, with [len < size] (a partial read). *)
Theorem get_random_bytes_spec (buf : list Rng.byte) (size : Z) (r : Rng.rng) :
  (0 <= size <= Z.of_nat (length buf))%Z ->
  (Rng._entropy r = [] -> Rng.get_random_bytes buf size r = None) /\
  (Rng._entropy r <> [] ->
   exists len buf' r',
     Rng.get_random_bytes buf size r = Some (len, buf', r') /\
     len = Z.min (Z.of_nat (length (Rng._entropy r))) size /\
     take (Z.to_nat len) buf' = take (Z.to_nat len) (Rng._entropy r) /\
     drop (Z.to_nat len) buf' = drop (Z.to_nat len) buf /\
     length buf' = length buf /\
     Rng._entropy r = take (Z.to_nat len) buf' ++ Rng._entropy r' /\
     Z.of_nat (length (Rng._entropy r')) =
       (Z.of_nat (length (Rng._entropy r)) - len)%Z /\
     Rng.signals r' = Rng.signals r ++ [Rng.ProducerWakeOne] /\
     Rng._queue r' = Rng._queue r /\
     ((Z.of_nat (length (Rng._entropy r)) < size)%Z ->
        (len < size)%Z /\ Rng._entropy r' = [])).
Proof.
  intros Hsize. split; [apply get_random_bytes_blocks|].
  intros Hne. eexists _, _, _. split; [now apply get_random_bytes_returns|].
  set (pool := Rng._entropy r).
  set (len := Z.min (Z.of_nat (length pool)) size).
  assert (Hn : (Z.to_nat len <= length pool)%nat) by lia.
  assert (Hb : (Z.to_nat len <= length buf)%nat) by lia.
  assert (Ht : Z.to_nat len = length (take (Z.to_nat len) pool))
    by (rewrite length_take; lia).
  cbn [Rng._entropy Rng.signals Rng._queue Rng.signalled Rng.set_entropy].
  repeat split.
  - rewrite take_app_length'; [reflexivity | exact Ht].
  - rewrite drop_app_length'; [reflexivity | exact Ht].
  - rewrite length_app, <- Ht, length_drop. lia.
  - rewrite take_app_length' by exact Ht. now rewrite take_drop.
  - rewrite length_drop. lia.
  - lia.
  - apply drop_ge. lia.
Qed.

Lemma get_random_bytes_spec_witness :
  let pool := replicate 16 Byte.x55 in
  let r := {| Rng._entropy := pool; Rng._queue := Vring.new_vring 8 0;
              Rng._now := 0; Rng.signals := [] |} in
  let buf := replicate 64 Byte.x00 in
  exists r',
    Rng.get_random_bytes buf 64 r =
      Some (16%Z, replicate 16 Byte.x55 ++ replicate 48 Byte.x00, r') /\
    Rng._entropy r' = [] /\
    Rng.signals r' = [Rng.ProducerWakeOne].
Proof.
  intros pool r buf.
  destruct (get_random_bytes_spec buf 64 r) as [_ H].
  - cbn. lia.
  - destruct H as (len & buf' & r' & Hr & Hlen & _ & _ & _ & _ & _ & Hs & _ & Hp).
    + discriminate.
    + exists r'. cbn in Hlen. subst len.
      destruct Hp as [_ He]; [cbn; lia|].
      vm_compute in Hr. injection Hr as <- <-.
      repeat split; reflexivity.
Defined.



(** *** What the waits leave alone *)

Section Published.
Import Vring Sched.
Context {cookie : Type}.
Variable harness : nat -> list (used_elem cookie).
Implicit Types (q : vring cookie) (w : world cookie).

Lemma same_pub_refl q : same_pub q q.
Proof. split; reflexivity. Qed.

Lemma same_pub_trans q1 q2 q3 : same_pub q1 q2 -> same_pub q2 q3 -> same_pub q1 q3.
Proof. intros [? ?] [? ?]; split; congruence. Qed.

Lemma same_pub_inject q es : same_pub q (host_inject es q).
Proof.
  revert q; induction es as [|e es IH]; intros q; [apply same_pub_refl|].
  simpl. eapply same_pub_trans; [|apply IH]. split; reflexivity.
Qed.

Lemma same_pub_tick w : same_pub (queue w) (queue (tick harness w)).
Proof. apply same_pub_inject. Qed.

Lemma same_pub_finalize q : same_pub q (get_buf_finalize q).
Proof. unfold get_buf_finalize. destruct (vq_used q); split; reflexivity. Qed.

Lemma wait_until_same_pub closure :
  (forall w b w', closure w = (b, w') -> same_pub (queue w) (queue w')) ->
  forall fuel w w',
    wait_until harness closure fuel w = Some w' -> same_pub (queue w) (queue w').
Proof.
  intros Hc. induction fuel as [|fuel IH]; intros w w' H; [discriminate|].
  simpl in H. destruct (closure w) as [b w1] eqn:C. apply Hc in C.
  destruct b.
  - injection H as <-. eapply same_pub_trans; [exact C|]. apply same_pub_tick.
  - apply IH in H. eapply same_pub_trans; [exact C|].
    eapply same_pub_trans; [|exact H]. apply same_pub_tick.
Qed.

Lemma poll_same_pub pred w b w' :
  WaitForQueue.poll pred harness w = (b, w') -> same_pub (queue w) (queue w').
Proof.
  intros H. pose proof (poll_cases pred harness w) as C; cbn zeta in C.
  pose proof (same_pub_tick w) as T1.
  destruct (pred (queue (tick harness w))).
  - rewrite C in H. injection H as <- <-. exact T1.
  - match type of C with context [pred (queue (tick harness ?x))] =>
      pose proof (same_pub_tick x) as T3;
      destruct (pred (queue (tick harness x))) end;
      rewrite C in H; injection H as <- <-.
    + eapply same_pub_trans; [exact T1|].
      eapply same_pub_trans; [|apply (same_pub_tick (emit _ _))].
      eapply same_pub_trans; [|exact T3]. apply (same_pub_tick (emit _ _)).
    + eapply same_pub_trans; [exact T1|].
      eapply same_pub_trans; [|exact T3]. apply (same_pub_tick (emit _ _)).
Qed.

Lemma wait_for_queue_same_pub pred fuel w w' :
  WaitForQueue.wait_for_queue pred harness fuel w = Some w' ->
  same_pub (queue w) (queue w').
Proof. apply wait_until_same_pub. intros ? ? ?. apply poll_same_pub. Qed.

End Published.

(** *** The producer *)

Section Producer.
Import Vring Sched Rng.
Local Open Scope Z_scope.
Variable _pool_size : Z.
Variable data_paddr : Z.
Variable harness : nat -> list (used_elem (list byte)).
Variable beyond : nat -> byte.
Hypothesis pool_size_range : 0 <= _pool_size < 2 ^ 64.

Abbreviation refill_prologue := (refill_prologue _pool_size).
Abbreviation refill_dma := (refill_dma data_paddr harness).
Abbreviation refill_epilogue := (refill_epilogue beyond).
Abbreviation exec := (exec _pool_size data_paddr harness beyond).
Abbreviation pool_inv := (pool_inv _pool_size).

Lemma refill_prologue_remaining r :
  Z.of_nat (length (_entropy r)) < _pool_size ->
  remaining (refill_prologue r) = _pool_size - Z.of_nat (length (_entropy r)).
Proof using pool_size_range.
  intros H. unfold Rng.refill_prologue, size_t; cbn.
  apply Z.mod_small. lia.
Qed.

Lemma make_room_same_pub fuel w w' :
  make_room harness fuel w = Some w' -> same_pub (queue w) (queue w').
Proof.
  revert w w'; induction fuel as [|fuel IH]; intros w w' H; [discriminate|].
  simpl in H.
  destruct (avail_ring_has_room _ _).
  - injection H as <-. apply same_pub_refl.
  - destruct (wait_until harness (can_gc_closure harness) fuel w) as [w1|] eqn:W;
      [|discriminate].
    simpl in H. apply IH in H.
    apply wait_until_same_pub in W.
    + eapply same_pub_trans; [exact W|].
      eapply same_pub_trans; [|exact H]. split; reflexivity.
    + intros w0 b w0' C. unfold can_gc_closure in C. injection C as _ <-.
      apply same_pub_tick.
Qed.

(** A buffer that got published sits on the available ring with the
    staging vector it was published with. *)
Lemma publish_avail data fuel w w' :
  publish harness data fuel w = Some w' ->
  vq_avail (queue w') =
    vq_avail (queue w) ++ [{| ch_cookie := data; ch_sg := _sg_vec (queue w) |}].
Proof.
  revert w w'; induction fuel as [|fuel IH]; intros w w' H; [discriminate|].
  simpl in H. unfold add_buf in H.
  destruct (_ <=? _)%nat.
  - injection H as <-. reflexivity.
  - destruct (make_room harness fuel _) as [w1|] eqn:M; [|discriminate].
    simpl in H. apply IH in H. apply make_room_same_pub in M.
    destruct M as [Msg Mav]. cbn in Msg, Mav. now rewrite H, Msg, Mav.
Qed.

(** The exchange with the host: the request is one host-writable entry of
    [remaining] bytes, and the buffer keeps its size. *)
Lemma refill_dma_request f fuel w w' len data :
  refill_dma f fuel w = Some (w', len, data) ->
  vq_avail (queue w') =
    vq_avail (queue w) ++
    [{| ch_cookie := buf f;
        ch_sg := [{| sg_dir_of := SgIn; sg_paddr := data_paddr;
                     sg_len := remaining f |}] |}] /\
  length data = Z.to_nat (remaining f).
Proof.
  unfold Rng.refill_dma. intros H.
  destruct (publish _ _ _ _) as [w1|] eqn:P; [|discriminate]. simpl in H.
  destruct (WaitForQueue.wait_for_queue _ _ _ _) as [w2|] eqn:W; [|discriminate].
  simpl in H.
  destruct (get_buf_elem (queue w2)) as [[d l]|] eqn:G; [|discriminate].
  simpl in H. injection H as <- <- <-.
  apply publish_avail in P. apply wait_for_queue_same_pub in W.
  destruct W as [_ Wav]. split; [|apply length_resize].
  destruct (same_pub_finalize (queue w2)) as [_ Fav].
  cbn in *. now rewrite Fav, Wav, P.
Qed.

Lemma copy_n_length data len :
  length (copy_n beyond data len) = Z.to_nat len.
Proof.
  unfold copy_n. rewrite length_app, length_take, length_map, length_seq. lia.
Qed.

Lemma copy_n_within data len :
  len <= Z.of_nat (length data) ->
  copy_n beyond data len = take (Z.to_nat len) data.
Proof.
  intros H. unfold copy_n.
  replace (Z.to_nat len - length data)%nat with 0%nat by lia.
  apply app_nil_r.
Qed.

(** The refill appends as many bytes as the host reported. *)
Lemma refill_epilogue_appends data len r :
  _entropy (refill_epilogue data len r) = _entropy r ++ copy_n beyond data len /\
  Z.of_nat (length (_entropy (refill_epilogue data len r))) =
    Z.of_nat (length (_entropy r)) + Z.max 0 len.
Proof.
  split; [reflexivity|]. cbn. rewrite length_app, copy_n_length. lia.
Qed.

Lemma exec_consume_shrinks b size s s' :
  exec (Consume b size) s = Some s' ->
  inflight s' = inflight s /\
  exists n, _entropy (dev s') = drop n (_entropy (dev s)).
Proof.
  unfold Rng.exec, get_random_bytes.
  destruct (0 <? _); [|discriminate]. cbn. intros [= <-]. cbn. eauto.
Qed.

(** The steps keep the bound, the end of a refill as long as the host
    reports no more than the buffer holds. *)
Lemma exec_inv a s s' :
  pool_inv s ->
  exec a s = Some s' ->
  (forall fuel f w len data,
     a = RefillEnd fuel -> inflight s = Some f ->
     refill_dma f fuel (world_of (dev s)) = Some (w, len, data) ->
     len <= remaining f) ->
  pool_inv s'.
Proof using pool_size_range.
  intros [Hb Hf] H Hlen. destruct a as [b size| |fuel].
  - apply exec_consume_shrinks in H as (Hi & n & He).
    unfold Rng.pool_inv. rewrite Hi, He, length_drop.
    split; [lia|]. destruct (inflight s); [|exact I]. lia.
  - unfold Rng.exec in H. destruct (inflight s); [discriminate|].
    destruct (_ <? _) eqn:G; [|discriminate]. injection H as <-.
    apply Z.ltb_lt in G. split; [exact Hb|]. cbn [inflight dev].
    rewrite refill_prologue_remaining by exact G. lia.
  - unfold Rng.exec in H. destruct (inflight s) as [f|]; [|discriminate].
    destruct (refill_dma f fuel _) as [[[w len] data]|] eqn:D; [|discriminate].
    simpl in H. injection H as <-.
    specialize (Hlen fuel f w len data eq_refl eq_refl D).
    destruct (refill_epilogue_appends data len (set_world w (dev s))) as [_ Ee].
    cbn in Ee. split; [|exact I]. cbn [dev signalled _entropy].
    cbn [Rng.refill_epilogue set_entropy _entropy set_world].
    rewrite length_app, copy_n_length. lia.
Qed.

End Producer.

(** C3. The pool does exceed [_pool_size] when the host reports more bytes
    than the refill asked for.  With [_pool_size = 64] and an empty pool the
    worker asks for 64 bytes; the host completes that request reporting 65;
    [refill] appends 65 bytes, the last of them read behind the end of its
    64-byte buffer, and the pool holds 65 bytes: the bound that held before
    the refill is broken after it. *)
Theorem entropy_pool_overrun (beyond : nat -> Rng.byte) :
  let request :=
    {| Vring.ch_cookie := replicate 64 Byte.x55;
       Vring.ch_sg := [{| Vring.sg_dir_of := Vring.SgIn;
                          Vring.sg_paddr := 4096%Z;
                          Vring.sg_len := 64%Z |}] |} in
  let reply := {| Vring.ue_chain := request; Vring.ue_len := 65%Z |} in
  let harness := fun n : nat => if Nat.eqb n 1 then [reply] else [] in
  let s0 := Rng.init (Vring.new_vring 8 0) in
  exists s r,
    Rng.pool_inv 64 s0 /\
    Rng.run 64 4096 harness beyond [Rng.RefillBegin; Rng.RefillEnd 3] s0 = Some s /\
    Rng._entropy (Rng.dev s) = replicate 64 Byte.x55 ++ [beyond 0%nat] /\
    Z.of_nat (length (Rng._entropy (Rng.dev s))) = 65%Z /\
    ~ Rng.pool_inv 64 s /\
    Rng.worker_round 64 4096 harness beyond 3 (Rng.dev s0) = Some r /\
    Rng._entropy r = replicate 64 Byte.x55 ++ [beyond 0%nat].
Proof.
  intros request reply harness s0. eexists _, _.
  split; [split; [cbn; lia | exact I]|].
  split; [vm_compute; reflexivity|].
  split; [reflexivity|]. split; [reflexivity|].
  split; [intros [H _]; cbn in H; lia|].
  split; [vm_compute; reflexivity | reflexivity].
Qed.

(** The short completion of the specification's second scenario: the
    host returns 16 bytes of the 64 asked for; the pool holds 16, the next
    refill asks for the remaining 48, and a client asking for 64 gets
    16. *)
Example entropy_small_return :
  let reply :=
    {| Vring.ue_chain :=
         {| Vring.ch_cookie := replicate 16 Byte.x55;
            Vring.ch_sg := [{| Vring.sg_dir_of := Vring.SgIn;
                               Vring.sg_paddr := 4096%Z;
                               Vring.sg_len := 64%Z |}] |};
       Vring.ue_len := 16%Z |} in
  let harness := fun n : nat => if Nat.eqb n 0 then [reply] else [] in
  exists s s',
    Rng.run 64 4096 harness (fun _ => Byte.x00)
      [Rng.RefillBegin; Rng.RefillEnd 3; Rng.RefillBegin]
      (Rng.init (Vring.new_vring 8 0)) = Some s /\
    Rng._entropy (Rng.dev s) = replicate 16 Byte.x55 /\
    Rng.remaining <$> Rng.inflight s = Some 48%Z /\
    Rng.exec 64 4096 harness (fun _ => Byte.x00)
      (Rng.Consume (replicate 64 Byte.x00) 64) s = Some s' /\
    Rng._entropy (Rng.dev s') = [] /\
    fst <$> Rng.get_random_bytes (replicate 64 Byte.x00) 64 (Rng.dev s)
      = Some (16%Z, replicate 16 Byte.x55 ++ replicate 48 Byte.x00).
Proof.
  intros reply harness. eexists _, _.
  split; [vm_compute; reflexivity|]. repeat split.
Qed.

(** ** The transport core *)

Section Transport.
Import Virtio.
Local Open Scope Z_scope.
Context {cookie : Type}.
Variable hh : virtio_hh.
Variable ncpus : Z.
Variable alloc_paddr : Z -> Z.

Abbreviation driver := (virtio_driver cookie).
Abbreviation fresh := (@fresh cookie hh).

Lemma bind_eq {A B} (m : M A) (k : A -> M B) (s : driver) :
  bind m k s =
  match m s with
  | Done a s' => k a s'
  | Fault s' => Fault s'
  | OutOfFuel => OutOfFuel
  end.
Proof. reflexivity. Qed.

(** [parse_pci_config] answers whether the device passes the four checks;
    it touches nothing but [_bar1]. *)
Lemma parse_pci_config_fresh dev :
  parse_pci_config hh (fresh dev) =
  Done (acceptable hh dev)
       (set_bar1 (pci_parse_ok dev && pci_has_bar1 dev) (fresh dev)).
Proof.
  unfold parse_pci_config, acceptable, bind, get, modify, ret; cbn.
  destruct (pci_parse_ok dev); cbn; [|reflexivity].
  destruct (pci_has_bar1 dev); cbn; [|reflexivity].
  destruct (pci_revision_id dev =? _); cbn; [|reflexivity].
  rewrite Z.gtb_ltb, (Z.leb_antisym _ (pci_device_id dev)),
    (Z.leb_antisym (pci_device_id dev)).
  destruct (pci_device_id dev <? _), (_ <? pci_device_id dev); reflexivity.
Qed.

(** The constructor goes on whatever [parse_pci_config] answered. *)
Lemma ctor_outcome dev :
  let v := Z.lor 0 (Z.lor (VIRTIO_CONFIG_S_ACKNOWLEDGE hh)
                          (VIRTIO_CONFIG_S_DRIVER hh)) mod 2 ^ 8 in
  if pci_parse_ok dev && pci_has_bar1 dev then
    exists s : driver,
      virtio_driver_new hh dev = Done tt s /\
      log s = [IoSetBusMaster true; IoMsixEnable;
               IoWrite 8 VIRTIO_PCI_STATUS 0;
               IoRead 8 VIRTIO_PCI_STATUS 0;
               IoWrite 8 VIRTIO_PCI_STATUS v] /\
      h_status s = v /\ _bar1 s = true /\ _num_queues s = 0 /\ _dev s = dev
  else
    exists s : driver,
      virtio_driver_new hh dev = Fault s /\
      log s = [IoSetBusMaster true; IoMsixEnable].
Proof.
  unfold virtio_driver_new, ctor. rewrite bind_eq, parse_pci_config_fresh.
  destruct (pci_parse_ok dev && pci_has_bar1 dev); eexists; repeat split.
Qed.

Lemma virtio_conf_write_ok width r v (s : driver) :
  _bar1 s = true ->
  virtio_conf_write width r v s =
  Done tt (host_write r (v mod 2 ^ width)
             (logged (IoWrite width r (v mod 2 ^ width)) s)).
Proof. intros H. unfold virtio_conf_write. now rewrite H. Qed.

Lemma virtio_conf_read_ok width r (s : driver) :
  _bar1 s = true ->
  virtio_conf_read width r s =
  Done (host_read r s mod 2 ^ width)
       (logged (IoRead width r (host_read r s mod 2 ^ width)) s).
Proof. intros H. unfold virtio_conf_read. now rewrite H. Qed.

Ltac probe_simpl :=
  cbn -[Z.pow Z.modulo Z.shiftr Z.to_nat probe_virt_queues Z.mul Z.add
        Z.geb Z.eqb].

Ltac probe_done :=
  probe_simpl;
  split_and!;
  first [ reflexivity | assumption | lia
        | eexists; split; [rewrite <- ?app_assoc; reflexivity | reflexivity] ].

(** What [probe_virt_queues] leaves alone, and that it finishes. *)
Lemma probe_virt_queues_quiet fuel (s : driver) :
  _bar1 s = true ->
  0 <= _num_queues s ->
  max_virtqueues_nr hh < 2 ^ 32 ->
  match probe_virt_queues hh ncpus alloc_paddr fuel s with
  | Done _ s' =>
      h_status s' = h_status s /\ _bar1 s' = true /\ _dev s' = _dev s /\
      _num_queues s <= _num_queues s' /\
      _num_queues s' <= Z.max (_num_queues s + 1) (2 * ncpus) /\
      exists ios, log s' = log s ++ ios /\ forallb queue_io ios = true
  | Fault _ => False
  | OutOfFuel => (fuel <= Z.to_nat (max_virtqueues_nr hh - _num_queues s))%nat
  end.
Proof.
  intros Hbar Hn Hmax. revert s Hbar Hn.
  induction fuel as [|fuel IH]; intros s Hbar Hn; [cbn; lia|].
  cbn [probe_virt_queues].
  unfold bind, get, modify, ret, virtio_conf_writew, virtio_conf_readw,
    virtio_conf_writel, virtio_conf_write, virtio_conf_read.
  destruct (_num_queues s >=? max_virtqueues_nr hh) eqn:Hcap.
  { split_and!; try lia; try reflexivity; try assumption.
    exists []. now rewrite app_nil_r. }
  rewrite Hbar. probe_simpl. rewrite Hbar.
  set (qsize := host_queue_num (_dev s) _ mod _).
  destruct (0 =? qsize); [probe_done|].
  set (queue := Vring.new_vring _ _).
  rewrite Z.geb_leb in Hcap. apply Z.leb_gt in Hcap.
  assert (Hn1 : (_num_queues s + 1) mod 2 ^ 32 = _num_queues s + 1)
    by (apply Z.mod_small; lia).
  assert (Htail : forall st : driver,
            _bar1 st = true -> h_status st = h_status s -> _dev st = _dev s ->
            _num_queues st = (_num_queues s + 1) mod 2 ^ 32 ->
            (exists ios, log st = log s ++ ios /\ forallb queue_io ios = true) ->
            match (if (_num_queues s + 1) mod 2 ^ 32 >=? 2 * ncpus
                   then fun s1 : driver => Done tt s1
                   else probe_virt_queues hh ncpus alloc_paddr fuel) st with
            | Done _ s' =>
                h_status s' = h_status s /\ _bar1 s' = true /\ _dev s' = _dev s /\
                _num_queues s <= _num_queues s' /\
                _num_queues s' <= Z.max (_num_queues s + 1) (2 * ncpus) /\
                exists ios, log s' = log s ++ ios /\ forallb queue_io ios = true
            | Fault _ => False
            | OutOfFuel =>
                (S fuel <= Z.to_nat (max_virtqueues_nr hh - _num_queues s))%nat
            end).
  { intros st Hb Hs Hd Hq (ios & Hl & Hio). rewrite Hn1 in Hq.
    destruct (_ >=? 2 * ncpus) eqn:G.
    - split_and!; try assumption; try lia. eauto.
    - rewrite Z.geb_leb in G. apply Z.leb_gt in G.
      specialize (IH st Hb ltac:(lia)).
      destruct (probe_virt_queues hh ncpus alloc_paddr fuel st) as [a s'| |];
        [|exact IH|lia].
      destruct IH as (I1 & I2 & I3 & I4 & I4' & ios' & I5 & I6).
      split_and!; try congruence; try lia.
      exists (ios ++ ios'). rewrite I5, Hl, <- app_assoc. split; [reflexivity|].
      rewrite forallb_app, Hio, I6. reflexivity. }
  probe_simpl.
  destruct (pci_is_msix (_dev s)); probe_simpl.
  - destruct (host_takes_vector _ _); probe_simpl;
      (match goal with |- context [negb ?b] => destruct b end; cbn [negb];
       [|probe_done]);
      rewrite ?Hbar; probe_simpl; apply Htail;
      first [ reflexivity
            | eexists; split; [rewrite <- ?app_assoc; reflexivity | reflexivity] ].
  - rewrite ?Hbar; probe_simpl; apply Htail;
      first [ reflexivity
            | eexists; split; [rewrite <- ?app_assoc; reflexivity | reflexivity] ].
Qed.

End Transport.

(** C4. [parse_pci_config] does reject a device whose PCI configuration
    does not parse, whose BAR1 is missing, whose revision is not the ABI
    version or whose device ID is outside the virtio range, and it does so
    without any access to the device.  The constructor, however, does not
    look at the answer: a rejected device with a BAR1 gets bus mastering,
    MSI-X, the reset and the status write, and one without a BAR1 gets bus
    mastering and MSI-X before the null [_bar1] is dereferenced. *)
Theorem ctor_ignores_parse_pci_config
    {cookie : Type} (hh : Virtio.virtio_hh) (dev : Virtio.pci_device) :
  Virtio.acceptable hh dev = false ->
  (exists s, Virtio.parse_pci_config hh (@Virtio.fresh cookie hh dev) = Virtio.Done false s /\
             Virtio.log s = []) /\
  (exists s, (Virtio.virtio_driver_new hh dev = Virtio.Done tt s \/
              Virtio.virtio_driver_new hh dev = @Virtio.Fault cookie unit s) /\
             take 2 (Virtio.log s) = [Virtio.IoSetBusMaster true; Virtio.IoMsixEnable] /\
             (Virtio.pci_parse_ok dev && Virtio.pci_has_bar1 dev = true ->
              Virtio.status_writes (Virtio.log s) =
                [0; Z.lor 0 (Z.lor (Virtio.VIRTIO_CONFIG_S_ACKNOWLEDGE hh)
                                   (Virtio.VIRTIO_CONFIG_S_DRIVER hh)) mod 2 ^ 8]%Z)).
Proof.
  intros Hrej. split.
  - rewrite parse_pci_config_fresh, Hrej. eexists. split; reflexivity.
  - pose proof (@ctor_outcome cookie hh dev) as H. cbn zeta in H.
    destruct (Virtio.pci_parse_ok dev && Virtio.pci_has_bar1 dev).
    + destruct H as (s & Hs & Hl & _). exists s. rewrite Hl.
      repeat split; auto.
    + destruct H as (s & Hs & Hl). exists s. rewrite Hl.
      repeat split; auto. discriminate.
Qed.

Lemma ctor_ignores_parse_pci_config_witness :
  let dev :=
    {| Virtio.pci_parse_ok := true; Virtio.pci_has_bar1 := true;
       Virtio.pci_revision_id := 1; Virtio.pci_device_id := 0x1005;
       Virtio.pci_is_msix := true; Virtio.host_features := 0;
       Virtio.host_queue_num := fun i => if (i =? 0)%Z then 256%Z else 0%Z;
       Virtio.host_takes_vector := fun _ => true |} in
  exists s,
    Virtio.parse_pci_config Virtio.legacy (@Virtio.fresh unit Virtio.legacy dev)
      = Virtio.Done false (Virtio.set_bar1 true (Virtio.fresh Virtio.legacy dev)) /\
    Virtio.virtio_driver_new Virtio.legacy dev = @Virtio.Done unit unit tt s /\
    Virtio.log s =
      [Virtio.IoSetBusMaster true; Virtio.IoMsixEnable;
       Virtio.IoWrite 8 Virtio.VIRTIO_PCI_STATUS 0;
       Virtio.IoRead 8 Virtio.VIRTIO_PCI_STATUS 0;
       Virtio.IoWrite 8 Virtio.VIRTIO_PCI_STATUS 3].
Proof.
  intros dev.
  destruct (@ctor_ignores_parse_pci_config unit Virtio.legacy dev eq_refl)
    as [_ (s & [Hs|Hs] & _)].
  - exists s. split; [reflexivity|]. split; [exact Hs|].
    vm_compute in Hs. injection Hs as <-. reflexivity.
  - vm_compute in Hs. discriminate Hs.
Defined.

(** *** The status byte during probe *)

Section StatusProgress.
Import Virtio.
Local Open Scope Z_scope.
Context {cookie : Type}.
Variable hh : virtio_hh.
Variable ncpus : Z.
Variable alloc_paddr : Z -> Z.

Lemma add_dev_status_ok status (s : virtio_driver cookie) :
  _bar1 s = true ->
  exists s',
    add_dev_status status s = Done tt s' /\
    log s' = log s ++
      [IoRead 8 VIRTIO_PCI_STATUS (h_status s mod 2 ^ 8);
       IoWrite 8 VIRTIO_PCI_STATUS (Z.lor (h_status s mod 2 ^ 8) status mod 2 ^ 8)] /\
    h_status s' = Z.lor (h_status s mod 2 ^ 8) status mod 2 ^ 8.
Proof.
  intros Hbar.
  unfold add_dev_status, get_dev_status, set_dev_status,
    virtio_conf_readb, virtio_conf_writeb.
  rewrite bind_eq, virtio_conf_read_ok by exact Hbar.
  rewrite virtio_conf_write_ok by exact Hbar.
  eexists. split; [reflexivity|]. cbn. rewrite <- app_assoc. split; reflexivity.
Qed.

(** A status byte only gains bits through [add_dev_status]. *)
Lemma add_status_monotone old status i :
  Z.testbit (old mod 2 ^ 8) i = true ->
  Z.testbit (Z.lor (old mod 2 ^ 8) status mod 2 ^ 8) i = true.
Proof.
  intros H. destruct (Z.lt_ge_cases i 0) as [Hi|Hi].
  { now rewrite Z.testbit_neg_r in H. }
  destruct (Z.lt_ge_cases i 8) as [Hlt|Hge].
  - rewrite Z.mod_pow2_bits_low by lia. rewrite Z.lor_spec, H. reflexivity.
  - rewrite Z.mod_pow2_bits_high in H by lia. discriminate.
Qed.

Lemma status_writes_app l l' :
  status_writes (l ++ l') = status_writes l ++ status_writes l'.
Proof. unfold status_writes. apply omap_app. Qed.

Lemma status_writes_queue_io l :
  forallb queue_io l = true -> status_writes l = [].
Proof.
  induction l as [|e l IH]; [reflexivity|]. cbn [forallb].
  intros [He Hl]%andb_prop. specialize (IH Hl).
  destruct e as [| | w r v | |]; try discriminate He; try exact IH.
  destruct r; try discriminate He; exact IH.
Qed.

Lemma rng_new_outcome fuel dev :
  pci_parse_ok dev = true ->
  pci_has_bar1 dev = true ->
  max_virtqueues_nr hh < 2 ^ 32 ->
  (Z.to_nat (max_virtqueues_nr hh) < fuel)%nat ->
  let v1 := Z.lor 0 (Z.lor (VIRTIO_CONFIG_S_ACKNOWLEDGE hh)
                           (VIRTIO_CONFIG_S_DRIVER hh)) mod 2 ^ 8 in
  let v2 := Z.lor v1 (VIRTIO_CONFIG_S_DRIVER_OK hh) mod 2 ^ 8 in
  exists (q : option (Vring.vring cookie)) s ios,
    rng_new hh ncpus alloc_paddr fuel dev = Done q s /\
    log s =
      [IoSetBusMaster true; IoMsixEnable;
       IoWrite 8 VIRTIO_PCI_STATUS 0;
       IoRead 8 VIRTIO_PCI_STATUS 0;
       IoWrite 8 VIRTIO_PCI_STATUS v1]
      ++ ios ++
      [IoRead 8 VIRTIO_PCI_STATUS v1; IoWrite 8 VIRTIO_PCI_STATUS v2] /\
    forallb queue_io ios = true /\
    _num_queues s <= Z.max 1 (2 * ncpus).
Proof.
  intros Hp Hb Hmax Hfuel v1 v2.
  pose proof (@ctor_outcome cookie hh dev) as C. cbn zeta in C.
  rewrite Hp, Hb in C. cbn [andb] in C.
  destruct C as (s1 & Hs1 & Hl1 & Hst1 & Hb1 & Hn1 & Hd1).
  fold v1 in Hl1, Hst1.
  pose proof (probe_virt_queues_quiet hh ncpus alloc_paddr fuel s1 Hb1
                ltac:(lia) Hmax) as P.
  unfold rng_new. rewrite bind_eq.
  change (ctor hh (fresh hh dev)) with (virtio_driver_new (cookie:=cookie) hh dev).
  rewrite Hs1, bind_eq.
  destruct (probe_virt_queues hh ncpus alloc_paddr fuel s1) as [[] s2| |];
    [|contradiction|lia].
  destruct P as (P1 & P2 & P3 & P4 & P5 & ios & P6 & P7).
  rewrite bind_eq. cbn [get]. rewrite bind_eq.
  destruct (add_dev_status_ok (VIRTIO_CONFIG_S_DRIVER_OK hh) s2 P2)
    as (s3 & Hs3 & Hl3 & Hst3).
  rewrite Hs3. cbn [ret].
  assert (Hv1 : h_status s2 mod 2 ^ 8 = v1).
  { rewrite P1, Hst1. unfold v1. apply Z.mod_mod. lia. }
  rewrite Hv1 in Hl3. fold v2 in Hl3.
  eexists _, s3, ios. split; [reflexivity|]. split_and!.
  - rewrite Hl3, P6, Hl1. now rewrite <- !app_assoc.
  - exact P7.
  - assert (_num_queues s3 = _num_queues s2) as ->; [|lia].
    revert Hs3. unfold add_dev_status, get_dev_status, set_dev_status,
      virtio_conf_readb, virtio_conf_writeb.
    rewrite bind_eq, virtio_conf_read_ok by exact P2.
    rewrite virtio_conf_write_ok by exact P2.
    intros [= <-]. reflexivity.
Qed.

(** The loops of [net::net] have nothing to run over: the base
    constructor leaves [_num_queues] at 0. *)
Lemma for_pairs_none fuel body (s : virtio_driver cookie) :
  _num_queues s = 0 -> for_pairs (S fuel) 0 body s = Done tt s.
Proof.
  intros H. cbn [for_pairs]. rewrite bind_eq. cbn [get]. rewrite H. reflexivity.
Qed.

Lemma net_new_outcome new_pair sum_size start_poll irq_and_fill
    (if_alloc_ok : bool) fuel dev :
  pci_parse_ok dev = true ->
  pci_has_bar1 dev = true ->
  (0 < fuel)%nat ->
  let v1 := Z.lor 0 (Z.lor (VIRTIO_CONFIG_S_ACKNOWLEDGE hh)
                           (VIRTIO_CONFIG_S_DRIVER hh)) mod 2 ^ 8 in
  let v2 := Z.lor v1 (VIRTIO_CONFIG_S_DRIVER_OK hh) mod 2 ^ 8 in
  exists s : virtio_driver cookie,
    net_new hh new_pair sum_size start_poll irq_and_fill if_alloc_ok fuel dev
      = Done if_alloc_ok s /\
    log s =
      [IoSetBusMaster true; IoMsixEnable;
       IoWrite 8 VIRTIO_PCI_STATUS 0;
       IoRead 8 VIRTIO_PCI_STATUS 0;
       IoWrite 8 VIRTIO_PCI_STATUS v1]
      ++ (if if_alloc_ok
          then [IoRead 8 VIRTIO_PCI_STATUS v1; IoWrite 8 VIRTIO_PCI_STATUS v2]
          else []).
Proof.
  intros Hp Hb Hfuel v1 v2.
  pose proof (@ctor_outcome cookie hh dev) as C. cbn zeta in C.
  rewrite Hp, Hb in C. cbn [andb] in C.
  destruct C as (s1 & Hs1 & Hl1 & Hst1 & Hb1 & Hn1 & Hd1).
  fold v1 in Hl1, Hst1.
  destruct fuel as [|fuel]; [lia|].
  unfold net_new. rewrite bind_eq.
  change (ctor hh (fresh hh dev)) with (virtio_driver_new (cookie:=cookie) hh dev).
  rewrite Hs1, bind_eq, for_pairs_none by exact Hn1.
  destruct if_alloc_ok; cbn [negb].
  - rewrite bind_eq, for_pairs_none by exact Hn1.
    rewrite bind_eq, for_pairs_none by exact Hn1.
    rewrite bind_eq, for_pairs_none by exact Hn1.
    destruct (add_dev_status_ok (VIRTIO_CONFIG_S_DRIVER_OK hh) s1 Hb1)
      as (s3 & Hs3 & Hl3 & Hst3).
    rewrite bind_eq, Hs3. cbn [ret].
    assert (Hv1 : h_status s1 mod 2 ^ 8 = v1).
    { rewrite Hst1. unfold v1. apply Z.mod_mod. lia. }
    rewrite Hv1 in Hl3. fold v2 in Hl3.
    exists s3. split; [reflexivity|]. rewrite Hl3, Hl1. reflexivity.
  - exists s1. split; [reflexivity|]. rewrite Hl1. reflexivity.
Qed.

End StatusProgress.

(** C7 (as the code has it). During the probe the status register is
    written first with 0 (the reset) and then, in one write, with
    [ACKNOWLEDGE] and [DRIVER] together; nothing comes before that write but
    bus mastering, MSI-X and the reset, so no feature negotiation and no
    queue configuration.  The write that adds [DRIVER_OK] is the last
    access of the probe, for the entropy device after the queues have been
    configured, for the network device when [if_alloc] has succeeded.  There
    is no other status write, and the write after the reset keeps every bit
    of the one before. *)
Theorem status_byte_progress
    {cookie : Type} (hh : Virtio.virtio_hh) (ncpus : Z)
    (alloc_paddr : Z -> Z) (fuel : nat) (dev : Virtio.pci_device) :
  Virtio.pci_parse_ok dev = true ->
  Virtio.pci_has_bar1 dev = true ->
  (Virtio.max_virtqueues_nr hh < 2 ^ 32)%Z ->
  (Z.to_nat (Virtio.max_virtqueues_nr hh) < fuel)%nat ->
  let v1 := (Z.lor 0 (Z.lor (Virtio.VIRTIO_CONFIG_S_ACKNOWLEDGE hh)
                            (Virtio.VIRTIO_CONFIG_S_DRIVER hh)) mod 2 ^ 8)%Z in
  let v2 := (Z.lor v1 (Virtio.VIRTIO_CONFIG_S_DRIVER_OK hh) mod 2 ^ 8)%Z in
  let first :=
    [Virtio.IoSetBusMaster true; Virtio.IoMsixEnable;
     Virtio.IoWrite 8 Virtio.VIRTIO_PCI_STATUS 0;
     Virtio.IoRead 8 Virtio.VIRTIO_PCI_STATUS 0] in
  let both := Virtio.IoWrite 8 Virtio.VIRTIO_PCI_STATUS v1 in
  let last :=
    [Virtio.IoRead 8 Virtio.VIRTIO_PCI_STATUS v1;
     Virtio.IoWrite 8 Virtio.VIRTIO_PCI_STATUS v2] in
  existsb Virtio.negotiation_or_queue_io first = false /\
  (forall i, Z.testbit v1 i = true -> Z.testbit v2 i = true) /\
  (exists (q : option (Vring.vring cookie)) s ios,
     Virtio.rng_new hh ncpus alloc_paddr fuel dev = Virtio.Done q s /\
     Virtio.log s = first ++ [both] ++ ios ++ last /\
     Virtio.status_writes ios = [] /\
     Virtio.status_writes (Virtio.log s) = [0%Z; v1; v2]) /\
  (forall (new_pair sum_size start_poll irq_and_fill :
             Z -> Virtio.virtio_driver cookie -> Virtio.result cookie unit)
          (if_alloc_ok : bool),
     exists s,
       Virtio.net_new hh new_pair sum_size start_poll irq_and_fill
         if_alloc_ok fuel dev = Virtio.Done if_alloc_ok s /\
       Virtio.log s = first ++ [both] ++ (if if_alloc_ok then last else []) /\
       Virtio.status_writes (Virtio.log s) =
         [0%Z; v1] ++ (if if_alloc_ok then [v2] else [])).
Proof.
  intros Hp Hb Hmax Hfuel v1 v2 first both last. split_and!.
  - reflexivity.
  - intros i. apply add_status_monotone.
  - destruct (@rng_new_outcome cookie hh ncpus alloc_paddr fuel dev Hp Hb Hmax Hfuel)
      as (q & s & ios & Hr & Hl & Hio & _).
    exists q, s, ios. split_and!; auto.
    + now apply status_writes_queue_io.
    + rewrite Hl, !status_writes_app, (status_writes_queue_io ios Hio).
      reflexivity.
  - intros new_pair sum_size start_poll irq_and_fill if_alloc_ok.
    destruct (@net_new_outcome cookie hh new_pair sum_size start_poll
                irq_and_fill if_alloc_ok fuel dev Hp Hb ltac:(lia))
      as (s & Hn & Hl).
    exists s. split; [exact Hn|]. split; [exact Hl|].
    rewrite Hl. destruct if_alloc_ok; reflexivity.
Qed.

Lemma status_byte_progress_witness :
  let dev :=
    {| Virtio.pci_parse_ok := true; Virtio.pci_has_bar1 := true;
       Virtio.pci_revision_id := 0; Virtio.pci_device_id := 0x1005;
       Virtio.pci_is_msix := true; Virtio.host_features := 0;
       Virtio.host_queue_num := fun i => if (i =? 0)%Z then 256%Z else 0%Z;
       Virtio.host_takes_vector := fun _ => true |} in
  exists (q : option (Vring.vring unit)) s,
    Virtio.rng_new Virtio.legacy 1 (fun _ => 0x10000%Z) 65 dev = Virtio.Done q s /\
    Virtio.status_writes (Virtio.log s) = [0; 3; 7]%Z.
Proof.
  intros dev.
  destruct (@status_byte_progress unit Virtio.legacy 1 (fun _ => 0x10000%Z) 65 dev)
    as (_ & _ & (q & s & ios & Hr & _ & _ & Hw) & _).
  - reflexivity.
  - reflexivity.
  - reflexivity.
  - vm_compute. lia.
  - exists q, s. split; [exact Hr | exact Hw].
Defined.

(** The probe sets [ACKNOWLEDGE] and [DRIVER] in one write: no status
    write has the first without the second. *)
Lemma acknowledge_and_driver_in_one_write :
  let dev :=
    {| Virtio.pci_parse_ok := true; Virtio.pci_has_bar1 := true;
       Virtio.pci_revision_id := 0; Virtio.pci_device_id := 0x1005;
       Virtio.pci_is_msix := true; Virtio.host_features := 0;
       Virtio.host_queue_num := fun i => if (i =? 0)%Z then 256%Z else 0%Z;
       Virtio.host_takes_vector := fun _ => true |} in
  exists (q : option (Vring.vring unit)) s,
    Virtio.rng_new Virtio.legacy 1 (fun _ => 0x10000%Z) 65 dev = Virtio.Done q s /\
    Virtio.status_writes (Virtio.log s) = [0; 3; 7]%Z /\
    Virtio.acknowledge_alone Virtio.legacy (Virtio.status_writes (Virtio.log s))
      = false.
Proof.
  intros dev. eexists _, _. split; [vm_compute; reflexivity|].
  split; reflexivity.
Qed.

(** *** The enumeration of the queues *)

Section Enumeration.
Import Virtio.
Local Open Scope Z_scope.
Context {cookie : Type}.
Variable hh : virtio_hh.
Variable ncpus : Z.
Variable alloc_paddr : Z -> Z.

Abbreviation spec_enumeration := (spec_enumeration hh ncpus alloc_paddr).

Lemma queue_indices_done n :
  max_virtqueues_nr hh <= n -> queue_indices hh n = [].
Proof.
  intros H. unfold queue_indices.
  replace (Z.to_nat (max_virtqueues_nr hh - n)) with 0%nat by lia. reflexivity.
Qed.

Lemma queue_indices_next n :
  0 <= n < max_virtqueues_nr hh ->
  queue_indices hh n = n :: queue_indices hh (n + 1).
Proof.
  intros H. unfold queue_indices.
  replace (Z.to_nat (max_virtqueues_nr hh - n))
    with (S (Z.to_nat (max_virtqueues_nr hh - (n + 1)))) by lia.
  cbn [seq fmap list_fmap]. rewrite Z2Nat.id by lia.
  replace (S (Z.to_nat n)) with (Z.to_nat (n + 1)) by lia. reflexivity.
Qed.

Ltac probe_simpl :=
  cbn -[Z.pow Z.modulo Z.shiftr Z.to_nat probe_virt_queues Z.mul Z.add
        Z.geb Z.eqb spec_enumeration queue_indices].

(** The code makes the accesses of the enumeration, in that order. *)
Lemma probe_virt_queues_log fuel (s : virtio_driver cookie) :
  _bar1 s = true ->
  0 <= _num_queues s ->
  max_virtqueues_nr hh <= 0xffff ->
  (Z.to_nat (max_virtqueues_nr hh - _num_queues s) < fuel)%nat ->
  exists s',
    probe_virt_queues hh ncpus alloc_paddr fuel s = Done tt s' /\
    log s' = log s ++ spec_enumeration (_dev s) (queue_indices hh (_num_queues s)).
Proof.
  intros Hbar Hn Hmax. revert s Hbar Hn.
  induction fuel as [|fuel IH]; intros s Hbar Hn Hfuel; [lia|].
  cbn [probe_virt_queues].
  unfold bind, get, modify, ret, virtio_conf_writew, virtio_conf_readw,
    virtio_conf_writel, virtio_conf_write, virtio_conf_read.
  destruct (_num_queues s >=? max_virtqueues_nr hh) eqn:Hcap.
  { rewrite Z.geb_leb in Hcap. apply Z.leb_le in Hcap.
    rewrite queue_indices_done by exact Hcap. cbn [Virtio.spec_enumeration].
    exists s. now rewrite app_nil_r. }
  rewrite Z.geb_leb in Hcap. apply Z.leb_gt in Hcap.
  rewrite queue_indices_next by lia. cbn [Virtio.spec_enumeration].
  assert (Hm16 : _num_queues s mod 2 ^ 16 = _num_queues s)
    by (apply Z.mod_small; lia).
  assert (Hn1 : (_num_queues s + 1) mod 2 ^ 32 = _num_queues s + 1)
    by (apply Z.mod_small; lia).
  rewrite Hbar. probe_simpl. rewrite ?Hbar, ?Hm16.
  set (qsize := host_queue_num (_dev s) (_num_queues s) mod 2 ^ 16).
  destruct (0 =? qsize) eqn:Hq.
  { eexists. split; [reflexivity|]. probe_simpl. now rewrite <- app_assoc. }
  set (queue := Vring.new_vring _ _).
  assert (Htail : forall (st : virtio_driver cookie) ios,
            _bar1 st = true -> _dev st = _dev s ->
            _num_queues st = (_num_queues s + 1) mod 2 ^ 32 ->
            log st = log s ++ ios ->
            exists s',
              (if (_num_queues s + 1) mod 2 ^ 32 >=? 2 * ncpus
               then fun s1 : virtio_driver cookie => Done tt s1
               else probe_virt_queues hh ncpus alloc_paddr fuel) st = Done tt s' /\
              log s' = log s ++ ios ++
                (if _num_queues s + 1 >=? 2 * ncpus then []
                 else spec_enumeration (_dev s) (queue_indices hh (_num_queues s + 1)))).
  { intros st ios Hb Hd Hq' Hl. rewrite Hn1 in Hq' |- *.
    destruct (_ >=? 2 * ncpus) eqn:G.
    - exists st. split; [reflexivity|]. now rewrite app_nil_r.
    - destruct (IH st Hb ltac:(lia) ltac:(lia)) as (s' & P & L).
      exists s'. split; [exact P|]. rewrite L, Hl, Hd, Hq', app_assoc. reflexivity. }
  probe_simpl.
  destruct (pci_is_msix (_dev s)) eqn:Hmsix; probe_simpl.
  - assert (Hv : upd (h_vector s) (_num_queues s)
                   (if host_takes_vector (_dev s) (_num_queues s)
                    then _num_queues s else 65535) (_num_queues s)
                 = if host_takes_vector (_dev s) (_num_queues s)
                   then _num_queues s else 65535)
      by (unfold upd; now rewrite Z.eqb_refl).
    rewrite Hv.
    destruct (host_takes_vector (_dev s) (_num_queues s)) eqn:Htake;
      probe_simpl.
    + rewrite Hm16, Z.eqb_refl. cbn [negb]. rewrite ?Hbar. probe_simpl.
      match goal with |- exists s', _ ?st = _ /\ _ =>
        edestruct (Htail st) as (s' & P & L);
          [reflexivity | reflexivity | reflexivity
          | cbn [log]; rewrite <- !app_assoc; reflexivity |]
      end.
      exists s'. split; [exact P|]. rewrite L. reflexivity.
    + change (65535 mod 2 ^ 16) with 65535.
      replace (65535 =? _num_queues s) with false
        by (symmetry; apply Z.eqb_neq; lia).
      cbn [negb]. eexists. split; [reflexivity|]. probe_simpl.
      now rewrite <- !app_assoc.
  - rewrite ?Hbar. probe_simpl.
      match goal with |- exists s', _ ?st = _ /\ _ =>
        edestruct (Htail st) as (s' & P & L);
          [reflexivity | reflexivity | reflexivity
          | cbn [log]; rewrite <- !app_assoc; reflexivity |]
      end.
      exists s'. split; [exact P|]. rewrite L. reflexivity.
Qed.

(** The indices selected are the first ones of the indices to visit. *)
Lemma spec_enumeration_selects dev indices :
  exists k, queue_selects (spec_enumeration dev indices) = take k indices.
Proof.
  induction indices as [|n rest (k & IH)]; [exists 0%nat; reflexivity|].
  cbn [Virtio.spec_enumeration].
  destruct (0 =? _); [exists 1%nat; reflexivity|].
  destruct (pci_is_msix dev); cbn [negb orb].
  - destruct (host_takes_vector dev n); [|exists 1%nat; reflexivity].
    destruct (n + 1 >=? 2 * ncpus); [exists 1%nat; reflexivity|].
    exists (S k). cbn. unfold queue_selects in IH. now rewrite IH.
  - destruct (n + 1 >=? 2 * ncpus); [exists 1%nat; reflexivity|].
    exists (S k). cbn. unfold queue_selects in IH. now rewrite IH.
Qed.

End Enumeration.

(** C8 (as the code has it). Started with [_num_queues] queues,
    [probe_virt_queues] returns, and its accesses to the device are those of
    the enumeration of the specification over the indices [_num_queues],
    [_num_queues + 1], ... up to the transport cap, in that order: each
    index is selected and its size read; a size of 0 ends the enumeration;
    otherwise a ring of that size is allocated, with MSI-X the vector of the
    same number is written for the queue, and the page frame number of the
    ring is written unless the host did not take the vector, which ends the
    enumeration.  The indices selected are an initial segment of the
    indices, and no more than [2 * ncpus] queues are counted (one when
    [2 * ncpus] is less); the features of the host play no part. *)
Theorem probe_virt_queues_enumeration
    {cookie : Type} (hh : Virtio.virtio_hh) (ncpus : Z) (alloc_paddr : Z -> Z)
    (fuel : nat) (s : Virtio.virtio_driver cookie) :
  Virtio._bar1 s = true ->
  (0 <= Virtio._num_queues s)%Z ->
  (Virtio.max_virtqueues_nr hh <= 0xffff)%Z ->
  (Z.to_nat (Virtio.max_virtqueues_nr hh) < fuel)%nat ->
  let indices := Virtio.queue_indices hh (Virtio._num_queues s) in
  let ios := Virtio.spec_enumeration hh ncpus alloc_paddr (Virtio._dev s) indices in
  exists s',
    Virtio.probe_virt_queues hh ncpus alloc_paddr fuel s = Virtio.Done tt s' /\
    Virtio.log s' = Virtio.log s ++ ios /\
    (exists k, Virtio.queue_selects ios = take k indices) /\
    (Virtio._num_queues s <= Virtio._num_queues s'
       <= Z.max (Virtio._num_queues s + 1) (2 * ncpus))%Z.
Proof.
  intros Hbar Hn Hmax Hfuel indices ios.
  destruct (probe_virt_queues_log hh ncpus alloc_paddr fuel s Hbar Hn Hmax
              ltac:(lia)) as (s' & P & L).
  exists s'. split; [exact P|]. split; [exact L|].
  split; [apply spec_enumeration_selects|].
  pose proof (probe_virt_queues_quiet hh ncpus alloc_paddr fuel s Hbar Hn
                ltac:(lia)) as Q.
  rewrite P in Q. lia.
Qed.

Lemma probe_virt_queues_enumeration_witness :
  let dev :=
    {| Virtio.pci_parse_ok := true; Virtio.pci_has_bar1 := true;
       Virtio.pci_revision_id := 0; Virtio.pci_device_id := 0x1000;
       Virtio.pci_is_msix := true; Virtio.host_features := 0;
       Virtio.host_queue_num := fun i => if (i <? 2)%Z then 256%Z else 0%Z;
       Virtio.host_takes_vector := fun _ => true |} in
  let alloc := fun i => (0x100000 + 0x10000 * i)%Z in
  let s := Virtio.set_bar1 true (@Virtio.fresh unit Virtio.legacy dev) in
  exists s',
    Virtio.probe_virt_queues Virtio.legacy 4 alloc 65 s = Virtio.Done tt s' /\
    Virtio.log s' =
      [Virtio.IoWrite 16 Virtio.VIRTIO_PCI_QUEUE_SEL 0;
       Virtio.IoRead 16 Virtio.VIRTIO_PCI_QUEUE_NUM 256;
       Virtio.IoNewVring 0 256;
       Virtio.IoWrite 16 Virtio.VIRTIO_MSI_QUEUE_VECTOR 0;
       Virtio.IoRead 16 Virtio.VIRTIO_MSI_QUEUE_VECTOR 0;
       Virtio.IoWrite 32 Virtio.VIRTIO_PCI_QUEUE_PFN 0x100;
       Virtio.IoWrite 16 Virtio.VIRTIO_PCI_QUEUE_SEL 1;
       Virtio.IoRead 16 Virtio.VIRTIO_PCI_QUEUE_NUM 256;
       Virtio.IoNewVring 1 256;
       Virtio.IoWrite 16 Virtio.VIRTIO_MSI_QUEUE_VECTOR 1;
       Virtio.IoRead 16 Virtio.VIRTIO_MSI_QUEUE_VECTOR 1;
       Virtio.IoWrite 32 Virtio.VIRTIO_PCI_QUEUE_PFN 0x110;
       Virtio.IoWrite 16 Virtio.VIRTIO_PCI_QUEUE_SEL 2;
       Virtio.IoRead 16 Virtio.VIRTIO_PCI_QUEUE_NUM 0]%Z.
Proof.
  intros dev alloc s.
  destruct (@probe_virt_queues_enumeration unit Virtio.legacy 4 alloc 65 s)
    as (s' & P & L & _).
  - reflexivity.
  - cbn. lia.
  - cbn. lia.
  - vm_compute. lia.
  - exists s'. split; [exact P|]. rewrite L. vm_compute. reflexivity.
Defined.

(** The enumeration does not go on to a control queue, and it has a third
    way to end.  On one CPU, a device with three queues of 256 entries and
    the control-queue feature: queues 0 and 1 are configured and index 2 is
    never selected.  On four CPUs, a device with two queues whose host does
    not take the vector for queue 1: the ring of queue 1 is allocated and
    its vector written, but its page frame number is not, and the
    enumeration ends with one queue counted, although the size read was not
    0 and neither the cap nor [2 * ncpus] was reached. *)
Lemma probe_virt_queues_not_as_worded :
  let VIRTIO_NET_F_CTRL_VQ := 17%Z in
  let alloc := fun i => (0x100000 + 0x10000 * i)%Z in
  let dev1 :=
    {| Virtio.pci_parse_ok := true; Virtio.pci_has_bar1 := true;
       Virtio.pci_revision_id := 0; Virtio.pci_device_id := 0x1000;
       Virtio.pci_is_msix := true;
       Virtio.host_features := Z.shiftl 1 VIRTIO_NET_F_CTRL_VQ;
       Virtio.host_queue_num := fun i => if (i <? 3)%Z then 256%Z else 0%Z;
       Virtio.host_takes_vector := fun _ => true |} in
  let dev2 :=
    {| Virtio.pci_parse_ok := true; Virtio.pci_has_bar1 := true;
       Virtio.pci_revision_id := 0; Virtio.pci_device_id := 0x1000;
       Virtio.pci_is_msix := true; Virtio.host_features := 0;
       Virtio.host_queue_num := fun i => if (i <? 2)%Z then 256%Z else 0%Z;
       Virtio.host_takes_vector := fun i => (i =? 0)%Z |} in
  exists s1 s2 : Virtio.virtio_driver unit,
    Virtio.probe_virt_queues Virtio.legacy 1 alloc 65
      (Virtio.set_bar1 true (Virtio.fresh Virtio.legacy dev1)) = Virtio.Done tt s1 /\
    Virtio._num_queues s1 = 2%Z /\
    Virtio.queue_selects (Virtio.log s1) = [0; 1]%Z /\
    Virtio.get_virt_queue 2 s1 = None /\
    Virtio.host_queue_num dev1 2 = 256%Z /\
    Virtio.probe_virt_queues Virtio.legacy 4 alloc 65
      (Virtio.set_bar1 true (Virtio.fresh Virtio.legacy dev2)) = Virtio.Done tt s2 /\
    Virtio._num_queues s2 = 1%Z /\
    Virtio.log s2 =
      [Virtio.IoWrite 16 Virtio.VIRTIO_PCI_QUEUE_SEL 0;
       Virtio.IoRead 16 Virtio.VIRTIO_PCI_QUEUE_NUM 256;
       Virtio.IoNewVring 0 256;
       Virtio.IoWrite 16 Virtio.VIRTIO_MSI_QUEUE_VECTOR 0;
       Virtio.IoRead 16 Virtio.VIRTIO_MSI_QUEUE_VECTOR 0;
       Virtio.IoWrite 32 Virtio.VIRTIO_PCI_QUEUE_PFN 0x100;
       Virtio.IoWrite 16 Virtio.VIRTIO_PCI_QUEUE_SEL 1;
       Virtio.IoRead 16 Virtio.VIRTIO_PCI_QUEUE_NUM 256;
       Virtio.IoNewVring 1 256;
       Virtio.IoWrite 16 Virtio.VIRTIO_MSI_QUEUE_VECTOR 1;
       Virtio.IoRead 16 Virtio.VIRTIO_MSI_QUEUE_VECTOR 0xffff]%Z.
Proof.
  cbv zeta. eexists _, _.
  split; [vm_compute; reflexivity|].
  do 4 (split; [reflexivity|]).
  split; [vm_compute; reflexivity|].
  split; reflexivity.
Qed.

(** ** The network device *)

Section RxCsum.
Import Net.
Local Open Scope Z_scope.
Variable hh : bsd_hh.

Lemma bad_rx_csum_rejects m hdr :
  offsetof_uh_sum hh <> offsetof_th_sum hh ->
  let csum_len := csum_start hdr + csum_offset hdr in
  fst (bad_rx_csum hh m hdr) = true <->
  csum_len < sizeof_ether_header hh + sizeof_ip hh \/
  mh_len m < csum_len \/
  eth_type_of hh m <> ETHERTYPE_IP hh \/
  (csum_offset hdr <> offsetof_uh_sum hh /\ csum_offset hdr <> offsetof_th_sum hh) \/
  (csum_offset hdr = offsetof_uh_sum hh /\
   mh_len m < csum_start hdr + sizeof_udphdr hh).
Proof.
  intros Hne csum_len. unfold bad_rx_csum. fold csum_len.
  destruct (Z.ltb_spec csum_len (sizeof_ether_header hh + sizeof_ip hh));
    [cbn; tauto|].
  destruct (Z.ltb_spec (mh_len m) csum_len); [cbn; tauto|].
  destruct (Z.eqb_spec (eth_type_of hh m) (ETHERTYPE_IP hh)); cbn [negb];
    [|cbn; tauto].
  destruct (Z.eqb_spec (csum_offset hdr) (offsetof_uh_sum hh)).
  - destruct (Z.ltb_spec (mh_len m) (csum_start hdr + sizeof_udphdr hh));
      [cbn; tauto|].
    destruct (_ =? 0); cbn; split; try discriminate; intros ?; exfalso; lia.
  - destruct (Z.eqb_spec (csum_offset hdr) (offsetof_th_sum hh)); cbn.
    + split; try discriminate; intros ?; exfalso; lia.
    + tauto.
Qed.

Lemma bad_rx_csum_packet m hdr :
  offsetof_uh_sum hh <> offsetof_th_sum hh ->
  snd (bad_rx_csum hh m hdr) =
  if fst (bad_rx_csum hh m hdr) then m
  else if (csum_offset hdr =? offsetof_uh_sum hh)
          && (u16_at m (csum_start hdr + offsetof_uh_sum hh) =? 0)
  then m
  else csum_valid hh m.
Proof.
  intros Hne. unfold bad_rx_csum.
  destruct (_ <? _); [reflexivity|].
  destruct (_ <? _); [reflexivity|].
  destruct (negb _); [reflexivity|].
  destruct (Z.eqb_spec (csum_offset hdr) (offsetof_uh_sum hh)); cbn [andb].
  - destruct (_ <? _); [reflexivity|]. destruct (_ =? 0); reflexivity.
  - destruct (csum_offset hdr =? offsetof_th_sum hh); reflexivity.
Qed.

End RxCsum.

(** C6 (as the code has it). [bad_rx_csum] rejects exactly when
    [csum_start + csum_offset] is shorter than the ethernet plus IP
    headers, or the first fragment is shorter than [csum_start +
    csum_offset], or the ethertype (behind a VLAN tag) is not IPv4, or
    [csum_offset] is neither the UDP nor the TCP checksum offset, or it is
    the UDP one and the first fragment ends before the UDP header does.  A
    rejected packet is left as it was.  An accepted packet is left as it
    was when [csum_offset] is the UDP one and the UDP checksum is zero; in
    every other accepted case [CSUM_DATA_VALID | CSUM_PSEUDO_HDR] is or-ed
    into its checksum flags and its [csum_data] becomes [0xFFFF]. *)
Theorem bad_rx_csum_decision (hh : Net.bsd_hh) (m : Net.mbuf) (hdr : Net.net_hdr) :
  Net.offsetof_uh_sum hh <> Net.offsetof_th_sum hh ->
  let csum_len := (Net.csum_start hdr + Net.csum_offset hdr)%Z in
  let bad := fst (Net.bad_rx_csum hh m hdr) in
  let m' := snd (Net.bad_rx_csum hh m hdr) in
  (bad = true <->
     (csum_len < Net.sizeof_ether_header hh + Net.sizeof_ip hh)%Z \/
     (Net.mh_len m < csum_len)%Z \/
     Net.eth_type_of hh m <> Net.ETHERTYPE_IP hh \/
     (Net.csum_offset hdr <> Net.offsetof_uh_sum hh /\
      Net.csum_offset hdr <> Net.offsetof_th_sum hh) \/
     (Net.csum_offset hdr = Net.offsetof_uh_sum hh /\
      (Net.mh_len m < Net.csum_start hdr + Net.sizeof_udphdr hh)%Z)) /\
  (bad = true -> m' = m) /\
  (bad = false ->
     Net.csum_offset hdr = Net.offsetof_uh_sum hh ->
     Net.u16_at m (Net.csum_start hdr + Net.offsetof_uh_sum hh) = 0%Z ->
     m' = m) /\
  (bad = false ->
     Net.csum_offset hdr = Net.offsetof_th_sum hh \/
     Net.u16_at m (Net.csum_start hdr + Net.offsetof_uh_sum hh) <> 0%Z ->
     Net.csum_flags m' =
       Z.lor (Net.csum_flags m)
         (Z.lor (Net.CSUM_DATA_VALID hh) (Net.CSUM_PSEUDO_HDR hh)) /\
     Net.csum_data m' = 0xFFFF%Z /\
     Net.mh_len m' = Net.mh_len m /\ Net.mh_data m' = Net.mh_data m).
Proof.
  intros Hne csum_len bad m'. split; [now apply bad_rx_csum_rejects|].
  pose proof (bad_rx_csum_packet hh m hdr Hne) as P. fold bad m' in P.
  split_and!.
  - intros Hb. now rewrite P, Hb.
  - intros Hb Hu Hz. rewrite P, Hb, Hu, Hz, Z.eqb_refl. reflexivity.
  - intros Hb Hc. rewrite P, Hb.
    assert ((Net.csum_offset hdr =? Net.offsetof_uh_sum hh)%Z
            && (Net.u16_at m (Net.csum_start hdr + Net.offsetof_uh_sum hh) =? 0)%Z
            = false) as ->.
    { apply andb_false_iff. destruct Hc as [Hc|Hc].
      - left. apply Z.eqb_neq. congruence.
      - right. now apply Z.eqb_neq. }
    repeat split.
Qed.

Lemma bad_rx_csum_decision_witness :
  let frame := replicate 12 0%Z ++ [0x08; 0x00]%Z ++ replicate 86 0%Z in
  let m := {| Net.mh_len := 100; Net.mh_data := frame; Net.mh_paddr := 0;
              Net.csum_flags := 0; Net.csum_data := 0 |} in
  let hdr := {| Net.flags := 1; Net.gso_type := 0; Net.hdr_len := 0;
                Net.gso_size := 0; Net.csum_start := 34;
                Net.csum_offset := 16 |} in
  fst (Net.bad_rx_csum Net.bsd m hdr) = false /\
  Net.csum_flags (snd (Net.bad_rx_csum Net.bsd m hdr)) = 0x0C00%Z /\
  Net.csum_data (snd (Net.bad_rx_csum Net.bsd m hdr)) = 0xFFFF%Z.
Proof.
  intros frame m hdr.
  destruct (bad_rx_csum_decision Net.bsd m hdr) as (_ & _ & _ & H).
  - discriminate.
  - split; [reflexivity|].
    destruct H as (Hf & Hd & _); [reflexivity | left; reflexivity |].
    split; [exact Hf | exact Hd].
Defined.

(** A UDP checksum offset in a first fragment that ends right after
    [csum_start + csum_offset]: none of the rejections the specification
    lists applies (whichever of the two lengths is read as the shorter
    one), yet the code rejects, because the fragment ends before the UDP
    header does. *)
Lemma bad_rx_csum_truncated_udp :
  let frame := replicate 12 0%Z ++ [0x08; 0x00]%Z ++ replicate 34 0%Z in
  let m := {| Net.mh_len := 40; Net.mh_data := frame; Net.mh_paddr := 0;
              Net.csum_flags := 0; Net.csum_data := 0 |} in
  let hdr := {| Net.flags := 1; Net.gso_type := 0; Net.hdr_len := 0;
                Net.gso_size := 0; Net.csum_start := 34;
                Net.csum_offset := 6 |} in
  fst (Net.bad_rx_csum Net.bsd m hdr) = true /\
  fst (Net.bad_rx_csum_worded Net.bsd m hdr) = false /\
  (Net.mh_len m <? Net.csum_start hdr + Net.csum_offset hdr)%Z = false /\
  (Net.csum_start hdr + Net.csum_offset hdr <? Net.mh_len m)%Z = false.
Proof. repeat split. Qed.

(** C9. [pick_txq] returns the CPU's index as it is.  On a device with one
    queue pair, a transmit issued on CPU 1 selects queue 1, not [1 mod 1 =
    0]: the index is not below the number of pairs (which the [printf]
    reports) and [tx_locked] indexes [_txq] outside the queues set up. *)
Theorem pick_txq_not_reduced :
  let t0 := {| Net.vqueue := Vring.new_vring 256 0;
               Net.stats := {| Net.tx_packets := 0; Net.tx_bytes := 0;
                               Net.tx_err := 0; Net.tx_drops := 0;
                               Net.tx_csum := 0; Net.tx_tso := 0 |} |} in
  let n := {| Net._num_queues := 2; Net._txq := [t0]; Net._hdr_size := 10;
              Net.kicked := [] |} in
  let cpu_id := 1%Z in
  Net.pick_txq cpu_id n = (1%Z, Some 1%Z) /\
  (cpu_id mod (Net._num_queues n / 2) = 0)%Z /\
  ~ (fst (Net.pick_txq cpu_id n) < Net._num_queues n / 2)%Z /\
  Net._txq n !! Z.to_nat (fst (Net.pick_txq cpu_id n)) = None /\
  forall tx_offload req_paddr fuel m_head,
    Net.if_transmit tx_offload req_paddr fuel cpu_id m_head n = Net.Undefined.
Proof.
  intros t0 n cpu_id. split_and!; try reflexivity.
  intros H. vm_compute in H. discriminate H.
Qed.

(** *** Transmit under a full ring *)

Section TxLocked.
Import Vring Net.
Local Open Scope Z_scope.
Variable tx_offload : list mbuf -> net_hdr -> option (list mbuf * net_hdr).
Variable req_paddr : Z.

(** Staging touches the staging vector only. *)
Lemma stage_frags_queue frags vq nb bytes :
  let '(vq', _, _) := stage_frags frags (vq, nb, bytes) in
  vq_free vq' = vq_free vq /\ vq_avail vq' = vq_avail vq /\
  vq_used vq' = vq_used vq.
Proof.
  revert vq nb bytes. induction frags as [|m frags IH]; intros vq nb bytes.
  - cbn. auto.
  - unfold stage_frags. cbn [fold_left].
    destruct (negb (mh_len m =? 0)).
    + specialize (IH (add_out_sg (mh_paddr m) (mh_len m) vq)
                     (u16 (nb + 1)) (u64 (bytes + mh_len m))).
      unfold stage_frags in IH.
      destruct (fold_left _ frags _) as [[vq' ?] ?]. exact IH.
    + apply IH.
Qed.

(** The loop of [tx_gc] empties the used ring and frees its descriptors. *)
Lemma tx_gc_loop_drains fuel vq :
  (length (vq_used vq) <= fuel)%nat ->
  exists vq',
    tx_gc_loop fuel vq = Ok vq' /\
    vq_used vq' = [] /\
    vq_free vq' = (vq_free vq + reclaimed vq)%nat /\
    vq_avail vq' = vq_avail vq /\ _sg_vec vq' = _sg_vec vq.
Proof.
  revert vq. induction fuel as [|fuel IH]; intros vq Hf.
  - destruct vq as [num pa fr sg av us intr k]. destruct us; [|cbn in Hf; lia].
    eexists. split; [reflexivity|]. cbn. unfold reclaimed. cbn. auto with lia.
  - destruct vq as [num pa fr sg av us intr k]. destruct us as [|e us].
    + eexists. split; [reflexivity|]. cbn. unfold reclaimed. cbn. auto with lia.
    + cbn in Hf.
      destruct (IH {| vq_num := num; vq_paddr := pa;
                      vq_free := fr + length (ch_sg (ue_chain e));
                      _sg_vec := sg; vq_avail := av; vq_used := us;
                      vq_intr := intr; vq_kicks := k |})
        as (vq' & H1 & H2 & H3 & H4 & H5); [cbn; lia|].
      exists vq'. split; [exact H1|]. split_and!; auto.
      rewrite H3. unfold reclaimed. cbn. lia.
Qed.

Lemma tx_gc_drains fuel vq :
  (length (vq_used vq) <= fuel)%nat ->
  exists vq',
    tx_gc fuel vq = Ok vq' /\
    vq_used vq' = [] /\
    vq_free vq' = (vq_free vq + reclaimed vq)%nat /\
    vq_avail vq' = vq_avail vq /\ _sg_vec vq' = _sg_vec vq.
Proof.
  intros Hf. destruct (tx_gc_loop_drains fuel vq Hf) as (vq' & H1 & H2 & H3 & H4 & H5).
  unfold tx_gc. rewrite H1. eexists. split; [reflexivity|].
  assert (R : reclaimed vq' = 0%nat) by (unfold reclaimed; now rewrite H2).
  unfold get_buf_gc. cbn [snd set_used set_free vq_used vq_free vq_avail _sg_vec].
  rewrite R. split_and!; auto. lia.
Qed.

End TxLocked.

(** C5. [tx_locked] when the available ring has no room for the staged
    scatter-gather.  If completions are pending, [tx_gc] reclaims all of
    them and the publish is attempted, once: it succeeds when the
    descriptors freed suffice, and the request then sits at the end of the
    available ring; it fails otherwise.  If no completion is pending nothing
    is reclaimed or published.  Every failure returns [ENOBUFS], adds
    exactly 1 to [tx_drops] and leaves the other counters and the available
    ring as they were. *)
Theorem tx_locked_ring_full
    (tx_offload : list Net.mbuf -> Net.net_hdr -> option (list Net.mbuf * Net.net_hdr))
    (req_paddr : Z) (fuel : nat) (idx : Z) (m_head : list Net.mbuf) (n : Net.net)
    (t : Net.txq) (m' : list Net.mbuf) (h : Net.net_hdr) :
  Net._txq n !! Z.to_nat idx = Some t ->
  Net.offload tx_offload m_head = Some (m', h) ->
  let vq := (Net.tx_stage req_paddr n (Net.vqueue t) m').1.1 in
  let nb := (Net.tx_stage req_paddr n (Net.vqueue t) m').1.2 in
  let req := {| Net.mhdr := {| Net.hdr := h; Net.num_buffers := nb |};
                Net.um := m' |} in
  Vring.avail_ring_has_room (length (Vring._sg_vec vq)) vq = false ->
  (length (Vring.vq_used (Net.vqueue t)) <= fuel)%nat ->
  (0 <= Net.tx_drops (Net.stats t) < 2 ^ 64 - 1)%Z ->
  exists rc n' t',
    Net.tx_locked tx_offload req_paddr fuel idx m_head n = Net.Ok (rc, n') /\
    Net._txq n' !! Z.to_nat idx = Some t' /\
    (rc = None \/ rc = Some Net.ENOBUFS) /\
    (rc = Some Net.ENOBUFS ->
       Net.tx_drops (Net.stats t') = (Net.tx_drops (Net.stats t) + 1)%Z /\
       Net.tx_packets (Net.stats t') = Net.tx_packets (Net.stats t) /\
       Net.tx_bytes (Net.stats t') = Net.tx_bytes (Net.stats t) /\
       Net.tx_err (Net.stats t') = Net.tx_err (Net.stats t) /\
       Vring.vq_avail (Net.vqueue t') = Vring.vq_avail (Net.vqueue t)) /\
    (rc = None ->
       Net.tx_drops (Net.stats t') = Net.tx_drops (Net.stats t) /\
       Vring.vq_avail (Net.vqueue t') =
         Vring.vq_avail (Net.vqueue t) ++
         [{| Vring.ch_cookie := req; Vring.ch_sg := Vring._sg_vec vq |}]) /\
    (if Vring.used_ring_not_empty (Net.vqueue t) then
       Vring.vq_used (Net.vqueue t') = [] /\
       (rc = None <->
        (length (Vring._sg_vec vq) <=
         Vring.vq_free (Net.vqueue t) + Vring.reclaimed (Net.vqueue t))%nat)
     else
       rc = Some Net.ENOBUFS /\
       Vring.vq_used (Net.vqueue t') = [] /\
       Vring.vq_free (Net.vqueue t') = Vring.vq_free (Net.vqueue t)).
Proof.
  intros Ht Hoff vq nb req Hroom Hfuel Hdrops.
  assert (Hidx : (Z.to_nat idx < length (Net._txq n))%nat)
    by (eapply lookup_lt_Some; eauto).
  assert (Hins : forall t', Net._txq (Net.set_txq (Z.to_nat idx) t' n)
                            !! Z.to_nat idx = Some t')
    by (intros t'; cbn; now apply list_lookup_insert_eq).
  assert (Hu64 : Net.u64 (Net.tx_drops (Net.stats t) + 1)
                 = (Net.tx_drops (Net.stats t) + 1)%Z)
    by (apply Z.mod_small; lia).
  unfold Net.tx_locked. rewrite Ht.
  destruct m_head as [|m0 rest]; [discriminate|]. rewrite Hoff.
  pose proof (stage_frags_queue m'
    (Vring.add_out_sg req_paddr (Net._hdr_size n) (Vring.init_sg (Net.vqueue t)))
    0%Z 0%Z) as Hst.
  subst req nb. revert Hroom. subst vq. unfold Net.tx_stage in *.
  destruct (Net.stage_frags m' _) as [[vq nb] bytes]. cbn [fst snd].
  destruct Hst as (Sf & Sa & Su). cbn in Sf, Sa, Su.
  intros Hroom. unfold Net.tx_room. rewrite Hroom. cbn [negb].
  assert (Hne : Vring.used_ring_not_empty vq
                = Vring.used_ring_not_empty (Net.vqueue t))
    by (unfold Vring.used_ring_not_empty; now rewrite Su).
  rewrite Hne.
  destruct (Vring.used_ring_not_empty (Net.vqueue t)) eqn:Hpend.
  - destruct (tx_gc_drains fuel vq) as (gc & G1 & G2 & G3 & G4 & G5);
      [rewrite Su; exact Hfuel|].
    rewrite G1. unfold Vring.add_buf. rewrite G5, G3.
    assert (Vring.reclaimed vq = Vring.reclaimed (Net.vqueue t)) as ->
      by (unfold Vring.reclaimed; now rewrite Su).
    rewrite Sf.
    destruct (Nat.leb_spec (length (Vring._sg_vec vq))
                (Vring.vq_free (Net.vqueue t) + Vring.reclaimed (Net.vqueue t)));
      cbn [negb]; unfold Net.finish; eexists _, _, _;
      (split; [reflexivity|]); (split; [apply Hins|]);
      cbn [Net.vqueue Net.stats Net.account Net.tx_drops Net.tx_packets
           Net.tx_bytes Net.tx_err Vring.vq_avail Vring.vq_used Vring.set_sg
           Vring.set_avail Vring.set_free].
    + split_and!; auto; try discriminate.
      * intros _. rewrite G4, Sa. split; reflexivity.
      * tauto.
    + split_and!; auto; try discriminate.
      * intros _. rewrite Hu64, G4, Sa. repeat split.
      * split; [discriminate | lia].
  - unfold Net.finish; eexists _, _, _.
    (split; [reflexivity|]); (split; [apply Hins|]).
    cbn [Net.vqueue Net.stats Net.account Net.tx_drops Net.tx_packets
         Net.tx_bytes Net.tx_err].
    split_and!; auto; try discriminate;
      try (intros _; rewrite Hu64, Sa; repeat split).
    rewrite Su. unfold Vring.used_ring_not_empty in Hpend.
    destruct (Vring.vq_used (Net.vqueue t)); [reflexivity|discriminate].
Qed.

Lemma tx_locked_ring_full_witness :
  let sg := {| Vring.sg_dir_of := Vring.SgOut; Vring.sg_paddr := 0;
               Vring.sg_len := 10 |} in
  let done := {| Net.mhdr := Net.zero_hdr; Net.um := [] |} in
  let vq := {| Vring.vq_num := 2; Vring.vq_paddr := 0; Vring.vq_free := 0;
               Vring._sg_vec := []; Vring.vq_avail := [];
               Vring.vq_used :=
                 [{| Vring.ue_chain := {| Vring.ch_cookie := done;
                                          Vring.ch_sg := [sg; sg] |};
                     Vring.ue_len := 0 |}];
               Vring.vq_intr := false; Vring.vq_kicks := 1 |} in
  let t := {| Net.vqueue := vq;
              Net.stats := {| Net.tx_packets := 1; Net.tx_bytes := 60;
                              Net.tx_err := 0; Net.tx_drops := 0;
                              Net.tx_csum := 0; Net.tx_tso := 0 |} |} in
  let n := {| Net._num_queues := 2; Net._txq := [t]; Net._hdr_size := 10;
              Net.kicked := [1%Z] |} in
  let m := {| Net.mh_len := 60; Net.mh_data := replicate 60 0%Z;
              Net.mh_paddr := 0x2000; Net.csum_flags := 0;
              Net.csum_data := 0 |} in
  exists n' t',
    Net.tx_locked (fun _ _ => None) 0x1000 1 0 [m] n = Net.Ok (None, n') /\
    Net._txq n' !! 0%nat = Some t' /\
    Vring.vq_used (Net.vqueue t') = [] /\
    Net.tx_drops (Net.stats t') = 0%Z.
Proof.
  intros sg done vq t n m.
  destruct (tx_locked_ring_full (fun _ _ => None) 0x1000 1 0 [m] n t [m]
              (Net.hdr Net.zero_hdr))
    as (rc & n' & t' & H1 & H2 & _ & _ & H5 & H6); try reflexivity.
  - unfold t. cbn. lia.
  - unfold t, vq in H6. cbn in H6. destruct H6 as [H6 H7].
    assert (rc = None) as -> by (apply H7; lia).
    exists n', t'. split; [exact H1|]. split; [exact H2|].
    split; [exact H6|]. now destruct H5.
Defined.

(** The backpressure scenario of the specification on a ring of four
    descriptors, each packet taking two: the third enqueue with the host
    stalled returns [ENOBUFS] and counts one drop; once the host has
    completed a chain the next enqueue reclaims it and succeeds. *)
Example tx_backpressure :
  let t0 := {| Net.vqueue := Vring.new_vring 4 0;
               Net.stats := {| Net.tx_packets := 0; Net.tx_bytes := 0;
                               Net.tx_err := 0; Net.tx_drops := 0;
                               Net.tx_csum := 0; Net.tx_tso := 0 |} |} in
  let n0 := {| Net._num_queues := 2; Net._txq := [t0]; Net._hdr_size := 10;
               Net.kicked := [] |} in
  let m := {| Net.mh_len := 60; Net.mh_data := replicate 60 0%Z;
              Net.mh_paddr := 0x2000; Net.csum_flags := 0;
              Net.csum_data := 0 |} in
  let transmit := Net.if_transmit (fun _ _ => None) 0x1000 4 0 [m] in
  let host_completes (n : Net.net) :=
    match Net._txq n !! 0%nat with
    | Some t =>
        Net.set_txq 0 {| Net.vqueue := Vring.host_complete 0 (Net.vqueue t);
                         Net.stats := Net.stats t |} n
    | None => n
    end in
  exists n1 n2 n3 n4,
    transmit n0 = Net.Ok (None, n1) /\
    transmit n1 = Net.Ok (None, n2) /\
    transmit n2 = Net.Ok (Some Net.ENOBUFS, n3) /\
    (Net.tx_drops ∘ Net.stats <$> Net._txq n3 !! 0%nat) = Some 1%Z /\
    transmit (host_completes n3) = Net.Ok (None, n4) /\
    (Net.tx_packets ∘ Net.stats <$> Net._txq n4 !! 0%nat) = Some 3%Z /\
    (Net.tx_drops ∘ Net.stats <$> Net._txq n4 !! 0%nat) = Some 1%Z /\
    Net.kicked n4 = [1; 1; 1]%Z.
Proof.
  cbv zeta. eexists _, _, _, _.
  split; [vm_compute; reflexivity|].
  split; [vm_compute; reflexivity|].
  split; [vm_compute; reflexivity|].
  split; [reflexivity|].
  split; [vm_compute; reflexivity|].
  repeat split.
Qed.

(* ===================================================================== *)
(** * Part III: further properties of the code                            *)
(* ===================================================================== *)

(** ** The transport core: queues *)

Section ProbeRegisters.
Import Virtio VirtioExt.
Local Open Scope Z_scope.
Context {cookie : Type}.
Variable hh : virtio_hh.
Variable ncpus : Z.
Variable alloc_paddr : Z -> Z.

Abbreviation driver := (virtio_driver cookie).
Abbreviation registered := (registered (cookie:=cookie) hh alloc_paddr).

Ltac probe_simpl :=
  cbn -[Z.pow Z.modulo Z.shiftr Z.to_nat probe_virt_queues Z.mul Z.add
        Z.geb Z.eqb].

(** One more queue, registered. *)
Lemma registered_step (s st : driver) v :
  registered s ->
  0 <= _num_queues s < 2 ^ 16 ->
  (Z.to_nat (_num_queues s) < length (_queues s))%nat ->
  host_queue_num (_dev s) (_num_queues s) mod 2 ^ 16 <> 0 ->
  _dev st = _dev s ->
  _num_queues st = _num_queues s + 1 ->
  _queues st =
    <[Z.to_nat (_num_queues s) :=
        Some (Vring.new_vring
                (Z.to_nat (host_queue_num (_dev s) (_num_queues s) mod 2 ^ 16))
                (alloc_paddr (_num_queues s)))]> (_queues s) ->
  h_pfn st =
    upd (h_pfn s) (_num_queues s)
      (Z.shiftr (alloc_paddr (_num_queues s)) (VIRTIO_PCI_QUEUE_ADDR_SHIFT hh)
       mod 2 ^ 32) ->
  (h_vector st = h_vector s /\ pci_is_msix (_dev s) = false \/
   h_vector st = upd (h_vector s) (_num_queues s) v /\ v = _num_queues s) ->
  registered st.
Proof.
  intros R Hn Hlen Hq Hd Hc Hqs Hp Hv idx Hidx. rewrite Hc in Hidx.
  rewrite Hd, Hqs, Hp.
  destruct (Z.eq_dec idx (_num_queues s)) as [->|Hne].
  - cbn zeta. split_and!.
    + exact Hq.
    + now apply list_lookup_insert_eq.
    + unfold upd. now rewrite Z.eqb_refl.
    + intros Hm. destruct Hv as [[_ Hf]|[-> ->]]; [congruence|].
      unfold upd. now rewrite Z.eqb_refl.
  - destruct (R idx ltac:(lia)) as (R1 & R2 & R3 & R4). cbn zeta. split_and!.
    + exact R1.
    + rewrite list_lookup_insert_ne by lia. exact R2.
    + unfold upd. now rewrite (proj2 (Z.eqb_neq _ _) Hne).
    + intros Hm. destruct Hv as [[-> _]|[-> _]]; [now apply R4|].
      unfold upd. rewrite (proj2 (Z.eqb_neq _ _) Hne). now apply R4.
Qed.

(** A queue set up but not counted leaves the counted ones as they were. *)
Lemma registered_frame (s st : driver) q v :
  registered s ->
  0 <= _num_queues s ->
  _dev st = _dev s ->
  _num_queues st = _num_queues s ->
  (_queues st = _queues s \/ _queues st = <[Z.to_nat (_num_queues s) := q]> (_queues s)) ->
  h_pfn st = h_pfn s ->
  (h_vector st = h_vector s \/ h_vector st = upd (h_vector s) (_num_queues s) v) ->
  registered st.
Proof.
  intros R Hn Hd Hc Hqs Hp Hv idx Hidx. rewrite Hc in Hidx.
  destruct (R idx Hidx) as (R1 & R2 & R3 & R4).
  rewrite Hd, Hp. cbn zeta. split_and!; auto.
  - destruct Hqs as [->| ->]; [exact R2|].
    rewrite list_lookup_insert_ne by lia. exact R2.
  - intros Hm. destruct Hv as [->| ->]; [now apply R4|].
    unfold upd. rewrite (proj2 (Z.eqb_neq idx (_num_queues s))) by lia.
    now apply R4.
Qed.

Lemma probe_virt_queues_registered fuel (s : driver) :
  _bar1 s = true ->
  0 <= _num_queues s ->
  max_virtqueues_nr hh <= 2 ^ 16 ->
  (Z.to_nat (max_virtqueues_nr hh) <= length (_queues s))%nat ->
  registered s ->
  match probe_virt_queues hh ncpus alloc_paddr fuel s with
  | Done _ s' => registered s'
  | _ => True
  end.
Proof.
  intros Hbar Hn Hmax Hlen R. revert s Hbar Hn Hlen R.
  induction fuel as [|fuel IH]; intros s Hbar Hn Hlen R; [exact I|].
  cbn [probe_virt_queues].
  unfold bind, get, modify, ret, virtio_conf_writew, virtio_conf_readw,
    virtio_conf_writel, Virtio.virtio_conf_write, Virtio.virtio_conf_read.
  destruct (_num_queues s >=? max_virtqueues_nr hh) eqn:Hcap; [exact R|].
  rewrite Z.geb_leb in Hcap. apply Z.leb_gt in Hcap.
  assert (Hm16 : _num_queues s mod 2 ^ 16 = _num_queues s)
    by (apply Z.mod_small; lia).
  assert (Hn1 : (_num_queues s + 1) mod 2 ^ 32 = _num_queues s + 1)
    by (apply Z.mod_small; lia).
  assert (Hidx : (Z.to_nat (_num_queues s) < length (_queues s))%nat) by lia.
  rewrite Hbar. probe_simpl. rewrite ?Hbar, ?Hm16.
  destruct (0 =? host_queue_num (_dev s) (_num_queues s) mod 2 ^ 16) eqn:Hq.
  { eapply registered_frame with (s := s) (v := 0) (q := None); eauto. }
  apply Z.eqb_neq in Hq.
  assert (Htail : forall st : driver,
            _bar1 st = true -> registered st ->
            _num_queues st = (_num_queues s + 1) mod 2 ^ 32 ->
            length (_queues st) = length (_queues s) ->
            match (if (_num_queues s + 1) mod 2 ^ 32 >=? 2 * ncpus
                   then fun s1 : driver => Done tt s1
                   else probe_virt_queues hh ncpus alloc_paddr fuel) st with
            | Done _ s' => registered s'
            | _ => True
            end).
  { intros st Hb Rst Hc Hl. destruct (_ >=? 2 * ncpus); [exact Rst|].
    apply IH; auto; lia. }
  probe_simpl.
  set (queue := Vring.new_vring _ _).
  destruct (pci_is_msix (_dev s)) eqn:Hmsix; probe_simpl.
  - set (v := if host_takes_vector (_dev s) (_num_queues s)
              then _num_queues s else 65535).
    assert (Hv : upd (h_vector s) (_num_queues s) v (_num_queues s) = v)
      by (unfold upd; now rewrite Z.eqb_refl).
    rewrite Hv.
    destruct (v mod 2 ^ 16 =? _num_queues s) eqn:Hb; cbn [negb].
    + apply Z.eqb_eq in Hb.
      assert (Hvn : v = _num_queues s).
      { rewrite <- Hb. symmetry. apply Z.mod_small.
        unfold v. destruct (host_takes_vector _ _); lia. }
      probe_simpl. apply Htail; try reflexivity.
      * eapply registered_step with (s := s) (v := v); eauto; try reflexivity; lia.
      * probe_simpl. now rewrite length_insert.
    + eapply registered_frame with (s := s) (v := v) (q := Some queue);
        eauto; reflexivity.
  - apply Htail; try reflexivity.
    + eapply registered_step with (s := s) (v := 0); eauto; try reflexivity; lia.
    + probe_simpl. now rewrite length_insert.
Qed.

End ProbeRegisters.

(** X1. The queues [probe_virt_queues] counts can be fetched: started on a
    driver with no queue yet, it leaves, for every index below
    [_num_queues], a ring of the size the host reported for that index in
    [get_virt_queue], the ring's page frame number in the host's register
    for that queue and, with MSI-X, the vector equal to the index; above
    [_num_queues], [get_virt_queue] answers null. *)
Theorem probe_then_get_virt_queue
    {cookie : Type} (hh : Virtio.virtio_hh) (ncpus : Z) (alloc_paddr : Z -> Z)
    (fuel : nat) (s s' : Virtio.virtio_driver cookie) :
  Virtio._bar1 s = true ->
  Virtio._num_queues s = 0%Z ->
  (Virtio.max_virtqueues_nr hh <= 2 ^ 16)%Z ->
  (Z.to_nat (Virtio.max_virtqueues_nr hh) <= length (Virtio._queues s))%nat ->
  Virtio.probe_virt_queues hh ncpus alloc_paddr fuel s = Virtio.Done tt s' ->
  forall idx : Z,
    ((0 <= idx < Virtio._num_queues s')%Z ->
       let qsize := (Virtio.host_queue_num (Virtio._dev s) idx mod 2 ^ 16)%Z in
       qsize <> 0%Z /\
       Virtio.get_virt_queue idx s'
         = Some (Vring.new_vring (Z.to_nat qsize) (alloc_paddr idx)) /\
       Virtio.h_pfn s' idx
         = (Z.shiftr (alloc_paddr idx) (Virtio.VIRTIO_PCI_QUEUE_ADDR_SHIFT hh)
            mod 2 ^ 32)%Z /\
       (Virtio.pci_is_msix (Virtio._dev s) = true -> Virtio.h_vector s' idx = idx)) /\
    ((Virtio._num_queues s' <= idx)%Z -> Virtio.get_virt_queue idx s' = None).
Proof.
  intros Hbar Hn Hmax Hlen Hp idx.
  pose proof (probe_virt_queues_registered hh ncpus alloc_paddr fuel s Hbar
                ltac:(lia) Hmax Hlen) as R.
  pose proof (probe_virt_queues_quiet hh ncpus alloc_paddr fuel s Hbar
                ltac:(lia) ltac:(lia)) as Q.
  rewrite Hp in R, Q. destruct Q as (_ & _ & Hd & _).
  split.
  - intros Hidx.
    assert (Rs : VirtioExt.registered hh alloc_paddr s)
      by (intros i Hi; rewrite Hn in Hi; lia).
    destruct (R Rs idx Hidx) as (R1 & R2 & R3 & R4).
    cbn zeta in R1, R2. rewrite Hd in R1, R2, R4. cbn zeta. split_and!; auto.
    unfold Virtio.get_virt_queue.
    replace (idx >=? Virtio._num_queues s')%Z with false
      by (symmetry; rewrite Z.geb_leb; apply Z.leb_gt; lia).
    now rewrite R2.
  - intros Hidx. unfold Virtio.get_virt_queue.
    replace (idx >=? Virtio._num_queues s')%Z with true
      by (symmetry; rewrite Z.geb_leb; apply Z.leb_le; lia).
    reflexivity.
Qed.

Lemma probe_then_get_virt_queue_witness :
  let dev :=
    {| Virtio.pci_parse_ok := true; Virtio.pci_has_bar1 := true;
       Virtio.pci_revision_id := 0; Virtio.pci_device_id := 0x1000;
       Virtio.pci_is_msix := true; Virtio.host_features := 0;
       Virtio.host_queue_num := fun i => if (i <? 2)%Z then 256%Z else 0%Z;
       Virtio.host_takes_vector := fun _ => true |} in
  let alloc := fun i => (0x100000 + 0x10000 * i)%Z in
  let s := Virtio.set_bar1 true (@Virtio.fresh unit Virtio.legacy dev) in
  exists s',
    Virtio.probe_virt_queues Virtio.legacy 4 alloc 65 s = Virtio.Done tt s' /\
    Virtio._num_queues s' = 2%Z /\
    Virtio.get_virt_queue 1 s' = Some (Vring.new_vring 256 0x110000) /\
    Virtio.h_pfn s' 1 = 0x110%Z.
Proof.
  cbv zeta. eexists. split; [vm_compute; reflexivity|].
  split; [reflexivity|].
  match goal with |- context [Virtio.get_virt_queue 1 ?s'] =>
    destruct (@probe_then_get_virt_queue unit Virtio.legacy 4
                (fun i => (0x100000 + 0x10000 * i)%Z) 65
                (Virtio.set_bar1 true (Virtio.fresh Virtio.legacy
                   {| Virtio.pci_parse_ok := true; Virtio.pci_has_bar1 := true;
                      Virtio.pci_revision_id := 0; Virtio.pci_device_id := 0x1000;
                      Virtio.pci_is_msix := true; Virtio.host_features := 0;
                      Virtio.host_queue_num :=
                        fun i => if (i <? 2)%Z then 256%Z else 0%Z;
                      Virtio.host_takes_vector := fun _ => true |}))
                s' eq_refl eq_refl ltac:(vm_compute; discriminate)
                ltac:(vm_compute; lia) ltac:(vm_compute; reflexivity) 1%Z)
      as [H _]
  end.
  destruct H as (_ & H2 & H3 & _); [vm_compute; split; [discriminate|reflexivity]|].
  split; [exact H2 | exact H3].
Defined.

(** ** The transport core: teardown *)

Section Teardown.
Import Virtio VirtioExt.
Local Open Scope Z_scope.
Context {cookie : Type}.
Variable hh : virtio_hh.

Abbreviation driver := (virtio_driver cookie).

Lemma free_queues_loop (l : list nat) (s : driver) :
  let s' :=
    fold_left
      (fun s i =>
         match mjoin (_queues s !! i) with
         | Some _ => set_queues (<[i := None]> (_queues s)) s
         | None => s
         end) l s in
  _num_queues s' = _num_queues s /\ _bar1 s' = _bar1 s /\
  h_status s' = h_status s /\ log s' = log s /\
  length (_queues s') = length (_queues s) /\
  forall i, mjoin (_queues s' !! i)
            = if bool_decide (i ∈ l) then None else mjoin (_queues s !! i).
Proof.
  revert s. induction l as [|a l IH]; intros s; cbn zeta.
  - split_and!; auto.
  - cbn [fold_left].
    set (s1 := match mjoin (_queues s !! a) with
               | Some _ => set_queues (<[a := None]> (_queues s)) s
               | None => s
               end).
    destruct (IH s1) as (I1 & I2 & I3 & I4 & I5 & I6).
    assert (H1 : _num_queues s1 = _num_queues s /\ _bar1 s1 = _bar1 s /\
                 h_status s1 = h_status s /\ log s1 = log s /\
                 length (_queues s1) = length (_queues s) /\
                 forall i, mjoin (_queues s1 !! i)
                           = if bool_decide (i = a) then None
                             else mjoin (_queues s !! i)).
    { unfold s1. destruct (mjoin (_queues s !! a)) as [q|] eqn:E.
      - cbn. split_and!; auto; [apply length_insert|].
        intros i. case_bool_decide as Hi.
        + subst i. rewrite list_lookup_insert_eq; [reflexivity|].
          destruct (_queues s !! a) eqn:E'; [|discriminate].
          eapply lookup_lt_Some; eauto.
        + now rewrite list_lookup_insert_ne by congruence.
      - split_and!; auto. intros i. case_bool_decide as Hi; [now subst i|].
        reflexivity. }
    destruct H1 as (J1 & J2 & J3 & J4 & J5 & J6).
    split_and!; try congruence.
    intros i. rewrite I6, J6.
    destruct (decide (i = a)) as [->|Hia].
    + rewrite (bool_decide_eq_true_2 (a ∈ a :: l)) by apply list_elem_of_here.
      rewrite (bool_decide_eq_true_2 (a = a)) by reflexivity.
      now destruct (bool_decide (a ∈ l)).
    + rewrite (bool_decide_eq_false_2 (i = a)) by exact Hia.
      destruct (decide (i ∈ l)) as [Hil|Hil].
      * rewrite !bool_decide_eq_true_2; auto using list_elem_of_further.
      * rewrite !bool_decide_eq_false_2; auto.
        rewrite elem_of_cons. tauto.
Qed.

Lemma free_queues_spec (s : driver) :
  length (_queues s) = Z.to_nat (max_virtqueues_nr hh) ->
  let s' := free_queues hh s in
  _num_queues s' = _num_queues s /\ _bar1 s' = _bar1 s /\
  h_status s' = h_status s /\ log s' = log s /\
  (forall i, mjoin (_queues s' !! i) = None) /\
  (forall idx, get_virt_queue idx s' = None).
Proof.
  intros Hlen. cbn zeta.
  destruct (free_queues_loop (seq 0 (Z.to_nat (max_virtqueues_nr hh))) s)
    as (F1 & F2 & F3 & F4 & F5 & F6).
  fold (free_queues hh s) in F1, F2, F3, F4, F5, F6.
  assert (Hall : forall i, mjoin (_queues (free_queues hh s) !! i) = None).
  { intros i. rewrite F6. case_bool_decide as Hi; [reflexivity|].
    rewrite lookup_ge_None_2; [reflexivity|].
    rewrite elem_of_seq in Hi. lia. }
  split_and!; auto.
  intros idx. unfold get_virt_queue. destruct (_ >=? _); [reflexivity|apply Hall].
Qed.

End Teardown.

(** X2. The destructor writes 0 to the status register and then nulls
    every slot of [_queues]: afterwards [get_virt_queue] answers null for
    every index, although [_num_queues] keeps its count.  On a driver
    without BAR1 it faults on the status write, before any queue is
    freed. *)
Theorem dtor_resets_and_frees
    {cookie : Type} (hh : Virtio.virtio_hh) (s : Virtio.virtio_driver cookie) :
  length (Virtio._queues s) = Z.to_nat (Virtio.max_virtqueues_nr hh) ->
  if Virtio._bar1 s then
    exists s',
      VirtioExt.dtor hh s = Virtio.Done tt s' /\
      Virtio.h_status s' = 0%Z /\
      Virtio.status_writes (Virtio.log s')
        = Virtio.status_writes (Virtio.log s) ++ [0%Z] /\
      Virtio._num_queues s' = Virtio._num_queues s /\
      forall idx, Virtio.get_virt_queue idx s' = None
  else VirtioExt.dtor hh s = Virtio.Fault s.
Proof.
  intros Hlen. destruct (Virtio._bar1 s) eqn:Hbar.
  - unfold VirtioExt.dtor, Virtio.reset_host_side, Virtio.set_dev_status,
      Virtio.virtio_conf_writeb.
    rewrite bind_eq, virtio_conf_write_ok by exact Hbar.
    unfold Virtio.modify.
    match goal with |- context [VirtioExt.free_queues hh ?st] =>
      destruct (free_queues_spec hh st) as (F1 & F2 & F3 & F4 & _ & F6);
        [exact Hlen|] end.
    eexists. split; [reflexivity|]. split_and!.
    + rewrite F3. reflexivity.
    + rewrite F4. cbn [Virtio.log Virtio.host_write Virtio.logged].
      rewrite status_writes_app. reflexivity.
    + rewrite F1. reflexivity.
    + exact F6.
  - unfold VirtioExt.dtor, Virtio.reset_host_side, Virtio.set_dev_status,
      Virtio.virtio_conf_writeb, Virtio.virtio_conf_write, Virtio.bind.
    now rewrite Hbar.
Qed.

Lemma dtor_resets_and_frees_witness :
  let dev :=
    {| Virtio.pci_parse_ok := true; Virtio.pci_has_bar1 := true;
       Virtio.pci_revision_id := 0; Virtio.pci_device_id := 0x1005;
       Virtio.pci_is_msix := true; Virtio.host_features := 0;
       Virtio.host_queue_num := fun i => if (i =? 0)%Z then 256%Z else 0%Z;
       Virtio.host_takes_vector := fun _ => true |} in
  exists (q : option (Vring.vring unit)) s s',
    Virtio.rng_new Virtio.legacy 1 (fun _ => 0x10000%Z) 65 dev = Virtio.Done q s /\
    Virtio.get_virt_queue 0 s = Some (Vring.new_vring 256 0x10000) /\
    VirtioExt.dtor Virtio.legacy s = Virtio.Done tt s' /\
    Virtio.h_status s' = 0%Z /\
    Virtio.get_virt_queue 0 s' = None.
Proof.
  cbv zeta. eexists _, _. 
  match goal with |- exists s', ?A = Virtio.Done ?q ?s /\ _ =>
    assert (Hs : A = Virtio.Done q s) by (vm_compute; reflexivity)
  end.
  match type of Hs with _ = Virtio.Done _ ?s =>
    pose proof (@dtor_resets_and_frees unit Virtio.legacy s eq_refl) as D
  end.
  cbn [Virtio._bar1] in D. destruct D as (s' & D1 & D2 & _ & _ & D5).
  exists s'. split; [exact Hs|]. split; [reflexivity|].
  split; [exact D1|]. split; [exact D2 | apply D5].
Defined.

(** ** The transport core: feature and status bits *)

Section Bits.
Import Virtio VirtioExt.
Local Open Scope Z_scope.
Context {cookie : Type}.

Abbreviation driver := (virtio_driver cookie).

Lemma bit_mask_test v bit :
  0 <= bit < 32 ->
  negb (Z.land v (bit_mask bit) =? 0) = Z.testbit v bit.
Proof.
  intros Hb. unfold bit_mask. rewrite Z.shiftl_1_l.
  rewrite Z.mod_small by (split; [apply Z.pow_nonneg; lia | apply Z.pow_lt_mono_r; lia]).
  destruct (Z.testbit v bit) eqn:E.
  - apply negb_true_iff, Z.eqb_neq. intros H0.
    assert (T : Z.testbit (Z.land v (2 ^ bit)) bit = true)
      by (rewrite Z.land_spec, E, Z.pow2_bits_true; [reflexivity | lia]).
    rewrite H0, Z.bits_0 in T. discriminate.
  - apply negb_false_iff, Z.eqb_eq. apply Z.bits_inj'. intros n Hn.
    rewrite Z.land_spec, Z.bits_0, Z.pow2_bits_eqb by lia.
    destruct (Z.eqb_spec bit n) as [->|]; [now rewrite E | apply andb_false_r].
Qed.

Lemma get_virtio_config_bit_ok offset bit (s : driver) :
  _bar1 s = true -> 0 <= bit < 32 ->
  exists s',
    get_virtio_config_bit offset bit s
      = Done (Z.testbit (host_read offset s) bit) s' /\
    h_guest_features s' = h_guest_features s /\ _bar1 s' = true /\
    _dev s' = _dev s /\ h_status s' = h_status s /\
    h_queue_sel s' = h_queue_sel s /\ h_pfn s' = h_pfn s /\
    h_vector s' = h_vector s.
Proof.
  intros Hbar Hb. unfold get_virtio_config_bit, virtio_conf_readl.
  rewrite bind_eq, virtio_conf_read_ok by exact Hbar. unfold ret.
  rewrite bit_mask_test by exact Hb.
  rewrite Z.mod_pow2_bits_low by lia.
  eexists. split; [reflexivity|]. repeat split. exact Hbar.
Qed.

Lemma set_guest_feature_bit_ok bit on (s : driver) :
  _bar1 s = true -> 0 <= bit < 32 ->
  exists s',
    set_guest_feature_bit bit on s = Done tt s' /\
    _bar1 s' = true /\ _dev s' = _dev s /\ h_status s' = h_status s /\
    h_queue_sel s' = h_queue_sel s /\
    forall i, 0 <= i < 32 ->
      Z.testbit (h_guest_features s') i
      = if i =? bit then on else Z.testbit (h_guest_features s) i.
Proof.
  intros Hbar Hb. unfold set_guest_feature_bit, set_virtio_config_bit,
    virtio_conf_readl, virtio_conf_writel.
  rewrite bind_eq, virtio_conf_read_ok by exact Hbar.
  rewrite virtio_conf_write_ok by exact Hbar.
  eexists. split; [reflexivity|]. cbn [_bar1 _dev h_status h_queue_sel
    h_guest_features host_write host_read logged].
  split_and!; auto. intros i Hi.
  rewrite Z.mod_pow2_bits_low by lia.
  rewrite Z.lor_spec, Z.land_spec, Z.lnot_spec by lia.
  rewrite Z.mod_pow2_bits_low by lia.
  rewrite !Z.shiftl_spec by lia.
  destruct (Z.eqb_spec i bit) as [->|Hne].
  - rewrite Z.sub_diag. cbn [Z.testbit]. rewrite andb_false_r.
    now destruct on.
  - assert (Hz : forall b : bool, Z.testbit (Z.b2z b) (i - bit) = false).
    { intros b. destruct (Z.lt_ge_cases (i - bit) 0) as [Hlt|Hge].
      - now apply Z.testbit_neg_r.
      - destruct b; cbn [Z.b2z]; [|apply Z.bits_0].
        apply (Z.bits_above_log2 1); cbn; lia. }
    change 1 with (Z.b2z true) at 1. rewrite !Hz. cbn [negb].
    now rewrite andb_true_r, orb_false_r.
Qed.

End Bits.

(** X3. A guest feature bit that is set or cleared reads back as written,
    and the other 31 bits read back as before. *)
Theorem guest_feature_bit_round_trip
    {cookie : Type} (bit : Z) (on : bool) (s : Virtio.virtio_driver cookie) :
  Virtio._bar1 s = true ->
  (0 <= bit < 32)%Z ->
  exists s1 s2,
    VirtioExt.set_guest_feature_bit bit on s = Virtio.Done tt s1 /\
    VirtioExt.get_guest_feature_bit bit s1 = Virtio.Done on s2 /\
    forall bit', (0 <= bit' < 32)%Z -> bit' <> bit ->
      exists b s3 s4,
        VirtioExt.get_guest_feature_bit bit' s = Virtio.Done b s3 /\
        VirtioExt.get_guest_feature_bit bit' s1 = Virtio.Done b s4.
Proof.
  intros Hbar Hb.
  destruct (set_guest_feature_bit_ok bit on s Hbar Hb)
    as (s1 & H1 & Hb1 & _ & _ & _ & Hbits).
  destruct (get_virtio_config_bit_ok Virtio.VIRTIO_PCI_GUEST_FEATURES bit s1 Hb1 Hb)
    as (s2 & H2 & _).
  exists s1, s2. split; [exact H1|]. split.
  - unfold VirtioExt.get_guest_feature_bit. rewrite H2.
    cbn [Virtio.host_read]. rewrite (Hbits bit Hb), Z.eqb_refl. reflexivity.
  - intros bit' Hb' Hne.
    destruct (get_virtio_config_bit_ok Virtio.VIRTIO_PCI_GUEST_FEATURES bit' s Hbar Hb')
      as (s3 & H3 & _).
    destruct (get_virtio_config_bit_ok Virtio.VIRTIO_PCI_GUEST_FEATURES bit' s1 Hb1 Hb')
      as (s4 & H4 & _).
    eexists _, s3, s4. unfold VirtioExt.get_guest_feature_bit.
    rewrite H3, H4. split; [reflexivity|].
    cbn [Virtio.host_read]. rewrite (Hbits bit' Hb').
    now rewrite (proj2 (Z.eqb_neq _ _) Hne).
Qed.

Lemma guest_feature_bit_round_trip_witness :
  let dev :=
    {| Virtio.pci_parse_ok := true; Virtio.pci_has_bar1 := true;
       Virtio.pci_revision_id := 0; Virtio.pci_device_id := 0x1000;
       Virtio.pci_is_msix := true; Virtio.host_features := 0xffff;
       Virtio.host_queue_num := fun _ => 0%Z;
       Virtio.host_takes_vector := fun _ => true |} in
  let s := Virtio.set_bar1 true (@Virtio.fresh unit Virtio.legacy dev) in
  exists s1 s2,
    VirtioExt.set_guest_feature_bit 31 true s = Virtio.Done tt s1 /\
    VirtioExt.get_guest_feature_bit 31 s1 = Virtio.Done true s2 /\
    Virtio.h_guest_features s1 = 0x80000000%Z.
Proof.
  intros dev s.
  destruct (@guest_feature_bit_round_trip unit 31 true s eq_refl ltac:(lia))
    as (s1 & s2 & H1 & H2 & _).
  exists s1, s2. split; [exact H1|]. split; [exact H2|].
  vm_compute in H1. injection H1 as <-. reflexivity.
Defined.

(** X4. [setup_features] writes to the guest feature register exactly the
    bits that the device offers and the driver supports, so no feature is
    negotiated that either side lacks; it reads the host features once and
    writes the guest features once; and it turns a capability flag on when
    the corresponding ring feature is in the intersection, never off. *)
Theorem setup_features_intersection
    {cookie : Type} (INDIRECT_DESC EVENT_IDX drv_features : Z)
    (c : VirtioExt.caps) (s : Virtio.virtio_driver cookie) :
  Virtio._bar1 s = true ->
  (0 <= INDIRECT_DESC < 32)%Z ->
  (0 <= EVENT_IDX < 32)%Z ->
  let offered := Virtio.host_features (Virtio._dev s) in
  exists c' s' v,
    VirtioExt.setup_features INDIRECT_DESC EVENT_IDX drv_features c s
      = Virtio.Done c' s' /\
    Virtio.log s' =
      Virtio.log s ++
      [Virtio.IoRead 32 Virtio.VIRTIO_PCI_HOST_FEATURES (offered mod 2 ^ 32)%Z;
       Virtio.IoWrite 32 Virtio.VIRTIO_PCI_GUEST_FEATURES v] /\
    Virtio.h_guest_features s' = v /\
    (forall i, (0 <= i < 32)%Z ->
       Z.testbit v i = Z.testbit offered i && Z.testbit drv_features i) /\
    (forall i, (32 <= i)%Z -> Z.testbit v i = false) /\
    VirtioExt._cap_indirect_buf c' =
      VirtioExt._cap_indirect_buf c
      || (Z.testbit offered INDIRECT_DESC && Z.testbit drv_features INDIRECT_DESC) /\
    VirtioExt._cap_event_idx c' =
      VirtioExt._cap_event_idx c
      || (Z.testbit offered EVENT_IDX && Z.testbit drv_features EVENT_IDX).
Proof.
  intros Hbar HI HE offered.
  unfold VirtioExt.setup_features, VirtioExt.get_device_features,
    VirtioExt.set_guest_features, Virtio.virtio_conf_readl,
    Virtio.virtio_conf_writel.
  rewrite bind_eq, virtio_conf_read_ok by exact Hbar.
  rewrite bind_eq, virtio_conf_write_ok by exact Hbar.
  cbn [Virtio.host_read Virtio.ret]. fold offered.
  rewrite !bit_mask_test by assumption.
  rewrite !Z.land_spec, !Z.mod_pow2_bits_low by lia.
  eexists _, _, _. split; [reflexivity|].
  cbn [Virtio.log Virtio.host_write Virtio.logged Virtio.h_guest_features].
  split_and!.
  - now rewrite <- app_assoc.
  - reflexivity.
  - intros i Hi. rewrite Z.mod_pow2_bits_low, Z.land_spec by lia.
    now rewrite Z.mod_pow2_bits_low by lia.
  - intros i Hi. apply Z.mod_pow2_bits_high. lia.
  - destruct (Z.testbit offered INDIRECT_DESC && Z.testbit drv_features INDIRECT_DESC),
      (Z.testbit offered EVENT_IDX && Z.testbit drv_features EVENT_IDX);
      cbn; now rewrite ?orb_true_r, ?orb_false_r.
  - destruct (Z.testbit offered INDIRECT_DESC && Z.testbit drv_features INDIRECT_DESC),
      (Z.testbit offered EVENT_IDX && Z.testbit drv_features EVENT_IDX);
      cbn; now rewrite ?orb_true_r, ?orb_false_r.
Qed.

Lemma setup_features_intersection_witness :
  let dev :=
    {| Virtio.pci_parse_ok := true; Virtio.pci_has_bar1 := true;
       Virtio.pci_revision_id := 0; Virtio.pci_device_id := 0x1000;
       Virtio.pci_is_msix := true; Virtio.host_features := 0x30000023;
       Virtio.host_queue_num := fun _ => 0%Z;
       Virtio.host_takes_vector := fun _ => true |} in
  let s := Virtio.set_bar1 true (@Virtio.fresh unit Virtio.legacy dev) in
  let c := {| VirtioExt._cap_indirect_buf := false;
              VirtioExt._cap_event_idx := false |} in
  exists c' s',
    VirtioExt.setup_features 28 29 0x10000021 c s = Virtio.Done c' s' /\
    Virtio.h_guest_features s' = 0x10000021%Z /\
    VirtioExt._cap_indirect_buf c' = true /\
    VirtioExt._cap_event_idx c' = false.
Proof.
  intros dev s c.
  destruct (@setup_features_intersection unit 28 29 0x10000021 c s eq_refl
              ltac:(lia) ltac:(lia))
    as (c' & s' & v & H1 & _ & H3 & _ & _ & H6 & H7).
  exists c', s'. split; [exact H1|].
  split; [|split; [exact H6 | exact H7]].
  vm_compute in H1. injection H1 as <- <-. reflexivity.
Defined.

(** X5. [add_dev_status] sets exactly the requested bits of the status
    byte and [del_dev_status] clears exactly them; each leaves the other
    bits of the byte as they were. *)
Theorem add_del_dev_status_bits
    {cookie : Type} (status : Z) (s : Virtio.virtio_driver cookie) :
  Virtio._bar1 s = true ->
  exists s1 s2,
    Virtio.add_dev_status status s = Virtio.Done tt s1 /\
    Virtio.del_dev_status status s1 = Virtio.Done tt s2 /\
    (forall i, (0 <= i < 8)%Z ->
       Z.testbit (Virtio.h_status s1) i
         = Z.testbit (Virtio.h_status s) i || Z.testbit status i) /\
    (forall i, (0 <= i < 8)%Z ->
       Z.testbit (Virtio.h_status s2) i
         = Z.testbit (Virtio.h_status s) i && negb (Z.testbit status i)) /\
    (forall i, (8 <= i)%Z ->
       Z.testbit (Virtio.h_status s1) i = false /\
       Z.testbit (Virtio.h_status s2) i = false).
Proof.
  intros Hbar.
  destruct (add_dev_status_ok status s Hbar) as (s1 & H1 & _ & Hs1).
  assert (Hb1 : Virtio._bar1 s1 = true).
  { revert H1. unfold Virtio.add_dev_status, Virtio.get_dev_status,
      Virtio.set_dev_status, Virtio.virtio_conf_readb, Virtio.virtio_conf_writeb.
    rewrite bind_eq, virtio_conf_read_ok by exact Hbar.
    rewrite virtio_conf_write_ok by exact Hbar. intros [= <-]. exact Hbar. }
  assert (H2 : exists s2, Virtio.del_dev_status status s1 = Virtio.Done tt s2 /\
                 Virtio.h_status s2
                 = (Z.land (Virtio.h_status s1 mod 2 ^ 8) (Z.lnot status) mod 2 ^ 8)%Z).
  { unfold Virtio.del_dev_status, Virtio.get_dev_status,
      Virtio.set_dev_status, Virtio.virtio_conf_readb, Virtio.virtio_conf_writeb.
    rewrite bind_eq, virtio_conf_read_ok by exact Hb1.
    rewrite virtio_conf_write_ok by exact Hb1.
    eexists. split; reflexivity. }
  destruct H2 as (s2 & H2 & Hs2).
  exists s1, s2. split; [exact H1|]. split; [exact H2|].
  assert (B1 : forall i, (0 <= i < 8)%Z ->
             Z.testbit (Virtio.h_status s1) i
             = Z.testbit (Virtio.h_status s) i || Z.testbit status i).
  { intros i Hi. rewrite Hs1, Z.mod_pow2_bits_low, Z.lor_spec by lia.
    now rewrite Z.mod_pow2_bits_low by lia. }
  split_and!.
  - exact B1.
  - intros i Hi. rewrite Hs2, Z.mod_pow2_bits_low, Z.land_spec by lia.
    rewrite Z.mod_pow2_bits_low, Z.lnot_spec, (B1 i Hi) by lia.
    destruct (Z.testbit (Virtio.h_status s) i), (Z.testbit status i); reflexivity.
  - intros i Hi. rewrite Hs1, Hs2.
    split; apply Z.mod_pow2_bits_high; lia.
Qed.

Lemma add_del_dev_status_bits_witness :
  let dev :=
    {| Virtio.pci_parse_ok := true; Virtio.pci_has_bar1 := true;
       Virtio.pci_revision_id := 0; Virtio.pci_device_id := 0x1000;
       Virtio.pci_is_msix := true; Virtio.host_features := 0;
       Virtio.host_queue_num := fun _ => 0%Z;
       Virtio.host_takes_vector := fun _ => true |} in
  exists s s1 s2,
    Virtio.virtio_driver_new Virtio.legacy dev = @Virtio.Done unit unit tt s /\
    Virtio.add_dev_status 4 s = Virtio.Done tt s1 /\
    Virtio.del_dev_status 4 s1 = Virtio.Done tt s2 /\
    Virtio.h_status s = 3%Z /\ Virtio.h_status s1 = 7%Z /\
    Virtio.h_status s2 = 3%Z.
Proof.
  cbv zeta. eexists.
  match goal with |- exists s1 s2, ?A = Virtio.Done tt ?s /\ _ =>
    assert (Hs : A = Virtio.Done tt s) by (vm_compute; reflexivity);
    destruct (@add_del_dev_status_bits unit 4 s eq_refl)
      as (s1 & s2 & H1 & H2 & _)
  end.
  exists s1, s2. split; [exact Hs|]. split; [exact H1|]. split; [exact H2|].
  vm_compute in H1. injection H1 as <-.
  vm_compute in H2. injection H2 as <-.
  repeat split.
Defined.

(** ** The transport core: the configuration area *)

Section ConfArea.
Import VirtioExt.
Local Open Scope Z_scope.
Context {bar : Type}.
Variable readb : bar -> Z -> Z.
Variable writeb : bar -> Z -> Z -> bar.

(** The area behaves like memory. *)
Hypothesis read_written : forall b o v, readb (writeb b o v) o = v.
Hypothesis read_other : forall b o o' v, o' <> o -> readb (writeb b o v) o' = readb b o'.

Abbreviation virtio_conf_write := (virtio_conf_write writeb).
Abbreviation virtio_conf_read := (virtio_conf_read readb).

Lemma conf_write_bytes offset buf (n : nat) b o :
  0 <= offset -> offset + Z.of_nat n <= 2 ^ 32 ->
  readb (virtio_conf_write offset buf (Z.of_nat n) b) o =
  if bool_decide (offset <= o < offset + Z.of_nat n)
  then nth (Z.to_nat (o - offset)) buf 0
  else readb b o.
Proof using read_written read_other.
  intros Ho. unfold VirtioExt.virtio_conf_write. rewrite Nat2Z.id.
  induction n as [|n IH]; intros Hn.
  - cbn. rewrite bool_decide_eq_false_2 by lia. reflexivity.
  - rewrite seq_S, fold_left_app. cbn [fold_left Nat.add].
    assert (Ha : u32_add offset (Z.of_nat n) = offset + Z.of_nat n)
      by (apply Z.mod_small; lia).
    rewrite Ha.
    destruct (Z.eq_dec o (offset + Z.of_nat n)) as [->|Hne].
    + rewrite read_written, bool_decide_eq_true_2 by lia.
      f_equal. lia.
    + rewrite read_other, IH by (assumption || lia).
      destruct (bool_decide_reflect (offset <= o < offset + Z.of_nat n));
        [rewrite bool_decide_eq_true_2 by lia
        |rewrite bool_decide_eq_false_2 by lia]; reflexivity.
Qed.

Lemma map_nth_seq (buf : list Z) (k n : nat) :
  (k + n <= length buf)%nat ->
  map (fun i => nth i buf 0) (seq k n) = take n (drop k buf).
Proof.
  revert k. induction n as [|n IH]; intros k Hk; [reflexivity|].
  cbn [seq map]. rewrite IH by lia.
  destruct (lookup_lt_is_Some_2 buf k ltac:(lia)) as [x Hx].
  rewrite (drop_S _ _ _ Hx). cbn [take].
  now rewrite (nth_lookup_Some _ _ _ _ Hx).
Qed.

End ConfArea.

(** X6. On a configuration area that behaves like memory,
    [virtio_conf_write] followed by [virtio_conf_read] of the same range
    gives back the first [length] bytes of the buffer; the write leaves
    every byte outside [offset, offset + length) as it was; and a length
    that is zero or negative reads and writes nothing. *)
Theorem virtio_conf_write_read
    {bar : Type} (readb : bar -> Z -> Z) (writeb : bar -> Z -> Z -> bar)
    (offset : Z) (buf : list Z) (length : Z) (b : bar) :
  (forall b o v, readb (writeb b o v) o = v) ->
  (forall b o o' v, o' <> o -> readb (writeb b o v) o' = readb b o') ->
  (0 <= offset)%Z ->
  (offset + length <= 2 ^ 32)%Z ->
  (length <= Z.of_nat (List.length buf))%Z ->
  VirtioExt.virtio_conf_read readb offset length
    (VirtioExt.virtio_conf_write writeb offset buf length b)
    = take (Z.to_nat length) buf /\
  (forall o, ~ (offset <= o < offset + length)%Z ->
     readb (VirtioExt.virtio_conf_write writeb offset buf length b) o = readb b o) /\
  ((length <= 0)%Z ->
     VirtioExt.virtio_conf_write writeb offset buf length b = b /\
     VirtioExt.virtio_conf_read readb offset length b = []).
Proof.
  intros Hrw Hro Ho Hl Hb.
  destruct (Z.le_gt_cases length 0) as [Hneg|Hpos].
  - assert (Hz : Z.to_nat length = 0%nat) by lia.
    unfold VirtioExt.virtio_conf_read, VirtioExt.virtio_conf_write.
    rewrite Hz. cbn. repeat split; auto.
  - set (n := Z.to_nat length). assert (Hn : length = Z.of_nat n) by lia.
    clearbody n. subst length. split_and!.
    + unfold VirtioExt.virtio_conf_read at 1. rewrite Nat2Z.id.
      transitivity (take n (drop 0 buf)); [|now rewrite drop_0].
      rewrite <- map_nth_seq by lia.
      apply map_ext_in. intros i Hi. apply in_seq in Hi.
      assert (Ha : VirtioExt.u32_add offset (Z.of_nat i) = (offset + Z.of_nat i)%Z)
        by (apply Z.mod_small; lia).
      rewrite Ha, (conf_write_bytes readb writeb Hrw Hro) by lia.
      rewrite bool_decide_eq_true_2 by lia. f_equal. lia.
    + intros o Hout. rewrite (conf_write_bytes readb writeb Hrw Hro) by lia.
      rewrite bool_decide_eq_false_2 by lia. reflexivity.
    + lia.
Qed.

Lemma virtio_conf_write_read_witness :
  let readb := fun (b : Z -> Z) o => b o in
  let writeb := fun (b : Z -> Z) o v => fun o' => if (o' =? o)%Z then v else b o' in
  let mac := [0x52; 0x54; 0x00; 0x12; 0x34; 0x56]%Z in
  VirtioExt.virtio_conf_read readb 0x14 6
    (VirtioExt.virtio_conf_write writeb 0x14 mac 6 (fun _ => 0%Z)) = mac.
Proof.
  intros readb writeb mac.
  refine (proj1 (virtio_conf_write_read readb writeb 0x14 mac 6 (fun _ => 0%Z)
                   _ _ _ _ _)).
  - intros b o v. unfold readb, writeb. now rewrite Z.eqb_refl.
  - intros b o o' v Hne. unfold readb, writeb.
    now rewrite (proj2 (Z.eqb_neq _ _) Hne).
  - lia.
  - lia.
  - cbn. lia.
Defined.

(** X7. When the host does not take the MSI-X vector of the next queue,
    [probe_virt_queues] stops there: the ring it has just allocated stays
    in its slot of [_queues], but the queue is not counted, its page frame
    number is never written, and [get_virt_queue] answers null for it. *)
Theorem probe_virt_queues_vector_refused
    {cookie : Type} (hh : Virtio.virtio_hh) (ncpus : Z) (alloc_paddr : Z -> Z)
    (fuel : nat) (s : Virtio.virtio_driver cookie) :
  let n := Virtio._num_queues s in
  let qsize := (Virtio.host_queue_num (Virtio._dev s) n mod 2 ^ 16)%Z in
  Virtio._bar1 s = true ->
  (0 <= n < Virtio.max_virtqueues_nr hh)%Z ->
  (n < 0xffff)%Z ->
  qsize <> 0%Z ->
  Virtio.pci_is_msix (Virtio._dev s) = true ->
  Virtio.host_takes_vector (Virtio._dev s) n = false ->
  exists s',
    Virtio.probe_virt_queues hh ncpus alloc_paddr (S fuel) s = Virtio.Done tt s' /\
    Virtio._num_queues s' = n /\
    Virtio._queues s' =
      <[Z.to_nat n := Some (Vring.new_vring (Z.to_nat qsize) (alloc_paddr n))]>
        (Virtio._queues s) /\
    Virtio.get_virt_queue n s' = None /\
    Virtio.h_pfn s' = Virtio.h_pfn s /\
    Virtio.log s' =
      Virtio.log s ++
      [Virtio.IoWrite 16 Virtio.VIRTIO_PCI_QUEUE_SEL n;
       Virtio.IoRead 16 Virtio.VIRTIO_PCI_QUEUE_NUM qsize;
       Virtio.IoNewVring n qsize;
       Virtio.IoWrite 16 Virtio.VIRTIO_MSI_QUEUE_VECTOR n;
       Virtio.IoRead 16 Virtio.VIRTIO_MSI_QUEUE_VECTOR 0xffff].
Proof.
  intros n qsize Hbar Hn Hn16 Hq Hmsix Htakes. subst n qsize.
  assert (Hm16 : (Virtio._num_queues s mod 2 ^ 16 = Virtio._num_queues s)%Z)
    by (apply Z.mod_small; lia).
  cbn [Virtio.probe_virt_queues].
  unfold Virtio.bind, Virtio.get, Virtio.modify, Virtio.ret,
    Virtio.virtio_conf_writew, Virtio.virtio_conf_readw,
    Virtio.virtio_conf_writel, Virtio.virtio_conf_write, Virtio.virtio_conf_read.
  replace (Virtio._num_queues s >=? Virtio.max_virtqueues_nr hh)%Z with false
    by (symmetry; rewrite Z.geb_leb; apply Z.leb_gt; lia).
  rewrite Hbar.
  cbn -[Z.pow Z.modulo Z.shiftr Z.to_nat Virtio.probe_virt_queues Z.mul Z.add
        Z.geb Z.eqb].
  rewrite ?Hbar, ?Hm16.
  replace (0 =? Virtio.host_queue_num (Virtio._dev s) (Virtio._num_queues s)
                mod 2 ^ 16)%Z with false
    by (symmetry; apply Z.eqb_neq; congruence).
  cbn -[Z.pow Z.modulo Z.shiftr Z.to_nat Virtio.probe_virt_queues Z.mul Z.add
        Z.geb Z.eqb].
  rewrite Hmsix.
  cbn -[Z.pow Z.modulo Z.shiftr Z.to_nat Virtio.probe_virt_queues Z.mul Z.add
        Z.geb Z.eqb].
  rewrite Htakes.
  assert (Hv : Virtio.upd (Virtio.h_vector s) (Virtio._num_queues s) 65535
                 (Virtio._num_queues s) = 65535%Z)
    by (unfold Virtio.upd; now rewrite Z.eqb_refl).
  rewrite Hv. change (65535 mod 2 ^ 16)%Z with 65535%Z.
  replace (65535 =? Virtio._num_queues s)%Z with false
    by (symmetry; apply Z.eqb_neq; lia).
  cbn [negb]. eexists. split; [reflexivity|].
  cbn [Virtio._num_queues Virtio._queues Virtio.h_pfn Virtio.log Virtio.logged
       Virtio.set_queues].
  split_and!; try reflexivity.
  - unfold Virtio.get_virt_queue.
    cbn [Virtio._num_queues Virtio.logged Virtio.set_queues].
    now rewrite Z.geb_leb, Z.leb_refl.
  - now rewrite <- !app_assoc.
Qed.

Lemma probe_virt_queues_vector_refused_witness :
  let dev :=
    {| Virtio.pci_parse_ok := true; Virtio.pci_has_bar1 := true;
       Virtio.pci_revision_id := 0; Virtio.pci_device_id := 0x1000;
       Virtio.pci_is_msix := true; Virtio.host_features := 0;
       Virtio.host_queue_num := fun _ => 256%Z;
       Virtio.host_takes_vector := fun _ => false |} in
  let s := Virtio.set_bar1 true (@Virtio.fresh unit Virtio.legacy dev) in
  exists s',
    Virtio.probe_virt_queues Virtio.legacy 4 (fun _ => 0x10000%Z) 1 s
      = Virtio.Done tt s' /\
    Virtio._num_queues s' = 0%Z /\
    Virtio._queues s' !! 0%nat = Some (Some (Vring.new_vring 256 0x10000)) /\
    Virtio.get_virt_queue 0 s' = None.
Proof.
  intros dev s.
  destruct (@probe_virt_queues_vector_refused unit Virtio.legacy 4
              (fun _ => 0x10000%Z) 0 s)
    as (s' & H1 & H2 & H3 & H4 & _); try reflexivity.
  - cbn. lia.
  - discriminate.
  - exists s'. split; [exact H1|]. split; [exact H2|]. split; [|exact H4].
    rewrite H3. reflexivity.
Defined.

(** X8. With a BAR1, [probe_virt_queues] comes back: its loop ends within
    [max_virtqueues_nr - _num_queues + 1] rounds whatever sizes the host
    reports, without a fault.  It writes nothing to the status register,
    never lowers the queue count, and stops at the first count that reaches
    [2 * ncpus] (so it adds a single queue when the count starts there). *)
Theorem probe_virt_queues_terminates
    {cookie : Type} (hh : Virtio.virtio_hh) (ncpus : Z) (alloc_paddr : Z -> Z)
    (fuel : nat) (s : Virtio.virtio_driver cookie) :
  Virtio._bar1 s = true ->
  (0 <= Virtio._num_queues s)%Z ->
  (Virtio.max_virtqueues_nr hh < 2 ^ 32)%Z ->
  (Z.to_nat (Virtio.max_virtqueues_nr hh - Virtio._num_queues s) < fuel)%nat ->
  exists s',
    Virtio.probe_virt_queues hh ncpus alloc_paddr fuel s = Virtio.Done tt s' /\
    Virtio.h_status s' = Virtio.h_status s /\
    Virtio.status_writes (Virtio.log s') = Virtio.status_writes (Virtio.log s) /\
    (Virtio._num_queues s <= Virtio._num_queues s'
     <= Z.max (Virtio._num_queues s + 1) (2 * ncpus))%Z.
Proof.
  intros Hbar Hn Hmax Hfuel.
  pose proof (probe_virt_queues_quiet hh ncpus alloc_paddr fuel s Hbar Hn Hmax)
    as H.
  destruct (Virtio.probe_virt_queues hh ncpus alloc_paddr fuel s)
    as [[] s'| |]; [|contradiction|lia].
  destruct H as (Hst & _ & _ & Hlo & Hhi & ios & Hlog & Hio).
  exists s'. split_and!; [reflexivity|exact Hst| |exact Hlo|exact Hhi].
  rewrite Hlog, status_writes_app, (status_writes_queue_io _ Hio).
  apply app_nil_r.
Qed.

Lemma probe_virt_queues_terminates_witness :
  exists s',
    Virtio.probe_virt_queues Virtio.legacy 1 (fun i => (0x100000 * (i + 1))%Z) 65
      (Virtio.set_bar1 true (@Virtio.fresh unit Virtio.legacy
         {| Virtio.pci_parse_ok := true; Virtio.pci_has_bar1 := true;
            Virtio.pci_revision_id := 0; Virtio.pci_device_id := 0x1000;
            Virtio.pci_is_msix := false; Virtio.host_features := 0;
            Virtio.host_queue_num := fun _ => 128%Z;
            Virtio.host_takes_vector := fun _ => true |}))
      = Virtio.Done tt s' /\
    (Virtio._num_queues s' <= 2)%Z.
Proof.
  destruct (@probe_virt_queues_terminates unit Virtio.legacy 1
              (fun i => (0x100000 * (i + 1))%Z) 65
              (Virtio.set_bar1 true (Virtio.fresh Virtio.legacy
                 {| Virtio.pci_parse_ok := true; Virtio.pci_has_bar1 := true;
                    Virtio.pci_revision_id := 0; Virtio.pci_device_id := 0x1000;
                    Virtio.pci_is_msix := false; Virtio.host_features := 0;
                    Virtio.host_queue_num := fun _ => 128%Z;
                    Virtio.host_takes_vector := fun _ => true |}))
              eq_refl ltac:(vm_compute; discriminate) ltac:(vm_compute; reflexivity)
              ltac:(vm_compute; lia))
    as (s' & Hrun & _ & _ & _ & Hhi).
  exists s'. split; [exact Hrun|]. exact Hhi.
Defined.

(** ** The entropy device: consecutive reads *)

(** X10. Two reads compose.  When [get_random_bytes] returns twice in a row
    (no refill in between), the bytes of the first call followed by those of
    the second are the front of the pool in order, the pool is left as a
    single call asking for [size1 + size2] would leave it, the lengths add
    up to what that single call would return, and one producer was woken by
    each call. *)
Theorem get_random_bytes_twice
    (buf1 buf2 : list Rng.byte) (size1 size2 : Z) (r r1 r2 : Rng.rng)
    (len1 len2 : Z) (out1 out2 : list Rng.byte) :
  (0 <= size1)%Z -> (0 <= size2)%Z ->
  Rng.get_random_bytes buf1 size1 r = Some (len1, out1, r1) ->
  Rng.get_random_bytes buf2 size2 r1 = Some (len2, out2, r2) ->
  len1 = size1 /\
  (len1 + len2)%Z =
    Z.min (Z.of_nat (length (Rng._entropy r))) (size1 + size2) /\
  take (Z.to_nat len1) out1 ++ take (Z.to_nat len2) out2 =
    take (Z.to_nat (len1 + len2)) (Rng._entropy r) /\
  Rng._entropy r2 = drop (Z.to_nat (len1 + len2)) (Rng._entropy r) /\
  Rng.signals r2 =
    Rng.signals r ++ [Rng.ProducerWakeOne; Rng.ProducerWakeOne] /\
  exists out r',
    Rng.get_random_bytes buf1 (size1 + size2) r = Some ((len1 + len2)%Z, out, r') /\
    Rng._entropy r' = Rng._entropy r2.
Proof.
  intros H1 H2 G1 G2.
  unfold Rng.get_random_bytes in G1.
  destruct (0 <? Z.of_nat (length (Rng._entropy r)))%Z eqn:E1; [|discriminate].
  injection G1 as <- <- <-.
  unfold Rng.get_random_bytes in G2.
  cbn [Rng._entropy Rng.signalled Rng.set_entropy Rng.signals] in G2.
  destruct (0 <? _)%Z eqn:E2 in G2; [|discriminate].
  injection G2 as <- <- <-.
  cbn [Rng._entropy Rng.signalled Rng.set_entropy Rng.signals].
  set (pool := Rng._entropy r) in *.
  apply Z.ltb_lt in E1, E2. rewrite length_drop in E2.
  assert (L1 : Z.min (Z.of_nat (length pool)) size1 = size1) by lia.
  rewrite L1 in *. rewrite length_drop.
  set (len2 := Z.min (Z.of_nat (length pool - Z.to_nat size1)) size2).
  assert (L2 : (size1 + len2)%Z =
               Z.min (Z.of_nat (length pool)) (size1 + size2)) by lia.
  assert (Hto : Z.to_nat (size1 + len2) = (Z.to_nat size1 + Z.to_nat len2)%nat)
    by lia.
  split_and!.
  - reflexivity.
  - exact L2.
  - rewrite !take_app_length' by (rewrite length_take, ?length_drop; lia).
    rewrite Hto. apply take_take_drop.
  - rewrite drop_drop, Hto. reflexivity.
  - now rewrite <- app_assoc.
  - unfold Rng.get_random_bytes. fold pool.
    replace (0 <? Z.of_nat (length pool))%Z with true
      by (symmetry; apply Z.ltb_lt; lia).
    rewrite <- L2. eexists _, _. split; [reflexivity|].
    cbn [Rng._entropy Rng.signalled Rng.set_entropy].
    now rewrite drop_drop, Hto.
Qed.

Lemma get_random_bytes_twice_witness :
  let pool := [Byte.x01; Byte.x02; Byte.x03; Byte.x04; Byte.x05] in
  let r := {| Rng._entropy := pool; Rng._queue := Vring.new_vring 8 0;
              Rng._now := 0; Rng.signals := [] |} in
  exists r1 r2,
    Rng.get_random_bytes (replicate 2 Byte.x00) 2 r =
      Some (2%Z, [Byte.x01; Byte.x02], r1) /\
    Rng.get_random_bytes (replicate 8 Byte.x00) 8 r1 =
      Some (3%Z, [Byte.x03; Byte.x04; Byte.x05] ++ replicate 5 Byte.x00, r2) /\
    Rng._entropy r2 = [] /\
    Rng.signals r2 = [Rng.ProducerWakeOne; Rng.ProducerWakeOne].
Proof.
  intros pool r. eexists _, _.
  split; [vm_compute; reflexivity|]. split; [vm_compute; reflexivity|].
  match goal with |- Rng._entropy ?r2 = _ /\ _ =>
    destruct (get_random_bytes_twice (replicate 2 Byte.x00) (replicate 8 Byte.x00)
                2 8 r _ r2 2 3 _ _ ltac:(lia) ltac:(lia)
                ltac:(vm_compute; reflexivity) ltac:(vm_compute; reflexivity))
      as (_ & _ & _ & He & Hs & _)
  end.
  split; [exact He | exact Hs].
Defined.

(** ** The network device: transmit *)

Section TxPublish.
Import Vring Net.
Local Open Scope Z_scope.

(** The scatter-gather entry of a fragment. *)
Abbreviation frag_sg :=
  (fun m : mbuf =>
     {| sg_dir_of := SgOut; sg_paddr := mh_paddr m; sg_len := mh_len m |}).

Abbreviation nonempty := (fun m : mbuf => negb (mh_len m =? 0)).

Lemma u16_succ nb k : u16 (u16 (nb + k) + 1) = u16 (nb + (k + 1)).
Proof. unfold u16. rewrite Z.add_mod_idemp_l by lia. f_equal. lia. Qed.

Lemma u64_plus a b : u64 (u64 a + b) = u64 (a + b).
Proof. unfold u64. now rewrite Z.add_mod_idemp_l by lia. Qed.

Lemma u64_plus_r a b : u64 (a + u64 b) = u64 (a + b).
Proof. unfold u64. now rewrite Z.add_mod_idemp_r by lia. Qed.

(** The loop over the fragments in closed form. *)
Lemma stage_frags_closed frags vq nb bytes :
  u16 nb = nb -> u64 bytes = bytes ->
  stage_frags frags (vq, nb, bytes) =
    (set_sg (_sg_vec vq ++ map frag_sg (List.filter nonempty frags)) vq,
     u16 (nb + Z.of_nat (length (List.filter nonempty frags))),
     u64 (bytes + fold_right Z.add 0 (map mh_len frags))).
Proof.
  revert vq nb bytes. induction frags as [|m frags IH]; intros vq nb bytes Hn Hb.
  - cbn. rewrite app_nil_r, !Z.add_0_r, Hn, Hb. now destruct vq.
  - unfold stage_frags. cbn [fold_left List.filter map fold_right].
    cbv beta. destruct (negb (mh_len m =? 0)) eqn:E.
    + fold (stage_frags frags
              (add_out_sg (mh_paddr m) (mh_len m) vq, u16 (nb + 1),
               u64 (bytes + mh_len m))).
      rewrite IH by (unfold u16, u64; apply Z.mod_mod; lia).
      cbn [length map]. unfold add_out_sg.
      cbn [set_sg _sg_vec vq_num vq_paddr vq_free vq_avail vq_used vq_intr vq_kicks].
      rewrite <- app_assoc. cbn [app].
      f_equal; [f_equal|].
      * replace (nb + 1) with (nb + 0 + 1) by lia.
        rewrite <- (Z.add_0_r (nb + 0 + 1)).
        unfold u16. rewrite Z.add_mod_idemp_l by lia. f_equal. lia.
      * rewrite u64_plus. f_equal. lia.
    + fold (stage_frags frags (vq, nb, bytes)). rewrite IH by assumption.
      apply negb_false_iff, Z.eqb_eq in E.
      rewrite E. reflexivity.
Qed.

End TxPublish.

(** X11. A transmit that finds room.  When the free descriptors suffice for
    the header and the non-empty fragments, [if_transmit] returns 0 and
    notifies queue [2 * idx + 1]; the request sits at the end of the
    available ring as one chain: the header entry, then one host-readable
    entry per non-empty fragment, in order (empty fragments are skipped);
    [num_buffers] counts those fragments; the descriptors of the chain have
    left the free list; [tx_packets] grows by one and [tx_bytes] by the
    fragments' lengths; the other queues are untouched. *)
Theorem if_transmit_publishes
    (tx_offload : list Net.mbuf -> Net.net_hdr -> option (list Net.mbuf * Net.net_hdr))
    (req_paddr : Z) (fuel : nat) (cpu_id : Z) (m_head : list Net.mbuf) (n : Net.net)
    (t : Net.txq) (m' : list Net.mbuf) (h : Net.net_hdr) :
  (0 <= cpu_id)%Z ->
  Net._txq n !! Z.to_nat cpu_id = Some t ->
  Net.offload tx_offload m_head = Some (m', h) ->
  let frags := List.filter (fun m => negb (Net.mh_len m =? 0)%Z) m' in
  (1 + length frags <= Vring.vq_free (Net.vqueue t))%nat ->
  exists n' t',
    Net.if_transmit tx_offload req_paddr fuel cpu_id m_head n = Net.Ok (None, n') /\
    Net._txq n' = <[Z.to_nat cpu_id := t']> (Net._txq n) /\
    Net.kicked n' = Net.kicked n ++ [(2 * cpu_id + 1)%Z] /\
    Vring.vq_avail (Net.vqueue t') =
      Vring.vq_avail (Net.vqueue t) ++
      [{| Vring.ch_cookie :=
            {| Net.mhdr := {| Net.hdr := h;
                              Net.num_buffers :=
                                (Z.of_nat (length frags) mod 2 ^ 16)%Z |};
               Net.um := m' |};
          Vring.ch_sg :=
            {| Vring.sg_dir_of := Vring.SgOut; Vring.sg_paddr := req_paddr;
               Vring.sg_len := Net._hdr_size n |}
            :: map (fun m => {| Vring.sg_dir_of := Vring.SgOut;
                                Vring.sg_paddr := Net.mh_paddr m;
                                Vring.sg_len := Net.mh_len m |}) frags |}] /\
    Vring.vq_free (Net.vqueue t') =
      (Vring.vq_free (Net.vqueue t) - (1 + length frags))%nat /\
    Vring.vq_used (Net.vqueue t') = Vring.vq_used (Net.vqueue t) /\
    Net.tx_packets (Net.stats t') = Net.u64 (Net.tx_packets (Net.stats t) + 1) /\
    Net.tx_bytes (Net.stats t') =
      Net.u64 (Net.tx_bytes (Net.stats t)
               + fold_right Z.add 0%Z (map Net.mh_len m')) /\
    Net.tx_err (Net.stats t') = Net.tx_err (Net.stats t) /\
    Net.tx_drops (Net.stats t') = Net.tx_drops (Net.stats t).
Proof.
  intros Hcpu Ht Hoff frags Hroom.
  unfold Net.if_transmit, Net.pick_txq. cbn [fst].
  unfold Net.tx_locked. rewrite Ht.
  destruct m_head as [|m0 rest]; [discriminate|]. rewrite Hoff.
  unfold Net.tx_stage.
  rewrite stage_frags_closed by reflexivity. fold frags.
  set (vq := Vring.set_sg _ _).
  assert (Hsg : Vring._sg_vec vq =
                {| Vring.sg_dir_of := Vring.SgOut; Vring.sg_paddr := req_paddr;
                   Vring.sg_len := Net._hdr_size n |}
                :: map (fun m => {| Vring.sg_dir_of := Vring.SgOut;
                                    Vring.sg_paddr := Net.mh_paddr m;
                                    Vring.sg_len := Net.mh_len m |}) frags)
    by reflexivity.
  assert (Hlen : length (Vring._sg_vec vq) = S (length frags))
    by (rewrite Hsg, length_cons, length_map; reflexivity).
  assert (Hfit : (length (Vring._sg_vec vq) <=? Vring.vq_free vq)%nat = true)
    by (apply Nat.leb_le; rewrite Hlen; cbn; lia).
  unfold Net.tx_room, Vring.avail_ring_has_room, Vring.add_buf.
  rewrite Hfit. cbn [negb]. rewrite Hfit. cbn [negb].
  unfold Net.finish, Net.set_txq.
  eexists _, _. split; [reflexivity|].
  cbn [Net._txq Net.kicked Net.vqueue Net.stats Net.account Net.tx_packets
       Net.tx_bytes Net.tx_err Net.tx_drops Vring.set_sg Vring.set_avail
       Vring.set_free Vring.vq_avail Vring.vq_free Vring.vq_used].
  rewrite Hlen, Hsg.
  split_and!; try reflexivity.
  rewrite Z.add_0_l, u64_plus_r. reflexivity.
Qed.

Lemma if_transmit_publishes_witness :
  let t := {| Net.vqueue := Vring.new_vring 4 0;
              Net.stats := {| Net.tx_packets := 0; Net.tx_bytes := 0;
                              Net.tx_err := 0; Net.tx_drops := 0;
                              Net.tx_csum := 0; Net.tx_tso := 0 |} |} in
  let n := {| Net._num_queues := 2; Net._txq := [t]; Net._hdr_size := 10;
              Net.kicked := [] |} in
  let m1 := {| Net.mh_len := 60; Net.mh_data := replicate 60 0%Z;
               Net.mh_paddr := 0x2000; Net.csum_flags := 0;
               Net.csum_data := 0 |} in
  let m2 := {| Net.mh_len := 0; Net.mh_data := [];
               Net.mh_paddr := 0x3000; Net.csum_flags := 0;
               Net.csum_data := 0 |} in
  let m3 := {| Net.mh_len := 40; Net.mh_data := replicate 40 0%Z;
               Net.mh_paddr := 0x4000; Net.csum_flags := 0;
               Net.csum_data := 0 |} in
  exists n' t',
    Net.if_transmit (fun _ _ => None) 0x1000 0 0 [m1; m2; m3] n
      = Net.Ok (None, n') /\
    Net._txq n' = [t'] /\
    Net.kicked n' = [1%Z] /\
    Vring.vq_free (Net.vqueue t') = 1%nat /\
    Net.tx_bytes (Net.stats t') = 100%Z.
Proof.
  intros t n m1 m2 m3.
  destruct (if_transmit_publishes (fun _ _ => None) 0x1000 0 0 [m1; m2; m3] n t
              [m1; m2; m3] (Net.hdr Net.zero_hdr))
    as (n' & t' & H1 & H2 & H3 & _ & H5 & _ & _ & H8 & _);
    [lia | reflexivity | reflexivity | cbn; lia |].
  exists n', t'. split; [exact H1|]. split; [exact H2|]. split; [exact H3|].
  split; [exact H5 | exact H8].
Defined.

(** X12. A malformed offload request.  [tx_locked] fails with [EINVAL]
    exactly when the packet asks for an offload ([csum_flags] not zero) and
    [tx_offload] gives up on it.  In that case [tx_err] grows by one, the
    other counters, the queue and the other queues are as they were, and
    [if_transmit] notifies no queue.  A packet with [csum_flags = 0] is
    never handed to [tx_offload]: the outcome does not depend on it. *)
Theorem if_transmit_einval
    (tx_offload : list Net.mbuf -> Net.net_hdr -> option (list Net.mbuf * Net.net_hdr))
    (req_paddr : Z) (fuel : nat) (cpu_id : Z) (m : Net.mbuf) (rest : list Net.mbuf)
    (n : Net.net) (t : Net.txq) :
  Net._txq n !! Z.to_nat cpu_id = Some t ->
  let t' :=
    {| Net.vqueue := Net.vqueue t;
       Net.stats :=
         {| Net.tx_packets := Net.tx_packets (Net.stats t);
            Net.tx_bytes := Net.tx_bytes (Net.stats t);
            Net.tx_err := Net.u64 (Net.tx_err (Net.stats t) + 1);
            Net.tx_drops := Net.tx_drops (Net.stats t);
            Net.tx_csum := Net.tx_csum (Net.stats t);
            Net.tx_tso := Net.tx_tso (Net.stats t) |} |} in
  (Net.csum_flags m <> 0%Z ->
   tx_offload (m :: rest) (Net.hdr Net.zero_hdr) = None ->
   exists n',
     Net.if_transmit tx_offload req_paddr fuel cpu_id (m :: rest) n =
       Net.Ok (Some Net.EINVAL, n') /\
     Net._txq n' = <[Z.to_nat cpu_id := t']> (Net._txq n) /\
     Net.kicked n' = Net.kicked n) /\
  (forall n',
     Net.if_transmit tx_offload req_paddr fuel cpu_id (m :: rest) n
       = Net.Ok (Some Net.EINVAL, n') ->
     Net.csum_flags m <> 0%Z /\
     tx_offload (m :: rest) (Net.hdr Net.zero_hdr) = None) /\
  (Net.csum_flags m = 0%Z ->
   forall other,
     Net.if_transmit tx_offload req_paddr fuel cpu_id (m :: rest) n =
     Net.if_transmit other req_paddr fuel cpu_id (m :: rest) n).
Proof.
  intros Ht t'. unfold Net.if_transmit, Net.pick_txq. cbn [fst].
  unfold Net.tx_locked. rewrite Ht. unfold Net.offload.
  split_and!.
  - intros Hf Ho.
    replace (negb (Net.csum_flags m =? 0)%Z) with true
      by (symmetry; apply negb_true_iff, Z.eqb_neq; exact Hf).
    rewrite Ho. eexists. split; [reflexivity|]. split; reflexivity.
  - intros n'.
    destruct (negb (Net.csum_flags m =? 0)%Z) eqn:Hf.
    + apply negb_true_iff, Z.eqb_neq in Hf.
      destruct (tx_offload (m :: rest) (Net.hdr Net.zero_hdr)) as [[m' h]|] eqn:Ho;
        [|intros _; split; [exact Hf | reflexivity]].
      destruct (Net.tx_stage req_paddr n (Net.vqueue t) m') as [[vq nb] bytes].
      destruct (Net.tx_room fuel vq) as [[vq'|]| |]; try discriminate.
      destruct (Vring.add_buf _ vq') as [[] ?]; cbn [negb]; discriminate.
    + destruct (Net.tx_stage req_paddr n (Net.vqueue t) (m :: rest))
        as [[vq nb] bytes].
      destruct (Net.tx_room fuel vq) as [[vq'|]| |]; try discriminate.
      destruct (Vring.add_buf _ vq') as [[] ?]; cbn [negb]; discriminate.
  - intros Hz other. rewrite Hz. reflexivity.
Qed.

Lemma if_transmit_einval_witness :
  let t := {| Net.vqueue := Vring.new_vring 4 0;
              Net.stats := {| Net.tx_packets := 5; Net.tx_bytes := 300;
                              Net.tx_err := 0; Net.tx_drops := 0;
                              Net.tx_csum := 0; Net.tx_tso := 0 |} |} in
  let n := {| Net._num_queues := 2; Net._txq := [t]; Net._hdr_size := 10;
              Net.kicked := [1%Z] |} in
  let m := {| Net.mh_len := 8; Net.mh_data := replicate 8 0%Z;
              Net.mh_paddr := 0x2000; Net.csum_flags := 1;
              Net.csum_data := 0 |} in
  exists n',
    Net.if_transmit (fun _ _ => None) 0x1000 0 0 [m] n
      = Net.Ok (Some Net.EINVAL, n') /\
    (Net.tx_err ∘ Net.stats <$> Net._txq n' !! 0%nat) = Some 1%Z /\
    (Net.vqueue <$> Net._txq n' !! 0%nat) = Some (Vring.new_vring 4 0) /\
    Net.kicked n' = [1%Z].
Proof.
  intros t n m.
  destruct (proj1 (if_transmit_einval (fun _ _ => None) 0x1000 0 0 m [] n t
                     eq_refl))
    as (n' & H1 & H2 & H3); [discriminate | reflexivity |].
  exists n'. split; [exact H1|]. rewrite H2. split; [reflexivity|].
  split; [reflexivity | exact H3].
Defined.

(** ** The network device: filling the receive ring *)

Section FillRxRing.
Import Vring NetRx.
Local Open Scope Z_scope.
Variable hh : if_hh.

(** The chain [fill_rx_ring] publishes for a buffer. *)
Abbreviation rx_chain :=
  (fun m : rx_mbuf =>
     {| ch_cookie := set_m_hdr (set_mh_len (MCLBYTES hh) (m_hdr m)) m;
        ch_sg := [{| sg_dir_of := SgIn; sg_paddr := Net.mh_paddr (m_hdr m);
                     sg_len := MCLBYTES hh |}] |}).

(** The allocator's answers left when the loop stops. *)
Abbreviation rx_allocs_left :=
  (fun (k free : nat) (rest : list (option rx_mbuf)) =>
     if (k <? free)%nat then
       match rest with None :: r => r | _ => rest end
     else rest).

Lemma fill_rx_loop_spec ms : forall rest vq added freed,
  (length ms <= vq_free vq)%nat ->
  ((length ms < vq_free vq)%nat ->
   match rest with Some _ :: _ => False | _ => True end) ->
  exists vq',
    fill_rx_loop hh (map Some ms ++ rest) vq added freed =
      (rx_allocs_left (length ms) (vq_free vq) rest, vq',
       added + Z.of_nat (length ms), freed) /\
    vq_avail vq' = vq_avail vq ++ map rx_chain ms /\
    vq_free vq' = (vq_free vq - length ms)%nat /\
    vq_used vq' = vq_used vq /\
    vq_kicks vq' = vq_kicks vq /\
    vq_intr vq' = vq_intr vq.
Proof.
  induction ms as [|m ms IH]; intros rest vq added freed Hfit Hstop.
  - cbn [map app length]. exists vq. rewrite app_nil_r, Z.add_0_r.
    split_and!; try reflexivity; [|lia].
    destruct rest as [|a r]; [now destruct (0 <? vq_free vq)%nat|].
    cbn [fill_rx_loop]. unfold avail_ring_not_empty.
    destruct (0 <? vq_free vq)%nat eqn:E; [|reflexivity].
    apply Nat.ltb_lt in E. specialize (Hstop E).
    destruct a; [contradiction|reflexivity].
  - cbn [map app length] in *. cbn [fill_rx_loop].
    unfold avail_ring_not_empty.
    replace (0 <? vq_free vq)%nat with true by (symmetry; apply Nat.ltb_lt; lia).
    unfold add_buf, add_in_sg, init_sg.
    cbn [_sg_vec set_sg vq_free app length].
    replace (1 <=? vq_free vq)%nat with true by (symmetry; apply Nat.leb_le; lia).
    cbn [negb].
    match goal with |- context [fill_rx_loop hh _ ?q _ _] => set (q1 := q) end.
    assert (F1 : vq_free q1 = (vq_free vq - 1)%nat) by reflexivity.
    assert (F2 : vq_avail q1 = vq_avail vq ++ [rx_chain m]) by reflexivity.
    assert (F3 : vq_used q1 = vq_used vq) by reflexivity.
    assert (F4 : vq_kicks q1 = vq_kicks vq) by reflexivity.
    assert (F5 : vq_intr q1 = vq_intr vq) by reflexivity.
    clearbody q1.
    destruct (IH rest q1 (added + 1) freed) as (vq' & H1 & H2 & H3 & H4 & H5 & H6).
    + lia.
    + intros H. apply Hstop. lia.
    + exists vq'. rewrite H1, H2, H3, H4, H5, H6, F1, F2, F3, F4, F5.
      split_and!; try reflexivity.
      * replace (length ms <? vq_free vq - 1)%nat
          with (S (length ms) <? vq_free vq)%nat.
        -- replace (added + Z.of_nat (S (length ms)))
             with (added + 1 + Z.of_nat (length ms)) by lia.
           reflexivity.
        -- destruct (S (length ms) <? vq_free vq)%nat eqn:E1; symmetry;
             [apply Nat.ltb_lt in E1; apply Nat.ltb_lt
             |apply Nat.ltb_ge in E1; apply Nat.ltb_ge]; lia.
      * rewrite <- app_assoc. reflexivity.
      * lia.
Qed.

End FillRxRing.

(** X13. [fill_rx_ring] publishes one buffer per free descriptor for as long
    as the allocator delivers.  With [ms] the buffers handed out before the
    ring is full or the allocator fails, each buffer is published, in order,
    as a chain of one host-writable entry of [MCLBYTES] bytes at its data
    address, with [mh_len] set to [MCLBYTES]; the free descriptors drop by
    their number; the host is notified once if at least one buffer was added
    and not at all otherwise; no buffer is given back; the used ring and
    the interrupt flag are untouched; a failed allocation is consumed only
    if the ring still had room. *)
Theorem fill_rx_ring_fills
    (hh : NetRx.if_hh) (ms : list NetRx.rx_mbuf)
    (rest : list (option NetRx.rx_mbuf)) (vq : Vring.vring NetRx.rx_mbuf) :
  (length ms <= Vring.vq_free vq)%nat ->
  ((length ms < Vring.vq_free vq)%nat ->
   match rest with Some _ :: _ => False | _ => True end) ->
  exists vq',
    NetRx.fill_rx_ring hh (map Some ms ++ rest) vq =
      (if (length ms <? Vring.vq_free vq)%nat
       then match rest with None :: r => r | _ => rest end
       else rest,
       vq', Z.of_nat (length ms), []) /\
    Vring.vq_avail vq' =
      Vring.vq_avail vq ++
      map (fun m =>
             {| Vring.ch_cookie :=
                  NetRx.set_m_hdr
                    (NetRx.set_mh_len (NetRx.MCLBYTES hh) (NetRx.m_hdr m)) m;
                Vring.ch_sg :=
                  [{| Vring.sg_dir_of := Vring.SgIn;
                      Vring.sg_paddr := Net.mh_paddr (NetRx.m_hdr m);
                      Vring.sg_len := NetRx.MCLBYTES hh |}] |}) ms /\
    Vring.vq_free vq' = (Vring.vq_free vq - length ms)%nat /\
    Vring.vq_used vq' = Vring.vq_used vq /\
    Vring.vq_intr vq' = Vring.vq_intr vq /\
    Vring.vq_kicks vq' =
      (Vring.vq_kicks vq + match ms with [] => 0 | _ :: _ => 1 end)%nat.
Proof.
  intros Hfit Hstop.
  destruct (fill_rx_loop_spec hh ms rest vq 0%Z [] Hfit Hstop)
    as (vq' & H1 & H2 & H3 & H4 & H5 & H6).
  unfold NetRx.fill_rx_ring. rewrite H1. rewrite Z.add_0_l.
  destruct ms as [|m ms].
  - exists vq'. cbn [length Z.of_nat Z.eqb negb]. rewrite H2, H3, H4, H5, H6.
    split_and!; try reflexivity. lia.
  - exists (Vring.kick vq').
    replace (Z.of_nat (length (m :: ms)) =? 0)%Z with false
      by (symmetry; apply Z.eqb_neq; cbn [length]; lia).
    cbn [negb]. unfold Vring.kick.
    cbn [Vring.set_kicks Vring.vq_avail Vring.vq_free Vring.vq_used
         Vring.vq_intr Vring.vq_kicks].
    rewrite H2, H3, H4, H5, H6. split_and!; try reflexivity. lia.
Qed.

Lemma fill_rx_ring_fills_witness :
  let mk := fun paddr =>
    {| NetRx.m_hdr := {| Net.mh_len := 0; Net.mh_data := [];
                         Net.mh_paddr := paddr; Net.csum_flags := 0;
                         Net.csum_data := 0 |};
       NetRx.mh_flags := 2; NetRx.pkthdr_len := 0;
       NetRx.pkthdr_rcvif := false |} in
  let vq := Vring.set_free 2 (Vring.new_vring 4 0) in
  exists vq',
    NetRx.fill_rx_ring NetRx.freebsd
      [Some (mk 0x1000%Z); Some (mk 0x2000%Z); Some (mk 0x3000%Z)] vq =
      ([Some (mk 0x3000%Z)], vq', 2%Z, []) /\
    Vring.vq_free vq' = 0%nat /\
    Vring.vq_kicks vq' = 1%nat /\
    length (Vring.vq_avail vq') = 2%nat.
Proof.
  intros mk vq.
  destruct (fill_rx_ring_fills NetRx.freebsd [mk 0x1000%Z; mk 0x2000%Z]
              [Some (mk 0x3000%Z)] vq)
    as (vq' & H1 & H2 & H3 & _ & _ & H6).
  - cbn. lia.
  - cbn. lia.
  - exists vq'. split; [exact H1|]. split; [exact H3|]. split; [exact H6|].
    rewrite H2. reflexivity.
Defined.

(** ** The network device: the receive loop *)

Section RxAccounting.
Import Vring Sched NetRx.
Local Open Scope Z_scope.
Variable hh : if_hh.
Variable bsd_hh : Net.bsd_hh.
Variable _hdr_size : Z.
Variable _mergeable_bufs : bool.
Variable mtod_hdr : rx_mbuf -> Net.net_hdr_mrg_rxbuf.
Variable m_adj : packet -> Z -> packet.
Variable if_input : packet -> ifnet -> ifnet.
Variable refill_ring_cond : vring rx_mbuf -> bool.
Variable harness : nat -> list (used_elem rx_mbuf).

Abbreviation fetch := (fetch harness).
Abbreviation read_fragments := (read_fragments hh harness).
Abbreviation rx_packet :=
  (rx_packet hh bsd_hh _hdr_size _mergeable_bufs mtod_hdr m_adj if_input harness).
Abbreviation drain :=
  (drain hh bsd_hh _hdr_size _mergeable_bufs mtod_hdr m_adj if_input harness).

(** What a stretch of the loop did to the local counters: [np] packets
    passed up carrying [nb] bytes, [nd] drops, [nok] and [nerr] checksum
    verdicts. *)
Abbreviation counted :=
  (fun (l l' : rx_locals) (np nb nd nok nerr : Z) =>
     l_rx_packets l' = u64 (l_rx_packets l + np) /\
     l_rx_bytes l' = u64 (l_rx_bytes l + nb) /\
     l_rx_drops l' = u64 (l_rx_drops l + nd) /\
     l_csum_ok l' = u64 (l_csum_ok l + nok) /\
     l_csum_err l' = u64 (l_csum_err l + nerr)).

Lemma u64_u64 z : u64 (u64 z) = u64 z.
Proof. unfold u64. apply Z.mod_mod. lia. Qed.

Lemma u64_add_l a b : u64 (u64 a + b) = u64 (a + b).
Proof. unfold u64. now rewrite Z.add_mod_idemp_l by lia. Qed.

Lemma u64_add_r a b : u64 (a + u64 b) = u64 (a + b).
Proof. unfold u64. now rewrite Z.add_mod_idemp_r by lia. Qed.

(** The fragment loop leaves the counters alone but for one drop, when the
    ring runs out. *)
Lemma read_fragments_counters n : forall w head_len frags l w' head_len' frags' l',
  read_fragments n w head_len frags l = (w', head_len', frags', l') ->
  l' = l \/ l' = drop_one l.
Proof.
  induction n as [|n IH]; intros w head_len frags l w' head_len' frags' l' H.
  - injection H as <- <- <- <-. now left.
  - cbn [NetRx.read_fragments] in H.
    destruct (fetch w) as [[[m len]|] w1].
    + apply IH in H. exact H.
    + injection H as <- <- <- <-. now right.
Qed.

Lemma rx_packet_accounting m len s l s' l' :
  rx_packet m len s l = (s', l') ->
  exists p (nd nok nerr : bool),
    delivered s' = delivered s ++ [p] /\
    freed s' = freed s /\ stats s' = stats s /\ allocs s' = allocs s /\
    _ifn s' = if_input p (_ifn s) /\
    (l_rx_packets l' = u64 (l_rx_packets l + 1) /\
     l_rx_bytes l' = u64 (l_rx_bytes l + pkthdr_len (fst p)) /\
     l_rx_drops l' = (if nd then u64 (l_rx_drops l + 1) else l_rx_drops l) /\
     l_csum_ok l' = (if nok then u64 (l_csum_ok l + 1) else l_csum_ok l) /\
     l_csum_err l' = (if nerr then u64 (l_csum_err l + 1) else l_csum_err l)) /\
    nok && nerr = false.
Proof.
  unfold NetRx.rx_packet.
  destruct (read_fragments _ _ _ _ _) as [[[w head_len] frags] l1] eqn:R.
  apply read_fragments_counters in R.
  destruct (m_adj _ _) as [m_head frags'].
  set (rxcsum := negb _ && negb _).
  destruct (if rxcsum then _ else _) as [bad mh].
  intros [= <- <-].
  exists (set_m_hdr mh m_head, frags').
  destruct R as [-> | ->]; [exists false | exists true];
    exists (rxcsum && negb bad), (rxcsum && bad);
    cbn [delivered freed stats allocs _ifn fst l_rx_packets l_rx_bytes
         l_rx_drops l_csum_ok l_csum_err set_m_hdr pkthdr_len drop_one];
    (split_and!; try reflexivity; destruct rxcsum, bad; reflexivity).
Qed.

(** Counters that hold [u64] values. *)
Abbreviation normal :=
  (fun l : rx_locals =>
     u64 (l_rx_packets l) = l_rx_packets l /\
     u64 (l_rx_bytes l) = l_rx_bytes l /\
     u64 (l_rx_drops l) = l_rx_drops l /\
     u64 (l_csum_ok l) = l_csum_ok l /\
     u64 (l_csum_err l) = l_csum_err l).

Abbreviation bytes_of :=
  (fun new : list packet =>
     fold_right Z.add 0 (map (fun p : packet => pkthdr_len (fst p)) new)).

Lemma bytes_of_app (a b : list packet) :
  bytes_of (a ++ b) = bytes_of a + bytes_of b.
Proof.
  induction a as [|p a IH]; [reflexivity|].
  cbn [app map fold_right] in *. rewrite IH. lia.
Qed.

Lemma if_u64 (b : bool) x :
  u64 x = x -> (if b then u64 (x + 1) else x) = u64 (x + Z.b2z b).
Proof. intros H. destruct b; cbn [Z.b2z]; [reflexivity|]. now rewrite Z.add_0_r. Qed.

Lemma drain_accounting fuel : forall cur s l s' l',
  normal l ->
  drain fuel cur s l = Some (s', l') ->
  exists new short nd nok nerr,
    delivered s' = delivered s ++ new /\
    freed s' = freed s ++ short /\
    stats s' = stats s /\ allocs s' = allocs s /\
    counted l l' (Z.of_nat (length new)) (bytes_of new)
      (Z.of_nat (length short) + nd) nok nerr /\
    0 <= nd <= Z.of_nat (length new) /\
    0 <= nok /\ 0 <= nerr /\ nok + nerr <= Z.of_nat (length new) /\
    (cur <> None -> (1 <= length new + length short)%nat) /\
    (cur = get_buf_elem (queue (rx_w s)) ->
     get_buf_elem (queue (rx_w s')) = None \/
     (new <> [] /\
      Z.land (if_drv_flags (_ifn s')) (IFF_DRV_RUNNING hh) = 0)).
Proof.
  induction fuel as [|fuel IH]; intros cur s l s' l' Hn H.
  - destruct cur as [[m len]|]; [discriminate|]. injection H as <- <-.
    exists [], [], 0, 0, 0. rewrite !app_nil_r. cbn [length Z.of_nat map fold_right].
    rewrite !Z.add_0_r. destruct Hn as (N1 & N2 & N3 & N4 & N5).
    split_and!; try reflexivity; try lia; try (symmetry; assumption);
      [congruence|].
    intros <-. now left.
  - destruct cur as [[m len]|].
    2:{ injection H as <- <-.
        exists [], [], 0, 0, 0. rewrite !app_nil_r.
        cbn [length Z.of_nat map fold_right].
        rewrite !Z.add_0_r. destruct Hn as (N1 & N2 & N3 & N4 & N5).
        split_and!; try reflexivity; try lia; try (symmetry; assumption);
          [congruence|].
        intros <-. now left. }
    cbn [NetRx.drain] in H.
    destruct (u32 len <? u32 (_hdr_size + ETHER_HDR_LEN hh)).
    + (* an undersized frame *)
      destruct (fetch _) as [cur1 w1] eqn:F in H.
      apply IH in H.
      2:{ destruct Hn as (N1 & N2 & N3 & N4 & N5).
          cbn [drop_one l_rx_packets l_rx_bytes l_rx_drops l_csum_ok l_csum_err].
          rewrite u64_u64. auto. }
      destruct H as (new & short & nd & nok & nerr & D & Fr & St & Al & C & B1 & B2
                     & B3 & B4 & _ & Ex).
      exists new, (m :: short), nd, nok, nerr.
      cbn [set_rx_w m_free delivered freed stats allocs rx_w] in D, Fr, St, Al, Ex.
      rewrite D, Fr, St, Al, <- app_assoc.
      cbn [drop_one l_rx_packets l_rx_bytes l_rx_drops l_csum_ok l_csum_err] in C.
      destruct C as (C1 & C2 & C3 & C4 & C5).
      split_and!; try reflexivity; try assumption; try lia.
      * rewrite C3, u64_add_l. f_equal. cbn [length]. lia.
      * intros _. cbn [length]. lia.
      * intros _. apply Ex. unfold NetRx.fetch in F. now injection F as <- <-.
    + (* a packet *)
      destruct (rx_packet m (u32 len) _ l) as [s1 l1] eqn:P.
      apply rx_packet_accounting in P
        as (p & bd & bok & berr & D1 & F1 & S1 & A1 & I1 & C1 & X1).
      cbn [set_rx_w delivered freed stats allocs _ifn] in D1, F1, S1, A1, I1.
      destruct C1 as (P1 & P2 & P3 & P4 & P5).
      destruct Hn as (N1 & N2 & N3 & N4 & N5).
      rewrite if_u64 in P3, P4, P5 by assumption.
      assert (Hn1 : normal l1)
        by (rewrite P1, P2, P3, P4, P5, !u64_u64; auto).
      destruct (Z.land (if_drv_flags (_ifn s1)) (IFF_DRV_RUNNING hh) =? 0) eqn:Run.
      * injection H as <- <-.
        exists [p], [], (Z.b2z bd), (Z.b2z bok), (Z.b2z berr).
        rewrite app_nil_r. cbn [length Z.of_nat map fold_right].
        rewrite Z.add_0_r, Z.add_0_l.
        split_and!; try assumption; try reflexivity;
          try (destruct bd; cbn; lia); try (destruct bok; cbn; lia);
          try (destruct berr; cbn; lia).
        -- destruct bok, berr; cbn in *; try lia; discriminate.
        -- intros _. right. split; [discriminate|]. now apply Z.eqb_eq.
      * destruct (fetch _) as [cur1 w1] eqn:F in H.
        apply IH in H; [|exact Hn1].
        destruct H as (new & short & nd & nok & nerr & D & Fr & St & Al & C & B1 & B2
                       & B3 & B4 & _ & Ex).
        cbn [set_rx_w delivered freed stats allocs rx_w _ifn] in D, Fr, St, Al, Ex.
        exists (p :: new), short, (Z.b2z bd + nd), (Z.b2z bok + nok),
          (Z.b2z berr + nerr).
        rewrite D, Fr, St, Al, D1, F1, S1, A1, <- app_assoc.
        destruct C as (C1 & C2 & C3 & C4 & C5).
        rewrite C1, C2, C3, C4, C5, P1, P2, P3, P4, P5, !u64_add_l.
        cbn [length map fold_right fst app].
        split_and!; try reflexivity; try (f_equal; lia);
          try (destruct bd; cbn; lia); try (destruct bok; cbn; lia);
          try (destruct berr; cbn; lia).
        -- destruct bok, berr; cbn in *; try lia; discriminate.
        -- intros _. unfold NetRx.fetch in F. injection F as <- <-.
           destruct Ex as [Ex | [_ Ex]]; [reflexivity|now left|].
           right. split; [discriminate | exact Ex].
Qed.

(** [fill_rx_ring] never gives a buffer back: with room for one
    descriptor, [add_buf] of a one-entry chain succeeds. *)
Lemma fill_rx_loop_keeps allocs : forall vq added fr,
  (fill_rx_loop hh allocs vq added fr).2 = fr /\
  vq_used (fill_rx_loop hh allocs vq added fr).1.1.2 = vq_used vq.
Proof.
  induction allocs as [|a allocs IH]; intros vq added fr; [split; reflexivity|].
  cbn [fill_rx_loop]. unfold avail_ring_not_empty.
  destruct (0 <? vq_free vq)%nat eqn:E; [|split; reflexivity].
  destruct a as [m|]; [|split; reflexivity].
  unfold add_buf, add_in_sg, init_sg. cbn [_sg_vec set_sg vq_free app length].
  apply Nat.ltb_lt in E.
  replace (1 <=? vq_free vq)%nat with true by (symmetry; apply Nat.leb_le; lia).
  cbn [negb].
  match goal with |- context [fill_rx_loop hh allocs ?q ?a fr] =>
    destruct (IH q a fr) as [I1 I2]; split; [exact I1 | rewrite I2; reflexivity]
  end.
Qed.

Lemma refill_keeps s :
  let s' := refill hh refill_ring_cond s in
  stats s' = stats s /\ _ifn s' = _ifn s /\ delivered s' = delivered s /\
  freed s' = freed s /\
  vq_used (queue (rx_w s')) = vq_used (queue (rx_w s)).
Proof.
  unfold refill. destruct (refill_ring_cond _); [|split_and!; reflexivity].
  unfold fill_rx_ring.
  destruct (fill_rx_loop_keeps (allocs s) (queue (rx_w s)) 0 []) as [K1 K2].
  destruct (fill_rx_loop _ _ _ _ _) as [[[al vq] added] fr].
  cbn [fst snd] in K1, K2. subst fr.
  cbn [stats _ifn delivered freed rx_w on_queue queue]. rewrite app_nil_r.
  split_and!; try reflexivity.
  destruct (negb _); [|exact K2]. exact K2.
Qed.

Lemma receiver_round_drain fuel s s' :
  receiver_round hh bsd_hh _hdr_size _mergeable_bufs mtod_hdr m_adj if_input
    refill_ring_cond harness fuel s = Some s' ->
  exists w cur s1 l,
    WaitForQueue.wait_for_queue used_ring_not_empty harness fuel (rx_w s) = Some w /\
    cur = get_buf_elem (queue (Sched.tick harness w)) /\
    drain fuel cur (set_rx_w (Sched.tick harness w) s) zero_locals = Some (s1, l) /\
    s' = {| rx_w := rx_w (refill hh refill_ring_cond s1);
            stats := update_stats l (stats (refill hh refill_ring_cond s1));
            _ifn := _ifn (refill hh refill_ring_cond s1);
            delivered := delivered (refill hh refill_ring_cond s1);
            freed := freed (refill hh refill_ring_cond s1);
            allocs := allocs (refill hh refill_ring_cond s1) |}.
Proof.
  unfold receiver_round. intros H.
  destruct (WaitForQueue.wait_for_queue _ _ _ _) as [w|] eqn:W; [|discriminate].
  cbn [mbind option_bind] in H. unfold NetRx.fetch in H.
  destruct (drain _ _ _ _) as [[s1 l]|] eqn:D; [|discriminate].
  cbn [mbind option_bind] in H. injection H as <-.
  exists w, (get_buf_elem (queue (Sched.tick harness w))), s1, l.
  split_and!; reflexivity || assumption.
Qed.

End RxAccounting.

(** X14. The statistics of a round of [receiver] agree with what it did,
    whatever the host posts meanwhile.  In a round that completes, at least
    one completion was consumed; [rx_packets] grows by the number of packets
    handed to the upper layers and [rx_bytes] by the sum of their
    [pkthdr.len]; [rx_drops] grows by the number of buffers freed plus [nd],
    one for each packet whose fragments ran out (such a packet is still
    handed up, so [nd] is at most the number of packets); the checksum
    counters grow by at most one verdict per packet; and the round ends with
    the used ring found empty or with the interface found stopped right after
    a packet was handed up.  (All counters are [u64].) *)
Theorem receiver_round_accounting
    (hh : NetRx.if_hh) (bsd_hh : Net.bsd_hh) (_hdr_size : Z) (_mergeable_bufs : bool)
    (mtod_hdr : NetRx.rx_mbuf -> Net.net_hdr_mrg_rxbuf)
    (m_adj : NetRx.packet -> Z -> NetRx.packet)
    (if_input : NetRx.packet -> NetRx.ifnet -> NetRx.ifnet)
    (refill_ring_cond : Vring.vring NetRx.rx_mbuf -> bool)
    (harness : nat -> list (Vring.used_elem NetRx.rx_mbuf))
    (fuel : nat) (s s' : NetRx.rx) :
  NetRx.receiver_round hh bsd_hh _hdr_size _mergeable_bufs mtod_hdr m_adj if_input
    refill_ring_cond harness fuel s = Some s' ->
  exists (new : list NetRx.packet) (short : list NetRx.rx_mbuf) (nd nok nerr : Z),
    NetRx.delivered s' = NetRx.delivered s ++ new /\
    NetRx.freed s' = NetRx.freed s ++ short /\
    (1 <= length new + length short)%nat /\
    NetRx.rx_packets (NetRx.stats s') =
      NetRx.u64 (NetRx.rx_packets (NetRx.stats s) + Z.of_nat (length new)) /\
    NetRx.rx_bytes (NetRx.stats s') =
      NetRx.u64 (NetRx.rx_bytes (NetRx.stats s)
                 + fold_right Z.add 0%Z
                     (map (fun p : NetRx.packet => NetRx.pkthdr_len (fst p)) new)) /\
    NetRx.rx_drops (NetRx.stats s') =
      NetRx.u64 (NetRx.rx_drops (NetRx.stats s) + (Z.of_nat (length short) + nd)) /\
    NetRx.rx_csum (NetRx.stats s') =
      NetRx.u64 (NetRx.rx_csum (NetRx.stats s) + nok) /\
    NetRx.rx_csum_err (NetRx.stats s') =
      NetRx.u64 (NetRx.rx_csum_err (NetRx.stats s) + nerr) /\
    (0 <= nd <= Z.of_nat (length new))%Z /\
    (0 <= nok)%Z /\ (0 <= nerr)%Z /\ (nok + nerr <= Z.of_nat (length new))%Z /\
    (Vring.vq_used (Sched.queue (NetRx.rx_w s')) = [] \/
     (new <> [] /\
      Z.land (NetRx.if_drv_flags (NetRx._ifn s')) (NetRx.IFF_DRV_RUNNING hh) = 0%Z)).
Proof.
  intros H. apply receiver_round_drain in H as (w & cur & s1 & l & W & Hc & D & ->).
  apply wait_for_queue_pred in W;
    [|reflexivity|intros q e _; apply used_ring_not_empty_push].
  assert (Hcur : cur <> None).
  { subst cur. pose proof (vq_used_host_inject (Sched.queue w) (harness (Sched.now w))) as U.
    unfold Vring.used_ring_not_empty in W. unfold Vring.get_buf_elem.
    cbn [Sched.tick Sched.queue]. rewrite U.
    destruct (Vring.vq_used (Sched.queue w)); [discriminate|]. discriminate. }
  apply drain_accounting in D;
    [|unfold NetRx.zero_locals; cbn; split_and!; reflexivity].
  destruct D as (new & short & nd & nok & nerr & D & Fr & St & Al & C & B1 & B2
                 & B3 & B4 & Pr & Ex).
  cbn [NetRx.set_rx_w NetRx.delivered NetRx.freed NetRx.stats NetRx.allocs
       NetRx.rx_w] in D, Fr, St, Al, Ex.
  destruct (refill_keeps hh refill_ring_cond s1) as (K1 & K2 & K3 & K4 & K5).
  exists new, short, nd, nok, nerr.
  cbn [NetRx.delivered NetRx.freed NetRx.stats NetRx._ifn NetRx.rx_w
       NetRx.update_stats NetRx.rx_packets NetRx.rx_bytes NetRx.rx_drops
       NetRx.rx_csum NetRx.rx_csum_err].
  rewrite K1, K2, K3, K4, K5, D, Fr, St.
  destruct C as (C1 & C2 & C3 & C4 & C5).
  rewrite C1, C2, C3, C4, C5. cbn [NetRx.zero_locals NetRx.l_rx_packets
    NetRx.l_rx_bytes NetRx.l_rx_drops NetRx.l_csum_ok NetRx.l_csum_err].
  rewrite !Z.add_0_l, !u64_add_r.
  split_and!; try reflexivity; try assumption; try lia.
  - now apply Pr.
  - destruct (Ex Hc) as [E | E]; [left | now right].
    unfold Vring.get_buf_elem in E.
    destruct (Vring.vq_used (Sched.queue (NetRx.rx_w s1))); [reflexivity|discriminate].
Qed.

Lemma receiver_round_accounting_witness :
  let mk := fun paddr =>
    {| NetRx.m_hdr := {| Net.mh_len := 2048; Net.mh_data := replicate 74 0%Z;
                         Net.mh_paddr := paddr; Net.csum_flags := 0;
                         Net.csum_data := 0 |};
       NetRx.mh_flags := 2; NetRx.pkthdr_len := 0;
       NetRx.pkthdr_rcvif := false |} in
  let done := fun paddr len =>
    {| Vring.ue_chain :=
         {| Vring.ch_cookie := mk paddr;
            Vring.ch_sg := [{| Vring.sg_dir_of := Vring.SgIn;
                               Vring.sg_paddr := paddr;
                               Vring.sg_len := 2048 |}] |};
       Vring.ue_len := len |} in
  let m_adj := fun (p : NetRx.packet) (off : Z) =>
    ({| NetRx.m_hdr := NetRx.set_mh_len (Net.mh_len (NetRx.m_hdr (fst p)) - off)
                         (NetRx.m_hdr (fst p));
        NetRx.mh_flags := NetRx.mh_flags (fst p);
        NetRx.pkthdr_len := (NetRx.pkthdr_len (fst p) - off)%Z;
        NetRx.pkthdr_rcvif := NetRx.pkthdr_rcvif (fst p) |}, snd p) in
  let s :=
    {| NetRx.rx_w :=
         {| Sched.now := 0;
            Sched.queue :=
              Vring.set_used [done 0x1000%Z 20%Z; done 0x2000%Z 74%Z]
                (Vring.set_free 2 (Vring.new_vring 4 0));
            Sched.trace := [] |};
       NetRx.stats := {| NetRx.rx_packets := 0; NetRx.rx_bytes := 0;
                         NetRx.rx_drops := 0; NetRx.rx_csum := 0;
                         NetRx.rx_csum_err := 0 |};
       NetRx._ifn := {| NetRx.if_flags := 1; NetRx.if_drv_flags := 0x40;
                        NetRx.if_capenable := 0; NetRx.if_mtu := 1500 |};
       NetRx.delivered := []; NetRx.freed := []; NetRx.allocs := [] |} in
  exists s',
    NetRx.receiver_round NetRx.freebsd Net.bsd 10 false (fun _ => Net.zero_hdr)
      m_adj (fun _ i => i) (fun _ => false) (fun _ => []) 3 s = Some s' /\
    NetRx.rx_packets (NetRx.stats s') = 1%Z /\
    NetRx.rx_bytes (NetRx.stats s') = 64%Z /\
    NetRx.rx_drops (NetRx.stats s') = 1%Z /\
    exists new short,
      NetRx.delivered s' = new /\ NetRx.freed s' = short /\
      (1 <= length new + length short)%nat.
Proof.
  intros mk done m_adj s.
  destruct (NetRx.receiver_round NetRx.freebsd Net.bsd 10 false
              (fun _ => Net.zero_hdr) m_adj (fun _ i => i) (fun _ => false)
              (fun _ => []) 3 s) as [s'|] eqn:E;
    [|vm_compute in E; discriminate].
  exists s'. split; [reflexivity|].
  destruct (receiver_round_accounting _ _ _ _ _ _ _ _ _ _ _ _ E)
    as (new & short & _ & _ & _ & D & F & P & _).
  vm_compute in E. injection E as <-.
  split; [reflexivity|]. split; [reflexivity|]. split; [reflexivity|].
  exists new, short. split; [exact D|]. split; [exact F | exact P].
Defined.

(** *** Quiet stretches *)

Section RxQuiet.
Import Vring Sched NetRx.
Local Open Scope Z_scope.
Variable hh : if_hh.
Variable bsd_hh : Net.bsd_hh.
Variable _hdr_size : Z.
Variable _mergeable_bufs : bool.
Variable mtod_hdr : rx_mbuf -> Net.net_hdr_mrg_rxbuf.
Variable m_adj : packet -> Z -> packet.
Variable if_input : packet -> ifnet -> ifnet.
Variable refill_ring_cond : vring rx_mbuf -> bool.
Variable harness : nat -> list (used_elem rx_mbuf).

(** The host posts nothing. *)
Hypothesis quiet : forall i, harness i = [].

Abbreviation drain' :=
  (NetRx.drain hh bsd_hh _hdr_size _mergeable_bufs mtod_hdr m_adj if_input harness).

Lemma tick_quiet (w : world rx_mbuf) : queue (tick harness w) = queue w.
Proof using quiet. cbn [tick queue]. now rewrite quiet. Qed.

(** With a completion waiting, [wait_for_queue] returns at its first
    check and leaves the queue alone. *)
Lemma wait_for_queue_ready fuel (w : world rx_mbuf) :
  vq_used (queue w) <> [] ->
  exists w',
    WaitForQueue.wait_for_queue used_ring_not_empty harness (S fuel) w = Some w' /\
    queue w' = queue w.
Proof using quiet.
  intros Hne.
  pose proof (poll_cases used_ring_not_empty harness w) as C; cbn zeta in C.
  rewrite tick_quiet in C.
  assert (E : used_ring_not_empty (queue w) = true)
    by (unfold used_ring_not_empty; destruct (vq_used (queue w)); congruence).
  rewrite E in C. rewrite wait_for_queue_S, C.
  eexists. split; [reflexivity|].
  unfold do_return. cbn [emit queue]. rewrite tick_quiet.
  cbn [emit queue]. apply tick_quiet.
Qed.

(** A run of undersized frames is dropped, frame by frame. *)
Lemma drain_undersized es : forall fuel s l,
  vq_used (queue (rx_w s)) = es ->
  Forall (fun e => u32 (ue_len e) < u32 (_hdr_size + ETHER_HDR_LEN hh)) es ->
  (length es <= fuel)%nat ->
  u64 (l_rx_drops l) = l_rx_drops l ->
  exists s' l',
    drain' fuel (get_buf_elem (queue (rx_w s))) s l = Some (s', l') /\
    delivered s' = delivered s /\
    freed s' = freed s ++ map (fun e => ch_cookie (ue_chain e)) es /\
    stats s' = stats s /\ _ifn s' = _ifn s /\ allocs s' = allocs s /\
    vq_used (queue (rx_w s')) = [] /\
    vq_free (queue (rx_w s')) =
      (vq_free (queue (rx_w s)) + reclaimed (queue (rx_w s)))%nat /\
    vq_avail (queue (rx_w s')) = vq_avail (queue (rx_w s)) /\
    vq_kicks (queue (rx_w s')) = vq_kicks (queue (rx_w s)) /\
    l_rx_drops l' = u64 (l_rx_drops l + Z.of_nat (length es)) /\
    l_rx_packets l' = l_rx_packets l /\ l_rx_bytes l' = l_rx_bytes l /\
    l_csum_ok l' = l_csum_ok l /\ l_csum_err l' = l_csum_err l.
Proof using quiet.
  induction es as [|e es IH]; intros fuel s l Hu Hs Hf Hn.
  - unfold get_buf_elem, reclaimed. rewrite Hu.
    exists s, l. destruct fuel; cbn [NetRx.drain map list_sum length Z.of_nat];
      rewrite app_nil_r, Z.add_0_r, Nat.add_0_r; split_and!; auto.
  - destruct fuel as [|fuel]; [cbn in Hf; lia|].
    apply Forall_cons in Hs as [Hs1 Hs2].
    unfold get_buf_elem at 1. rewrite Hu. cbn [NetRx.drain].
    replace (u32 (ue_len e) <? u32 (_hdr_size + ETHER_HDR_LEN hh)) with true
      by (symmetry; apply Z.ltb_lt; exact Hs1).
    unfold NetRx.fetch.
    set (s1 := set_rx_w (tick harness _) _).
    assert (Q1 : queue (rx_w s1) = get_buf_finalize (queue (rx_w s)))
      by (unfold s1; cbn [rx_w set_rx_w m_free]; rewrite tick_quiet; reflexivity).
    assert (U1 : vq_used (queue (rx_w s1)) = es)
      by (rewrite Q1; unfold get_buf_finalize; rewrite Hu; reflexivity).
    replace (get_buf_elem (queue (tick harness (rx_w (m_free (ch_cookie (ue_chain e))
               (set_rx_w (on_queue get_buf_finalize (rx_w s)) s))))))
      with (get_buf_elem (queue (rx_w s1))) by reflexivity.
    destruct (IH fuel s1 (drop_one l) U1 Hs2) as (s' & l' & D & H1 & H2 & H3 & H4
      & H5 & H6 & H7 & H8 & H9 & H10 & H11 & H12 & H13 & H14).
    + cbn in Hf. lia.
    + cbn [drop_one l_rx_drops]. apply u64_u64.
    + exists s', l'. split; [exact D|].
      unfold reclaimed in H7. rewrite U1 in H7. rewrite Q1 in H7, H8, H9.
      unfold get_buf_finalize in H7, H8, H9. rewrite Hu in H7, H8, H9.
      cbn [vq_free vq_used vq_avail vq_kicks set_used set_free] in H7, H8, H9.
      rewrite H1, H2, H3, H4, H5, H6, H7, H8, H9, H10, H11, H12, H13, H14.
      cbn [drop_one l_rx_drops l_rx_packets l_rx_bytes l_csum_ok l_csum_err].
      unfold s1. cbn [delivered freed stats _ifn allocs set_rx_w m_free].
      unfold reclaimed. rewrite Hu.
      cbn [map list_sum length].
      rewrite <- app_assoc, u64_add_l.
      split_and!; try reflexivity;
        [unfold list_sum; cbn [fold_right]; lia | f_equal; lia].
Qed.

End RxQuiet.

(** X15. Undersized frames.  When the completions waiting on the receive
    queue all report fewer than [_hdr_size + ETHER_HDR_LEN] bytes (and the
    host posts nothing meanwhile), a round of [receiver] returns; it hands
    nothing to the upper layers, frees every one of the buffers, in order,
    counts one drop for each, leaves the other counters and the interface
    alone, and empties the used ring. *)
Theorem receiver_round_undersized
    (hh : NetRx.if_hh) (bsd_hh : Net.bsd_hh) (_hdr_size : Z) (_mergeable_bufs : bool)
    (mtod_hdr : NetRx.rx_mbuf -> Net.net_hdr_mrg_rxbuf)
    (m_adj : NetRx.packet -> Z -> NetRx.packet)
    (if_input : NetRx.packet -> NetRx.ifnet -> NetRx.ifnet)
    (refill_ring_cond : Vring.vring NetRx.rx_mbuf -> bool)
    (harness : nat -> list (Vring.used_elem NetRx.rx_mbuf))
    (fuel : nat) (s : NetRx.rx) (es : list (Vring.used_elem NetRx.rx_mbuf)) :
  (forall i, harness i = []) ->
  Vring.vq_used (Sched.queue (NetRx.rx_w s)) = es ->
  es <> [] ->
  Forall (fun e => (NetRx.u32 (Vring.ue_len e)
                    < NetRx.u32 (_hdr_size + NetRx.ETHER_HDR_LEN hh))%Z) es ->
  (length es <= fuel)%nat ->
  exists s',
    NetRx.receiver_round hh bsd_hh _hdr_size _mergeable_bufs mtod_hdr m_adj
      if_input refill_ring_cond harness fuel s = Some s' /\
    NetRx.delivered s' = NetRx.delivered s /\
    NetRx.freed s' =
      NetRx.freed s ++ map (fun e => Vring.ch_cookie (Vring.ue_chain e)) es /\
    NetRx.rx_drops (NetRx.stats s') =
      NetRx.u64 (NetRx.rx_drops (NetRx.stats s) + Z.of_nat (length es)) /\
    NetRx.rx_packets (NetRx.stats s') = NetRx.u64 (NetRx.rx_packets (NetRx.stats s)) /\
    NetRx.rx_bytes (NetRx.stats s') = NetRx.u64 (NetRx.rx_bytes (NetRx.stats s)) /\
    NetRx.rx_csum (NetRx.stats s') = NetRx.u64 (NetRx.rx_csum (NetRx.stats s)) /\
    NetRx.rx_csum_err (NetRx.stats s') =
      NetRx.u64 (NetRx.rx_csum_err (NetRx.stats s)) /\
    NetRx._ifn s' = NetRx._ifn s /\
    Vring.vq_used (Sched.queue (NetRx.rx_w s')) = [].
Proof.
  intros quiet Hu Hne Hs Hf.
  destruct fuel as [|fuel]; [destruct es; [congruence|cbn in Hf; lia]|].
  destruct (wait_for_queue_ready harness quiet fuel (NetRx.rx_w s)) as (w & W & Q);
    [rewrite Hu; exact Hne|].
  unfold NetRx.receiver_round. rewrite W. cbn [mbind option_bind].
  unfold NetRx.fetch.
  set (s0 := NetRx.set_rx_w (Sched.tick harness w) s).
  assert (Q0 : Sched.queue (NetRx.rx_w s0) = Sched.queue (NetRx.rx_w s))
    by (unfold s0; cbn [NetRx.rx_w NetRx.set_rx_w]; rewrite tick_quiet; assumption).
  replace (Vring.get_buf_elem (Sched.queue (Sched.tick harness w)))
    with (Vring.get_buf_elem (Sched.queue (NetRx.rx_w s0))) by reflexivity.
  destruct (drain_undersized hh bsd_hh _hdr_size _mergeable_bufs mtod_hdr m_adj
              if_input harness quiet es (S fuel) s0 NetRx.zero_locals)
    as (s1 & l1 & D & H1 & H2 & H3 & H4 & H5 & H6 & _ & _ & _ & H10 & H11 & H12
        & H13 & H14); [rewrite Q0; exact Hu | exact Hs | exact Hf | reflexivity |].
  rewrite D. cbn [mbind option_bind].
  destruct (refill_keeps hh refill_ring_cond s1) as (K1 & K2 & K3 & K4 & K5).
  eexists. split; [reflexivity|].
  cbn [NetRx.delivered NetRx.freed NetRx.stats NetRx._ifn NetRx.rx_w
       NetRx.update_stats NetRx.rx_packets NetRx.rx_bytes NetRx.rx_drops
       NetRx.rx_csum NetRx.rx_csum_err].
  rewrite K1, K2, K3, K4, K5, H1, H2, H3, H4, H6, H10, H11, H12, H13, H14.
  cbn [NetRx.zero_locals NetRx.l_rx_packets NetRx.l_rx_bytes NetRx.l_rx_drops
       NetRx.l_csum_ok NetRx.l_csum_err].
  rewrite !Z.add_0_l, !Z.add_0_r, u64_add_r.
  split_and!; reflexivity.
Qed.

Lemma receiver_round_undersized_witness :
  let mk := fun paddr =>
    {| NetRx.m_hdr := {| Net.mh_len := 2048; Net.mh_data := replicate 20 0%Z;
                         Net.mh_paddr := paddr; Net.csum_flags := 0;
                         Net.csum_data := 0 |};
       NetRx.mh_flags := 2; NetRx.pkthdr_len := 0;
       NetRx.pkthdr_rcvif := false |} in
  let done := fun paddr len =>
    {| Vring.ue_chain :=
         {| Vring.ch_cookie := mk paddr;
            Vring.ch_sg := [{| Vring.sg_dir_of := Vring.SgIn;
                               Vring.sg_paddr := paddr;
                               Vring.sg_len := 2048 |}] |};
       Vring.ue_len := len |} in
  let s :=
    {| NetRx.rx_w :=
         {| Sched.now := 0;
            Sched.queue :=
              Vring.set_used [done 0x1000%Z 20%Z; done 0x2000%Z 23%Z]
                (Vring.set_free 2 (Vring.new_vring 4 0));
            Sched.trace := [] |};
       NetRx.stats := {| NetRx.rx_packets := 7; NetRx.rx_bytes := 700;
                         NetRx.rx_drops := 0; NetRx.rx_csum := 0;
                         NetRx.rx_csum_err := 0 |};
       NetRx._ifn := {| NetRx.if_flags := 1; NetRx.if_drv_flags := 0x40;
                        NetRx.if_capenable := 0; NetRx.if_mtu := 1500 |};
       NetRx.delivered := []; NetRx.freed := []; NetRx.allocs := [] |} in
  exists s',
    NetRx.receiver_round NetRx.freebsd Net.bsd 10 false (fun _ => Net.zero_hdr)
      (fun p _ => p) (fun _ i => i) (fun _ => false) (fun _ => []) 2 s = Some s' /\
    NetRx.delivered s' = [] /\
    NetRx.freed s' = [mk 0x1000%Z; mk 0x2000%Z] /\
    NetRx.rx_drops (NetRx.stats s') = 2%Z /\
    NetRx.rx_packets (NetRx.stats s') = 7%Z.
Proof.
  intros mk done s.
  destruct (receiver_round_undersized NetRx.freebsd Net.bsd 10 false
              (fun _ => Net.zero_hdr) (fun p _ => p) (fun _ i => i)
              (fun _ => false) (fun _ => []) 2 s
              [done 0x1000%Z 20%Z; done 0x2000%Z 23%Z])
    as (s' & R & H1 & H2 & H3 & H4 & _).
  - reflexivity.
  - reflexivity.
  - discriminate.
  - repeat constructor.
  - cbn. lia.
  - exists s'. split; [exact R|]. split; [exact H1|]. split; [exact H2|].
    split; [exact H3 | exact H4].
Defined.

(** *** Merged buffers *)

Section RxFragments.
Import Vring Sched NetRx.
Local Open Scope Z_scope.
Variable hh : if_hh.
Variable harness : nat -> list (used_elem rx_mbuf).
Hypothesis quiet : forall i, harness i = [].

(** The length a fragment ends up with, and the fragment as linked. *)
Abbreviation frag_len :=
  (fun e : used_elem rx_mbuf =>
     if Net.mh_len (m_hdr (ch_cookie (ue_chain e))) <? s32 (u32 (ue_len e))
     then u32 (Net.mh_len (m_hdr (ch_cookie (ue_chain e))))
     else u32 (ue_len e)).

Abbreviation linked :=
  (fun e : used_elem rx_mbuf =>
     {| m_hdr := set_mh_len (s32 (frag_len e)) (m_hdr (ch_cookie (ue_chain e)));
        mh_flags := Z.land (mh_flags (ch_cookie (ue_chain e)))
                      (Z.lnot (M_PKTHDR hh));
        pkthdr_len := pkthdr_len (ch_cookie (ue_chain e));
        pkthdr_rcvif := pkthdr_rcvif (ch_cookie (ue_chain e)) |}).

Lemma s32_add_l a b : s32 (s32 a + b) = s32 (a + b).
Proof.
  unfold s32.
  replace (((a + 2 ^ 31) mod 2 ^ 32 - 2 ^ 31 + b + 2 ^ 31))
    with ((a + 2 ^ 31) mod 2 ^ 32 + b) by lia.
  rewrite Z.add_mod_idemp_l by lia. do 2 f_equal. lia.
Qed.

Lemma s32_small z : - 2 ^ 31 <= z < 2 ^ 31 -> s32 z = z.
Proof. intros H. unfold s32. rewrite Z.mod_small by lia. lia. Qed.

(** The fragment loop on a quiet queue, in closed form. *)
Lemma read_fragments_quiet n : forall w head_len frags l,
  exists w',
    read_fragments hh harness n w head_len frags l =
      (w',
       fold_left (fun h e => s32 (h + frag_len e)) (take n (vq_used (queue w)))
         head_len,
       frags ++ map linked (take n (vq_used (queue w))),
       if (length (vq_used (queue w)) <? n)%nat then drop_one l else l) /\
    vq_used (queue w') = drop n (vq_used (queue w)) /\
    vq_free (queue w') =
      (vq_free (queue w)
       + list_sum (map (fun e => length (ch_sg (ue_chain e)))
                     (take n (vq_used (queue w)))))%nat /\
    vq_avail (queue w') = vq_avail (queue w) /\
    vq_kicks (queue w') = vq_kicks (queue w).
Proof using quiet.
  induction n as [|n IH]; intros w head_len frags l.
  - exists w. cbn [NetRx.read_fragments take drop fold_left map list_sum].
    rewrite app_nil_r, Nat.add_0_r.
    replace (length (vq_used (queue w)) <? 0)%nat with false
      by (symmetry; apply Nat.ltb_ge; lia).
    split_and!; reflexivity.
  - cbn [NetRx.read_fragments]. unfold NetRx.fetch.
    assert (Q : queue (tick harness w) = queue w)
      by (cbn [tick queue]; now rewrite quiet).
    rewrite Q. unfold get_buf_elem.
    destruct (vq_used (queue w)) as [|e es] eqn:U.
    + exists (tick harness w). rewrite Q, U.
      cbn [take drop fold_left map list_sum length]. rewrite app_nil_r, Nat.add_0_r.
      split_and!; reflexivity.
    + set (w1 := on_queue get_buf_finalize (tick harness w)).
      assert (U1 : vq_used (queue w1) = es)
        by (unfold w1; cbn [on_queue queue]; rewrite Q; unfold get_buf_finalize;
            rewrite U; reflexivity).
      assert (F1 : vq_free (queue w1) =
                   (vq_free (queue w) + length (ch_sg (ue_chain e)))%nat)
        by (unfold w1; cbn [on_queue queue]; rewrite Q; unfold get_buf_finalize;
            rewrite U; reflexivity).
      assert (A1 : vq_avail (queue w1) = vq_avail (queue w))
        by (unfold w1; cbn [on_queue queue]; rewrite Q; unfold get_buf_finalize;
            rewrite U; reflexivity).
      assert (K1 : vq_kicks (queue w1) = vq_kicks (queue w))
        by (unfold w1; cbn [on_queue queue]; rewrite Q; unfold get_buf_finalize;
            rewrite U; reflexivity).
      clearbody w1.
      match goal with |- context [read_fragments hh harness n w1 ?h ?f l] =>
        destruct (IH w1 h f l) as (w' & R & H1 & H2 & H3 & H4)
      end.
      exists w'. rewrite R, H1, H2, H3, H4, U1, F1, A1, K1.
      cbn [take drop fold_left map list_sum length].
      rewrite <- app_assoc.
      split_and!; try reflexivity.
      unfold list_sum. cbn [fold_right]. lia.
Qed.

End RxFragments.

Lemma fold_s32 {A} (f : A -> Z) (l : list A) : forall h,
  NetRx.s32 h = h ->
  fold_left (fun h e => NetRx.s32 (h + f e)) l h =
  NetRx.s32 (h + fold_right Z.add 0%Z (map f l)).
Proof.
  induction l as [|e l IH]; intros h Hh.
  - cbn. now rewrite Z.add_0_r, Hh.
  - cbn [fold_left map fold_right]. rewrite IH.
    + rewrite s32_add_l. f_equal. lia.
    + rewrite <- (Z.add_0_r (NetRx.s32 (h + f e))) at 1.
      rewrite s32_add_l. now rewrite Z.add_0_r.
Qed.

(** X16. Assembling a packet from merged buffers.  On a quiet queue the
    loop [while (--nbufs > 0)] run for [n] rounds takes the first [n]
    completions of the used ring (all of them if there are fewer) and gives
    their descriptors back; each buffer is linked behind the head with its
    length clamped to what the host reported or to the buffer's own length,
    whichever is smaller, and with [M_PKTHDR] cleared; the head's
    [pkthdr.len] grows by the sum of those lengths (as an [int]); and one
    drop is counted exactly when the ring runs out before [n] fragments were
    found. *)
Theorem read_fragments_assembles
    (hh : NetRx.if_hh) (harness : nat -> list (Vring.used_elem NetRx.rx_mbuf))
    (n : nat) (w : Sched.world NetRx.rx_mbuf) (head_len : Z) (l : NetRx.rx_locals)
    (es : list (Vring.used_elem NetRx.rx_mbuf)) :
  (forall i, harness i = []) ->
  Vring.vq_used (Sched.queue w) = es ->
  Forall (fun e =>
            (0 <= Vring.ue_len e < 2 ^ 31)%Z /\
            (0 <= Net.mh_len (NetRx.m_hdr (Vring.ch_cookie (Vring.ue_chain e)))
             < 2 ^ 31)%Z) (take n es) ->
  NetRx.s32 head_len = head_len ->
  let len_of := fun e : Vring.used_elem NetRx.rx_mbuf =>
    Z.min (Net.mh_len (NetRx.m_hdr (Vring.ch_cookie (Vring.ue_chain e))))
          (Vring.ue_len e) in
  exists w',
    NetRx.read_fragments hh harness n w head_len [] l =
      (w',
       NetRx.s32 (head_len + fold_right Z.add 0%Z (map len_of (take n es))),
       map (fun e =>
              {| NetRx.m_hdr :=
                   NetRx.set_mh_len (len_of e)
                     (NetRx.m_hdr (Vring.ch_cookie (Vring.ue_chain e)));
                 NetRx.mh_flags :=
                   Z.land (NetRx.mh_flags (Vring.ch_cookie (Vring.ue_chain e)))
                     (Z.lnot (NetRx.M_PKTHDR hh));
                 NetRx.pkthdr_len :=
                   NetRx.pkthdr_len (Vring.ch_cookie (Vring.ue_chain e));
                 NetRx.pkthdr_rcvif :=
                   NetRx.pkthdr_rcvif (Vring.ch_cookie (Vring.ue_chain e)) |})
           (take n es),
       if (length es <? n)%nat then NetRx.drop_one l else l) /\
    Vring.vq_used (Sched.queue w') = drop n es /\
    Vring.vq_free (Sched.queue w') =
      (Vring.vq_free (Sched.queue w)
       + list_sum (map (fun e => length (Vring.ch_sg (Vring.ue_chain e)))
                     (take n es)))%nat.
Proof.
  intros quiet Hu Hsane Hh len_of.
  destruct (read_fragments_quiet hh harness quiet n w head_len [] l)
    as (w' & R & H1 & H2 & _ & _).
  rewrite Hu in R, H1, H2. exists w'. split; [|split; assumption].
  rewrite R. cbn [app].
  assert (Hlen : Forall (fun e =>
      (if (Net.mh_len (NetRx.m_hdr (Vring.ch_cookie (Vring.ue_chain e)))
           <? NetRx.s32 (NetRx.u32 (Vring.ue_len e)))%Z
       then NetRx.u32 (Net.mh_len (NetRx.m_hdr (Vring.ch_cookie (Vring.ue_chain e))))
       else NetRx.u32 (Vring.ue_len e)) = len_of e) (take n es)).
  { eapply Forall_impl; [exact Hsane|]. intros e [He1 He2]. cbv beta.
    assert (U : NetRx.u32 (Vring.ue_len e) = Vring.ue_len e)
      by (unfold NetRx.u32; apply Z.mod_small; lia).
    rewrite U, s32_small by lia. unfold len_of.
    destruct (Z.ltb_spec (Net.mh_len (NetRx.m_hdr (Vring.ch_cookie (Vring.ue_chain e))))
                (Vring.ue_len e)).
    - unfold NetRx.u32. rewrite Z.mod_small by lia. lia.
    - lia. }
  match goal with |- (_, ?a, ?b, _) = (_, ?a', ?b', _) =>
    assert (HA : a = a'); [|assert (HB : b = b'); [|rewrite HA, HB; reflexivity]]
  end.
  - match goal with |- fold_left (fun h e => NetRx.s32 (h + @?f e)) _ _ = _ =>
      rewrite (fold_s32 f) by exact Hh
    end.
    do 3 f_equal. apply Forall_fmap_ext_1. exact Hlen.
  - apply Forall_fmap_ext_1.
    assert (Hboth := List.Forall_and Hsane Hlen).
    eapply Forall_impl; [exact Hboth|].
    intros e [[He1 He2] He]. cbv beta in He |- *. rewrite He.
    rewrite s32_small; [reflexivity|]. unfold len_of. lia.
Qed.

Lemma read_fragments_assembles_witness :
  let mk := fun paddr =>
    {| NetRx.m_hdr := {| Net.mh_len := 2048; Net.mh_data := [];
                         Net.mh_paddr := paddr; Net.csum_flags := 0;
                         Net.csum_data := 0 |};
       NetRx.mh_flags := 3; NetRx.pkthdr_len := 0;
       NetRx.pkthdr_rcvif := false |} in
  let done := fun paddr len =>
    {| Vring.ue_chain :=
         {| Vring.ch_cookie := mk paddr;
            Vring.ch_sg := [{| Vring.sg_dir_of := Vring.SgIn;
                               Vring.sg_paddr := paddr;
                               Vring.sg_len := 2048 |}] |};
       Vring.ue_len := len |} in
  let w := {| Sched.now := 0;
              Sched.queue :=
                Vring.set_used [done 0x1000%Z 1000%Z; done 0x2000%Z 3000%Z]
                  (Vring.set_free 0 (Vring.new_vring 4 0));
              Sched.trace := [] |} in
  exists w' frags,
    NetRx.read_fragments NetRx.freebsd (fun _ => []) 2 w 1500 [] NetRx.zero_locals
      = (w', 4548%Z, frags, NetRx.zero_locals) /\
    map (fun m => Net.mh_len (NetRx.m_hdr m)) frags = [1000%Z; 2048%Z] /\
    map NetRx.mh_flags frags = [1%Z; 1%Z] /\
    Vring.vq_used (Sched.queue w') = [] /\
    Vring.vq_free (Sched.queue w') = 2%nat.
Proof.
  intros mk done w.
  destruct (read_fragments_assembles NetRx.freebsd (fun _ => []) 2 w 1500
              NetRx.zero_locals [done 0x1000%Z 1000%Z; done 0x2000%Z 3000%Z])
    as (w' & R & H1 & H2).
  - reflexivity.
  - reflexivity.
  - repeat constructor; cbn; lia.
  - reflexivity.
  - eexists w', _. split; [exact R|]. split; [reflexivity|].
    split; [reflexivity|]. split; [exact H1 | exact H2].
Defined.

Section RxTruncated.
Import Vring Sched NetRx.
Local Open Scope Z_scope.
Variable hh : if_hh.
Variable bsd_hh : Net.bsd_hh.
Variable _hdr_size : Z.
Variable _mergeable_bufs : bool.
Variable mtod_hdr : rx_mbuf -> Net.net_hdr_mrg_rxbuf.
Variable m_adj : packet -> Z -> packet.
Variable if_input : packet -> ifnet -> ifnet.
Variable harness : nat -> list (used_elem rx_mbuf).
Hypothesis quiet : forall i, harness i = [].

Abbreviation frag_len :=
  (fun e : used_elem rx_mbuf =>
     if Net.mh_len (m_hdr (ch_cookie (ue_chain e))) <? s32 (u32 (ue_len e))
     then u32 (Net.mh_len (m_hdr (ch_cookie (ue_chain e))))
     else u32 (ue_len e)).

Abbreviation linked :=
  (fun e : used_elem rx_mbuf =>
     {| m_hdr := set_mh_len (s32 (frag_len e)) (m_hdr (ch_cookie (ue_chain e)));
        mh_flags := Z.land (mh_flags (ch_cookie (ue_chain e)))
                      (Z.lnot (M_PKTHDR hh));
        pkthdr_len := pkthdr_len (ch_cookie (ue_chain e));
        pkthdr_rcvif := pkthdr_rcvif (ch_cookie (ue_chain e)) |}).

(** The head of a packet as the loop sets it up, with the total length
    [total]. *)
Abbreviation rx_head :=
  (fun (e : used_elem rx_mbuf) (total : Z) =>
     {| m_hdr := set_mh_len (s32 (u32 (ue_len e)))
                   (set_csum_flags 0 (m_hdr (ch_cookie (ue_chain e))));
        mh_flags := mh_flags (ch_cookie (ue_chain e));
        pkthdr_len := total;
        pkthdr_rcvif := true |}).

(** A packet whose fragments run out: it is handed up with the fragments
    found, and counted as a drop and as a packet. *)
Lemma drain_truncated fuel s l e es :
  vq_used (queue (rx_w s)) = e :: es ->
  u32 (_hdr_size + ETHER_HDR_LEN hh) <= u32 (ue_len e) ->
  (length es <
   Z.to_nat ((if negb _mergeable_bufs then 1
              else Net.num_buffers (mtod_hdr (ch_cookie (ue_chain e)))) - 1))%nat ->
  exists s' l' p mh,
    NetRx.drain hh bsd_hh _hdr_size _mergeable_bufs mtod_hdr m_adj if_input harness
      (S fuel) (Some (ch_cookie (ue_chain e), ue_len e)) s l = Some (s', l') /\
    delivered s' = delivered s ++ [p] /\
    (let q := m_adj (rx_head e (fold_left (fun h e => s32 (h + frag_len e)) es
                                  (s32 (u32 (ue_len e)))),
                     map linked es) (s32 (u32 _hdr_size)) in
     p = (set_m_hdr mh (fst q), snd q)) /\
    freed s' = freed s /\ stats s' = stats s /\ allocs s' = allocs s /\
    _ifn s' = if_input p (_ifn s) /\
    vq_used (queue (rx_w s')) = [] /\
    l_rx_drops l' = u64 (l_rx_drops l + 1) /\
    l_rx_packets l' = u64 (l_rx_packets l + 1) /\
    l_rx_bytes l' = u64 (l_rx_bytes l + pkthdr_len (fst p)).
Proof using quiet.
  intros Hu Hlong Hn.
  cbn [NetRx.drain].
  replace (u32 (ue_len e) <? u32 (_hdr_size + ETHER_HDR_LEN hh)) with false
    by (symmetry; apply Z.ltb_ge; exact Hlong).
  unfold NetRx.rx_packet.
  set (n := Z.to_nat _) in *.
  set (w0 := rx_w (set_rx_w (on_queue get_buf_finalize (rx_w s)) s)).
  assert (U0 : vq_used (queue w0) = es)
    by (unfold w0; cbn [rx_w set_rx_w on_queue queue]; unfold get_buf_finalize;
        rewrite Hu; reflexivity).
  match goal with |- context [NetRx.read_fragments hh harness n w0 ?h [] l] =>
    destruct (read_fragments_quiet hh harness quiet n w0 h [] l)
      as (w1 & R & H1 & _)
  end.
  rewrite U0 in R, H1. rewrite take_ge in R by lia. rewrite drop_ge in H1 by lia.
  replace (length es <? n)%nat with true in R by (symmetry; apply Nat.ltb_lt; lia).
  cbn [pkthdr_len] in R |- *. rewrite R. cbn [app m_hdr mh_flags pkthdr_rcvif].
  destruct (m_adj _ _) as [m_head frags] eqn:MA.
  set (rxcsum := negb _ && negb _).
  destruct (if rxcsum then _ else _) as [bad mh] eqn:CS.
  cbn [_ifn set_rx_w].
  match goal with |- context [Z.land ?a ?b =? 0] =>
    destruct (Z.land a b =? 0) end.
  - eexists _, _, _, mh. split; [reflexivity|].
    cbn [delivered freed stats allocs _ifn rx_w set_rx_w l_rx_drops l_rx_packets
         l_rx_bytes drop_one fst snd set_m_hdr pkthdr_len].
    split_and!; try reflexivity; try exact H1.
  - unfold NetRx.fetch. cbn [rx_w].
    assert (Q : queue (tick harness w1) = queue w1)
      by (cbn [tick queue]; now rewrite quiet).
    rewrite Q. unfold get_buf_elem at 1. rewrite H1.
    eexists _, _, _, mh. split; [destruct fuel; reflexivity|].
    cbn [delivered freed stats allocs _ifn rx_w set_rx_w l_rx_drops l_rx_packets
         l_rx_bytes drop_one fst snd set_m_hdr pkthdr_len].
    rewrite Q.
    split_and!; try reflexivity; try exact H1.
Qed.

End RxTruncated.

(** X17. A packet announced with more buffers than the ring holds.  When
    the head of the used ring is long enough and its header asks for more
    fragments than there are completions behind it (the host posting nothing
    meanwhile), a round of [receiver] returns; the fragment loop counts one
    drop when the ring runs out, yet the packet is still handed to the upper
    layers, made of the head and the fragments that were found, and counted
    in [rx_packets] and [rx_bytes] as well; no buffer is freed and the used
    ring is left empty. *)
Theorem receiver_round_truncated
    (hh : NetRx.if_hh) (bsd_hh : Net.bsd_hh) (_hdr_size : Z) (_mergeable_bufs : bool)
    (mtod_hdr : NetRx.rx_mbuf -> Net.net_hdr_mrg_rxbuf)
    (m_adj : NetRx.packet -> Z -> NetRx.packet)
    (if_input : NetRx.packet -> NetRx.ifnet -> NetRx.ifnet)
    (refill_ring_cond : Vring.vring NetRx.rx_mbuf -> bool)
    (harness : nat -> list (Vring.used_elem NetRx.rx_mbuf))
    (fuel : nat) (s : NetRx.rx)
    (e : Vring.used_elem NetRx.rx_mbuf) (es : list (Vring.used_elem NetRx.rx_mbuf)) :
  (forall i, harness i = []) ->
  Vring.vq_used (Sched.queue (NetRx.rx_w s)) = e :: es ->
  (NetRx.u32 (_hdr_size + NetRx.ETHER_HDR_LEN hh) <= NetRx.u32 (Vring.ue_len e))%Z ->
  (length es <
   Z.to_nat ((if negb _mergeable_bufs then 1
              else Net.num_buffers
                     (mtod_hdr (Vring.ch_cookie (Vring.ue_chain e)))) - 1))%nat ->
  (1 <= fuel)%nat ->
  exists s' p,
    NetRx.receiver_round hh bsd_hh _hdr_size _mergeable_bufs mtod_hdr m_adj
      if_input refill_ring_cond harness fuel s = Some s' /\
    NetRx.delivered s' = NetRx.delivered s ++ [p] /\
    snd p =
      snd (m_adj
        ({| NetRx.m_hdr :=
              NetRx.set_mh_len (NetRx.s32 (NetRx.u32 (Vring.ue_len e)))
                (NetRx.set_csum_flags 0
                   (NetRx.m_hdr (Vring.ch_cookie (Vring.ue_chain e))));
            NetRx.mh_flags := NetRx.mh_flags (Vring.ch_cookie (Vring.ue_chain e));
            NetRx.pkthdr_len :=
              fold_left
                (fun h e =>
                   NetRx.s32
                     (h + (if (Net.mh_len
                                 (NetRx.m_hdr (Vring.ch_cookie (Vring.ue_chain e)))
                               <? NetRx.s32 (NetRx.u32 (Vring.ue_len e)))%Z
                           then NetRx.u32
                                  (Net.mh_len
                                     (NetRx.m_hdr
                                        (Vring.ch_cookie (Vring.ue_chain e))))
                           else NetRx.u32 (Vring.ue_len e))))
                es (NetRx.s32 (NetRx.u32 (Vring.ue_len e)));
            NetRx.pkthdr_rcvif := true |},
         map (fun e =>
                {| NetRx.m_hdr :=
                     NetRx.set_mh_len
                       (NetRx.s32
                          (if (Net.mh_len
                                 (NetRx.m_hdr (Vring.ch_cookie (Vring.ue_chain e)))
                               <? NetRx.s32 (NetRx.u32 (Vring.ue_len e)))%Z
                           then NetRx.u32
                                  (Net.mh_len
                                     (NetRx.m_hdr
                                        (Vring.ch_cookie (Vring.ue_chain e))))
                           else NetRx.u32 (Vring.ue_len e)))
                       (NetRx.m_hdr (Vring.ch_cookie (Vring.ue_chain e)));
                   NetRx.mh_flags :=
                     Z.land (NetRx.mh_flags (Vring.ch_cookie (Vring.ue_chain e)))
                       (Z.lnot (NetRx.M_PKTHDR hh));
                   NetRx.pkthdr_len :=
                     NetRx.pkthdr_len (Vring.ch_cookie (Vring.ue_chain e));
                   NetRx.pkthdr_rcvif :=
                     NetRx.pkthdr_rcvif (Vring.ch_cookie (Vring.ue_chain e)) |})
           es)
        (NetRx.s32 (NetRx.u32 _hdr_size))) /\
    NetRx.freed s' = NetRx.freed s /\
    NetRx._ifn s' = if_input p (NetRx._ifn s) /\
    Vring.vq_used (Sched.queue (NetRx.rx_w s')) = [] /\
    NetRx.rx_drops (NetRx.stats s') =
      NetRx.u64 (NetRx.rx_drops (NetRx.stats s) + 1) /\
    NetRx.rx_packets (NetRx.stats s') =
      NetRx.u64 (NetRx.rx_packets (NetRx.stats s) + 1) /\
    NetRx.rx_bytes (NetRx.stats s') =
      NetRx.u64 (NetRx.rx_bytes (NetRx.stats s) + NetRx.pkthdr_len (fst p)).
Proof.
  intros quiet Hu Hlong Hn Hf.
  destruct fuel as [|fuel]; [lia|].
  destruct (wait_for_queue_ready harness quiet fuel (NetRx.rx_w s)) as (w & W & Q);
    [rewrite Hu; discriminate|].
  unfold NetRx.receiver_round. rewrite W. cbn [mbind option_bind].
  unfold NetRx.fetch.
  set (s0 := NetRx.set_rx_w (Sched.tick harness w) s).
  assert (Q0 : Sched.queue (NetRx.rx_w s0) = Sched.queue (NetRx.rx_w s))
    by (unfold s0; cbn [NetRx.rx_w NetRx.set_rx_w]; rewrite tick_quiet; assumption).
  replace (Sched.queue (Sched.tick harness w)) with (Sched.queue (NetRx.rx_w s))
    by (rewrite <- Q0; reflexivity).
  unfold Vring.get_buf_elem at 1. rewrite Hu.
  destruct (drain_truncated hh bsd_hh _hdr_size _mergeable_bufs mtod_hdr m_adj
              if_input harness quiet fuel s0 NetRx.zero_locals e es)
    as (s1 & l1 & p & mh & D & H1 & H2 & H3 & H4 & H5 & H6 & H7 & H8 & H9 & H10);
    [rewrite Q0; exact Hu | exact Hlong | exact Hn |].
  rewrite D. cbn [mbind option_bind].
  destruct (refill_keeps hh refill_ring_cond s1) as (K1 & K2 & K3 & K4 & K5).
  eexists _, p. split; [reflexivity|].
  cbn [NetRx.delivered NetRx.freed NetRx.stats NetRx._ifn NetRx.rx_w
       NetRx.update_stats NetRx.rx_packets NetRx.rx_bytes NetRx.rx_drops
       NetRx.rx_csum NetRx.rx_csum_err].
  rewrite K1, K2, K3, K4, K5, H1, H3, H4, H6, H7, H8, H9, H10.
  cbn [NetRx.zero_locals NetRx.l_rx_packets NetRx.l_rx_bytes NetRx.l_rx_drops].
  rewrite !Z.add_0_l, !u64_add_r.
  cbv zeta in H2. rewrite H2. cbn [snd fst NetRx.set_m_hdr NetRx.pkthdr_len].
  split_and!; reflexivity.
Qed.

Lemma receiver_round_truncated_witness :
  let mk := fun paddr =>
    {| NetRx.m_hdr := {| Net.mh_len := 2048; Net.mh_data := replicate 74 0%Z;
                         Net.mh_paddr := paddr; Net.csum_flags := 0;
                         Net.csum_data := 0 |};
       NetRx.mh_flags := 2; NetRx.pkthdr_len := 0;
       NetRx.pkthdr_rcvif := false |} in
  let done :=
    {| Vring.ue_chain :=
         {| Vring.ch_cookie := mk 0x1000%Z;
            Vring.ch_sg := [{| Vring.sg_dir_of := Vring.SgIn;
                               Vring.sg_paddr := 0x1000;
                               Vring.sg_len := 2048 |}] |};
       Vring.ue_len := 74 |} in
  let mhdr := {| Net.hdr := Net.hdr Net.zero_hdr; Net.num_buffers := 3 |} in
  let s :=
    {| NetRx.rx_w :=
         {| Sched.now := 0;
            Sched.queue :=
              Vring.set_used [done] (Vring.set_free 3 (Vring.new_vring 4 0));
            Sched.trace := [] |};
       NetRx.stats := {| NetRx.rx_packets := 0; NetRx.rx_bytes := 0;
                         NetRx.rx_drops := 0; NetRx.rx_csum := 0;
                         NetRx.rx_csum_err := 0 |};
       NetRx._ifn := {| NetRx.if_flags := 1; NetRx.if_drv_flags := 0x40;
                        NetRx.if_capenable := 0; NetRx.if_mtu := 1500 |};
       NetRx.delivered := []; NetRx.freed := []; NetRx.allocs := [] |} in
  exists s' p,
    NetRx.receiver_round NetRx.freebsd Net.bsd 12 true (fun _ => mhdr)
      (fun p _ => p) (fun _ i => i) (fun _ => false) (fun _ => []) 1 s = Some s' /\
    NetRx.delivered s' = [p] /\
    snd p = [] /\
    NetRx.rx_drops (NetRx.stats s') = 1%Z /\
    NetRx.rx_packets (NetRx.stats s') = 1%Z.
Proof.
  intros mk done mhdr s.
  destruct (receiver_round_truncated NetRx.freebsd Net.bsd 12 true (fun _ => mhdr)
              (fun p _ => p) (fun _ i => i) (fun _ => false) (fun _ => []) 1 s
              done [])
    as (s' & p & R & H1 & H2 & _ & _ & _ & H6 & H7 & _).
  - reflexivity.
  - reflexivity.
  - vm_compute. discriminate.
  - cbn. lia.
  - lia.
  - exists s', p. split; [exact R|]. split; [exact H1|]. split; [exact H2|].
    split; [exact H6 | exact H7].
Defined.

(** ** The network device: interface hooks *)

(** X18. [if_ioctl] with [SIOCSIFFLAGS] mirrors [IFF_UP] into
    [IFF_DRV_RUNNING]: it returns 0, the running bits of [if_drv_flags] are
    set when some bit of [IFF_UP] is set in [if_flags] and cleared otherwise,
    every other bit of [if_drv_flags] and every other field are as before,
    [ether_ioctl] is not consulted, and a second call changes nothing.
    [SIOCSIFMTU] is answered with 0 without touching the interface: the MTU
    stays what it was. *)
Theorem if_ioctl_flags
    {caddr_t : Type} (hh : NetRx.if_hh)
    (ether_ioctl : NetRx.ifnet -> Z -> caddr_t -> Z * NetRx.ifnet)
    (ifp : NetRx.ifnet) (data : caddr_t) :
  NetRx.SIOCSIFFLAGS hh <> NetRx.SIOCSIFMTU hh ->
  let r := NetRx.if_ioctl hh ether_ioctl ifp (NetRx.SIOCSIFFLAGS hh) data in
  fst r = 0%Z /\
  Z.land (NetRx.if_drv_flags (snd r)) (NetRx.IFF_DRV_RUNNING hh) =
    (if (Z.land (NetRx.if_flags ifp) (NetRx.IFF_UP hh) =? 0)%Z then 0%Z
     else NetRx.IFF_DRV_RUNNING hh) /\
  Z.land (NetRx.if_drv_flags (snd r)) (Z.lnot (NetRx.IFF_DRV_RUNNING hh)) =
    Z.land (NetRx.if_drv_flags ifp) (Z.lnot (NetRx.IFF_DRV_RUNNING hh)) /\
  NetRx.if_flags (snd r) = NetRx.if_flags ifp /\
  NetRx.if_capenable (snd r) = NetRx.if_capenable ifp /\
  NetRx.if_mtu (snd r) = NetRx.if_mtu ifp /\
  NetRx.if_ioctl hh ether_ioctl (snd r) (NetRx.SIOCSIFFLAGS hh) data = (0%Z, snd r) /\
  NetRx.if_ioctl hh ether_ioctl ifp (NetRx.SIOCSIFMTU hh) data = (0%Z, ifp).
Proof.
  intros Hd r. subst r. unfold NetRx.if_ioctl.
  replace (NetRx.SIOCSIFFLAGS hh =? NetRx.SIOCSIFMTU hh)%Z with false
    by (symmetry; apply Z.eqb_neq; exact Hd).
  rewrite !Z.eqb_refl.
  assert (B1 : forall d R, Z.land (Z.lor d R) R = R).
  { intros d R. apply Z.bits_inj'. intros i _.
    rewrite Z.land_spec, Z.lor_spec. destruct (Z.testbit d i), (Z.testbit R i);
      reflexivity. }
  assert (B2 : forall d R, Z.land (Z.land d (Z.lnot R)) R = 0%Z).
  { intros d R. apply Z.bits_inj'. intros i Hi.
    rewrite !Z.land_spec, Z.lnot_spec, Z.bits_0 by exact Hi.
    destruct (Z.testbit d i), (Z.testbit R i); reflexivity. }
  assert (B3 : forall d R, Z.land (Z.lor d R) (Z.lnot R) = Z.land d (Z.lnot R)).
  { intros d R. apply Z.bits_inj'. intros i Hi.
    rewrite !Z.land_spec, Z.lor_spec, Z.lnot_spec by exact Hi.
    destruct (Z.testbit d i), (Z.testbit R i); reflexivity. }
  assert (B4 : forall d R, Z.land (Z.land d (Z.lnot R)) (Z.lnot R)
                           = Z.land d (Z.lnot R)).
  { intros d R. now rewrite <- Z.land_assoc, Z.land_diag. }
  assert (B5 : forall d R, Z.lor (Z.lor d R) R = Z.lor d R).
  { intros d R. now rewrite <- Z.lor_assoc, Z.lor_diag. }
  destruct (Z.land (NetRx.if_flags ifp) (NetRx.IFF_UP hh) =? 0)%Z eqn:Up;
    cbn [negb fst snd NetRx.set_if_drv_flags NetRx.if_drv_flags NetRx.if_flags
         NetRx.if_capenable NetRx.if_mtu].
  - rewrite Up. cbn [negb]. unfold NetRx.set_if_drv_flags.
    cbn [NetRx.if_drv_flags NetRx.if_flags NetRx.if_capenable NetRx.if_mtu].
    rewrite B2, !B4. split_and!; reflexivity.
  - rewrite Up. cbn [negb]. unfold NetRx.set_if_drv_flags.
    cbn [NetRx.if_drv_flags NetRx.if_flags NetRx.if_capenable NetRx.if_mtu].
    rewrite B1, B3, B5. split_and!; reflexivity.
Qed.

Lemma if_ioctl_flags_witness :
  let ifp := {| NetRx.if_flags := 0x8802; NetRx.if_drv_flags := 0x140;
                NetRx.if_capenable := 0; NetRx.if_mtu := 1500 |} in
  NetRx.if_ioctl NetRx.freebsd (fun i (_ : Z) (_ : unit) => (22%Z, i)) ifp
    0x80206910 tt =
    (0%Z, {| NetRx.if_flags := 0x8802; NetRx.if_drv_flags := 0x100;
             NetRx.if_capenable := 0; NetRx.if_mtu := 1500 |}) /\
  fst (NetRx.if_ioctl NetRx.freebsd (fun i (_ : Z) (_ : unit) => (22%Z, i)) ifp
         (NetRx.SIOCSIFFLAGS NetRx.freebsd) tt) = 0%Z.
Proof.
  intros ifp. split; [reflexivity|].
  apply (if_ioctl_flags NetRx.freebsd (fun i (_ : Z) (_ : unit) => (22%Z, i)) ifp tt).
  discriminate.
Defined.

(** *** Statistics *)

Section FillStats.
Import NetRx.
Local Open Scope Z_scope.
Variable _rxq : list rxq_stats.
Variable _txq : list Net.txq_stats.

(** The output counters are all zero. *)
Abbreviation ozero :=
  (fun out : if_data =>
     ifi_oerrors out = 0 /\ ifi_obytes out = 0 /\ ifi_opackets out = 0).

(** A transmit queue that has counted nothing. *)
Abbreviation silent :=
  (fun t : Net.txq_stats =>
     u64 (Net.tx_err t + Net.tx_drops t) = 0 /\ u64 (Net.tx_bytes t) = 0 /\
     u64 (Net.tx_packets t) = 0).

Abbreviation total :=
  (fun (f : rxq_stats -> Z) (l : list rxq_stats) => fold_right Z.add 0 (map f l)).

Lemma fill_qstats_tx_cases t out :
  (ozero out /\
   fill_qstats_tx t out =
     Filled {| ifi_ipackets := ifi_ipackets out; ifi_ibytes := ifi_ibytes out;
               ifi_iqdrops := ifi_iqdrops out; ifi_ierrors := ifi_ierrors out;
               ifi_opackets := u64 (Net.tx_packets t);
               ifi_obytes := u64 (Net.tx_bytes t);
               ifi_oerrors := u64 (Net.tx_err t + Net.tx_drops t) |}) \/
  (~ ozero out /\ fill_qstats_tx t out = AssertFailed).
Proof.
  unfold fill_qstats_tx.
  destruct (ifi_oerrors out =? 0) eqn:E1; cbn [andb];
    [|right; split; [|reflexivity]; apply Z.eqb_neq in E1; tauto].
  destruct (ifi_obytes out =? 0) eqn:E2; cbn [andb];
    [|right; split; [|reflexivity]; apply Z.eqb_neq in E2; tauto].
  destruct (ifi_opackets out =? 0) eqn:E3; cbn [andb];
    [|right; split; [|reflexivity]; apply Z.eqb_neq in E3; tauto].
  apply Z.eqb_eq in E1, E2, E3. left. split; [auto|].
  rewrite E1, E2, E3, !Z.add_0_l, u64_u64. reflexivity.
Qed.

Lemma fill_stats_from_spec n : forall idx out,
  (idx + n <= length _rxq)%nat -> (idx + n <= length _txq)%nat ->
  match fill_stats_from n idx _rxq _txq out with
  | Filled out' =>
      (n = 0%nat /\ out' = out) \/
      (n <> 0%nat /\ ozero out /\
       Forall silent (take (n - 1) (drop idx _txq)) /\
       (exists t, _txq !! (idx + n - 1)%nat = Some t /\
          ifi_opackets out' = u64 (Net.tx_packets t) /\
          ifi_obytes out' = u64 (Net.tx_bytes t) /\
          ifi_oerrors out' = u64 (Net.tx_err t + Net.tx_drops t)) /\
       ifi_ipackets out' =
         u64 (ifi_ipackets out + total rx_packets (take n (drop idx _rxq))) /\
       ifi_ibytes out' =
         u64 (ifi_ibytes out + total rx_bytes (take n (drop idx _rxq))) /\
       ifi_iqdrops out' =
         u64 (ifi_iqdrops out + total rx_drops (take n (drop idx _rxq))) /\
       ifi_ierrors out' =
         u64 (ifi_ierrors out + total rx_csum_err (take n (drop idx _rxq))))
  | AssertFailed =>
      n <> 0%nat /\
      ~ (ozero out /\ Forall silent (take (n - 1) (drop idx _txq)))
  | OutOfBounds => False
  end.
Proof.
  induction n as [|n IH]; intros idx out Hr Ht; [left; split; reflexivity|].
  cbn [fill_stats_from].
  destruct (lookup_lt_is_Some_2 _rxq idx) as [r Er]; [lia|].
  destruct (lookup_lt_is_Some_2 _txq idx) as [t Et]; [lia|].
  rewrite Er, Et.
  pose proof (drop_S _ _ _ Er) as Dr. pose proof (drop_S _ _ _ Et) as Dt.
  destruct (fill_qstats_tx_cases t (fill_qstats_rx r out)) as [[Z0 ->] | [NZ ->]].
  2:{ split; [discriminate|]. intros [Hz _]. apply NZ. exact Hz. }
  cbn [fill_qstats_rx ifi_oerrors ifi_obytes ifi_opackets] in Z0.
  cbn [fill_qstats_rx ifi_ipackets ifi_ibytes ifi_iqdrops ifi_ierrors].
  specialize (IH (S idx)
    {| ifi_ipackets := u64 (ifi_ipackets out + rx_packets r);
       ifi_ibytes := u64 (ifi_ibytes out + rx_bytes r);
       ifi_iqdrops := u64 (ifi_iqdrops out + rx_drops r);
       ifi_ierrors := u64 (ifi_ierrors out + rx_csum_err r);
       ifi_opackets := u64 (Net.tx_packets t);
       ifi_obytes := u64 (Net.tx_bytes t);
       ifi_oerrors := u64 (Net.tx_err t + Net.tx_drops t) |}
    ltac:(lia) ltac:(lia)).
  destruct (fill_stats_from n (S idx) _rxq _txq _) as [out'| |].
  - right. split; [discriminate|]. split; [exact Z0|].
    destruct IH as [[-> ->] | (Hn & Hz & Hs & (t' & Et' & O1 & O2 & O3) & I1 & I2 & I3 & I4)].
    + cbn [Nat.sub take]. split; [constructor|].
      split; [exists t; replace (idx + 1 - 1)%nat with idx by lia; auto|].
      rewrite Dr. cbn [take map fold_right ifi_ipackets ifi_ibytes ifi_iqdrops
                       ifi_ierrors].
      rewrite !Z.add_0_r. split_and!; reflexivity.
    + cbn [ifi_oerrors ifi_obytes ifi_opackets ifi_ipackets ifi_ibytes ifi_iqdrops
           ifi_ierrors] in Hz, I1, I2, I3, I4.
      replace (S n - 1)%nat with (S (n - 1)) by lia.
      rewrite Dt, Dr. cbn [take map fold_right].
      split; [constructor; [exact Hz | exact Hs]|].
      split; [exists t'; replace (idx + S n - 1)%nat with (S idx + n - 1)%nat by lia;
              auto|].
      rewrite I1, I2, I3, I4, !u64_add_l.
      split_and!; f_equal; lia.
  - split; [discriminate|]. destruct IH as [Hn IH]. intros [_ Hs]. apply IH.
    replace (S n - 1)%nat with (S (n - 1)) in Hs by lia.
    rewrite Dt in Hs. cbn [take] in Hs. apply Forall_cons in Hs as [Hs1 Hs2].
    split; [exact Hs1 | exact Hs2].
  - exact IH.
Qed.

End FillStats.

(** X19. The assertion in [fill_qstats].  With at least one queue pair (and
    every pair set up), [if_getinfo] gets past its assertions exactly when
    the output counters copied from the interface are all zero and every
    transmit queue but the last has counted nothing (no packet, no byte, no
    error or drop, as [u64]); otherwise it dies on the [assert].  When it
    returns, the output counters it reports are those of the last transmit
    queue, and the input counters are the interface's plus the sums over
    the receive queues. *)
Theorem if_getinfo_asserts
    (if_data : NetRx.if_data) (_num_queues : Z)
    (_rxq : list NetRx.rxq_stats) (_txq : list Net.txq_stats) :
  let k := Z.to_nat (NetRx.u32 _num_queues / 2) in
  (1 <= k)%nat -> (k <= length _rxq)%nat -> (k <= length _txq)%nat ->
  let survives :=
    (NetRx.ifi_oerrors if_data = 0 /\ NetRx.ifi_obytes if_data = 0 /\
     NetRx.ifi_opackets if_data = 0)%Z /\
    Forall (fun t =>
              (NetRx.u64 (Net.tx_err t + Net.tx_drops t) = 0 /\
               NetRx.u64 (Net.tx_bytes t) = 0 /\
               NetRx.u64 (Net.tx_packets t) = 0)%Z) (take (k - 1) _txq) in
  match NetRx.if_getinfo if_data _num_queues _rxq _txq with
  | NetRx.Filled out =>
      survives /\
      (exists t, _txq !! (k - 1)%nat = Some t /\
         NetRx.ifi_opackets out = NetRx.u64 (Net.tx_packets t) /\
         NetRx.ifi_obytes out = NetRx.u64 (Net.tx_bytes t) /\
         NetRx.ifi_oerrors out = NetRx.u64 (Net.tx_err t + Net.tx_drops t)) /\
      NetRx.ifi_ipackets out =
        NetRx.u64 (NetRx.ifi_ipackets if_data
                   + fold_right Z.add 0%Z (map NetRx.rx_packets (take k _rxq))) /\
      NetRx.ifi_ibytes out =
        NetRx.u64 (NetRx.ifi_ibytes if_data
                   + fold_right Z.add 0%Z (map NetRx.rx_bytes (take k _rxq))) /\
      NetRx.ifi_iqdrops out =
        NetRx.u64 (NetRx.ifi_iqdrops if_data
                   + fold_right Z.add 0%Z (map NetRx.rx_drops (take k _rxq))) /\
      NetRx.ifi_ierrors out =
        NetRx.u64 (NetRx.ifi_ierrors if_data
                   + fold_right Z.add 0%Z (map NetRx.rx_csum_err (take k _rxq)))
  | NetRx.AssertFailed => ~ survives
  | NetRx.OutOfBounds => False
  end.
Proof.
  intros k Hk Hr Ht survives. subst survives.
  unfold NetRx.if_getinfo, NetRx.fill_stats. fold k.
  pose proof (fill_stats_from_spec _rxq _txq k 0 if_data Hr Ht) as H.
  cbn [drop Nat.add] in H.
  destruct (NetRx.fill_stats_from k 0 _rxq _txq if_data) as [out| |].
  - destruct H as [[H _] | (_ & (Z1 & Z2 & Z3) & Hs & Hl & I1 & I2 & I3 & I4)];
      [lia|].
    split_and!; assumption.
  - destruct H as [_ H]. exact H.
  - exact H.
Qed.

Lemma if_getinfo_asserts_witness :
  let zero := {| NetRx.ifi_ipackets := 0; NetRx.ifi_ibytes := 0;
                 NetRx.ifi_iqdrops := 0; NetRx.ifi_ierrors := 0;
                 NetRx.ifi_opackets := 0; NetRx.ifi_obytes := 0;
                 NetRx.ifi_oerrors := 0 |} in
  let rx := {| NetRx.rx_packets := 3; NetRx.rx_bytes := 180; NetRx.rx_drops := 0;
               NetRx.rx_csum := 0; NetRx.rx_csum_err := 0 |} in
  let tx := {| Net.tx_packets := 1; Net.tx_bytes := 60; Net.tx_err := 0;
               Net.tx_drops := 0; Net.tx_csum := 0; Net.tx_tso := 0 |} in
  NetRx.if_getinfo zero 4 [rx; rx] [tx; tx] = NetRx.AssertFailed /\
  ~ Forall (fun t =>
              (NetRx.u64 (Net.tx_err t + Net.tx_drops t) = 0 /\
               NetRx.u64 (Net.tx_bytes t) = 0 /\
               NetRx.u64 (Net.tx_packets t) = 0)%Z) [tx].
Proof.
  intros zero rx tx. split; [reflexivity|].
  pose proof (if_getinfo_asserts zero 4 [rx; rx] [tx; tx]
                ltac:(vm_compute; lia) ltac:(vm_compute; lia) ltac:(vm_compute; lia))
    as H.
  cbv zeta in H.
  change (NetRx.if_getinfo zero 4 [rx; rx] [tx; tx]) with NetRx.AssertFailed in H.
  intros Hs. apply H. split; [repeat split|exact Hs].
Defined.

(** ** Waiting for a completion that arrives *)

Section Arrival.
Import Vring Sched WaitForQueue.
Context {cookie : Type}.
Variable harness : nat -> list (used_elem cookie).

Abbreviation wfq := (WaitForQueue.wait_for_queue used_ring_not_empty harness).

(** The completions posted from instant [t0] on, [n] instants long. *)
Abbreviation arrived := (fun t0 n : nat => concat (map harness (seq t0 n))).

(** What the host and the interrupt flag cannot change. *)
Abbreviation guest_side :=
  (fun q q' : vring cookie =>
     vq_num q' = vq_num q /\ vq_paddr q' = vq_paddr q /\ vq_free q' = vq_free q /\
     _sg_vec q' = _sg_vec q /\ vq_avail q' = vq_avail q /\
     vq_kicks q' = vq_kicks q).

(** Time passing from [w] to [w']: the used ring has grown by what the
    host posted meanwhile. *)
Abbreviation elapsed :=
  (fun (w w' : world cookie) (n : nat) =>
     now w' = (now w + n)%nat /\
     vq_used (queue w') = vq_used (queue w) ++ arrived (now w) n /\
     guest_side (queue w) (queue w')).

Lemma host_inject_guest_side (q : vring cookie) es :
  guest_side q (host_inject es q).
Proof.
  revert q; induction es as [|e es IH]; intros q; [split_and!; reflexivity|].
  unfold host_inject in *. cbn [fold_left].
  destruct (IH (host_push e q)) as (H1 & H2 & H3 & H4 & H5 & H6).
  rewrite H1, H2, H3, H4, H5, H6. split_and!; reflexivity.
Qed.

Lemma arrived_S t0 n : arrived t0 (S n) = arrived t0 n ++ harness (t0 + n)%nat.
Proof.
  cbv beta. rewrite seq_S, map_app, concat_app. cbn [map concat].
  now rewrite app_nil_r.
Qed.

Lemma elapsed_refl w : elapsed w w 0.
Proof.
  cbn [seq map concat]. rewrite Nat.add_0_r, app_nil_r. split_and!; reflexivity.
Qed.

Lemma elapsed_tick w : elapsed w (tick harness w) 1.
Proof.
  cbn [tick now queue seq map concat]. rewrite app_nil_r, vq_used_host_inject.
  split; [lia|]. split; [reflexivity|]. apply host_inject_guest_side.
Qed.

Lemma elapsed_trans w1 w2 w3 n m :
  elapsed w1 w2 n -> elapsed w2 w3 m -> elapsed w1 w3 (n + m).
Proof.
  cbv beta. intros (N1 & U1 & G1) (N2 & U2 & G2).
  split; [lia|]. split.
  - rewrite U2, U1, N1, <- app_assoc. f_equal.
    rewrite seq_app, map_app, concat_app. reflexivity.
  - destruct G1 as (A1 & A2 & A3 & A4 & A5 & A6).
    destruct G2 as (B1 & B2 & B3 & B4 & B5 & B6).
    split_and!; congruence.
Qed.

(** Steps that do not let time pass and touch the flag or the trace
    only. *)
Lemma elapsed_same w w' n (w'' : world cookie) :
  elapsed w w' n ->
  now w'' = now w' -> vq_used (queue w'') = vq_used (queue w') ->
  guest_side (queue w') (queue w'') ->
  elapsed w w'' n.
Proof.
  cbv beta. intros (N & U & G) Hn Hu Hg. split; [congruence|]. split; [congruence|].
  destruct G as (A1 & A2 & A3 & A4 & A5 & A6).
  destruct Hg as (B1 & B2 & B3 & B4 & B5 & B6).
  split_and!; congruence.
Qed.

Lemma poll_elapsed w b w' :
  poll used_ring_not_empty harness w = (b, w') ->
  exists n, elapsed w w' n /\ (1 <= n <= 4)%nat /\
            (b = false -> n = 3%nat /\ vq_used (queue w') = []).
Proof.
  intros H. pose proof (poll_cases used_ring_not_empty harness w) as C; cbn zeta in C.
  pose proof (elapsed_tick w) as T1.
  destruct (used_ring_not_empty (queue (tick harness w))) eqn:E1.
  - rewrite C in H. injection H as <- <-. exists 1%nat.
    split; [|split; [lia|discriminate]].
    eapply elapsed_same; [exact T1|reflexivity|reflexivity|split_and!; reflexivity].
  - set (w2 := do_enable harness (emit (EvPred false) (tick harness w))) in *.
    assert (T2 : elapsed w w2 2).
    { eapply (elapsed_trans _ _ _ 1 1); [exact T1|].
      eapply elapsed_same;
        [exact (elapsed_tick (emit (EvPred false) (tick harness w)))
        |reflexivity|reflexivity|split_and!; reflexivity]. }
    pose proof (elapsed_trans _ _ _ 2 1 T2 (elapsed_tick w2)) as T3.
    destruct (used_ring_not_empty (queue (tick harness w2))) eqn:E2;
      rewrite C in H; injection H as <- <-.
    + exists 4%nat. split; [|split; [lia|discriminate]].
      apply (elapsed_trans _ _ _ 3 1 T3).
      eapply elapsed_same;
        [exact (elapsed_tick (emit (EvPred true) (tick harness w2)))
        |reflexivity|reflexivity|split_and!; reflexivity].
    + exists 3%nat. split; [|split; [lia|]].
      * eapply elapsed_same; [exact T3|reflexivity|reflexivity
                             |split_and!; reflexivity].
      * intros _. split; [reflexivity|]. cbn [emit queue].
        unfold used_ring_not_empty in E2.
        destruct (vq_used (queue (tick harness w2))); [reflexivity|discriminate].
Qed.

Lemma wfq_elapsed fuel : forall w w',
  wfq fuel w = Some w' ->
  exists n, elapsed w w' n /\ vq_used (queue w') <> [].
Proof.
  induction fuel as [|fuel IH]; intros w w' H; [discriminate|].
  rewrite wait_for_queue_S in H.
  destruct (poll _ _ w) as [b w1] eqn:P.
  pose proof (poll_true used_ring_not_empty harness (fun q => eq_refl)
                (fun q e _ => used_ring_not_empty_push q e) w w1) as PT.
  pose proof P as P0.
  apply poll_elapsed in P as (n & E & _ & _).
  destruct b.
  - injection H as <-. exists (n + 1)%nat. split.
    + apply (elapsed_trans _ _ _ n 1 E).
      eapply elapsed_same; [exact (elapsed_tick w1)|reflexivity|reflexivity
                           |split_and!; reflexivity].
    + specialize (PT P0). cbn [do_return emit queue tick].
      rewrite vq_used_host_inject. unfold used_ring_not_empty in PT.
      destruct (vq_used (queue w1)); [discriminate|]. discriminate.
  - apply IH in H as (m & E' & Hne). exists (n + 1 + m)%nat. split; [|exact Hne].
    apply (elapsed_trans w (do_suspend harness w1) w' (n + 1) m); [|exact E'].
    apply (elapsed_trans w w1 (do_suspend harness w1) n 1 E).
    eapply elapsed_same; [exact (elapsed_tick w1)|reflexivity|reflexivity
                         |split_and!; reflexivity].
Qed.

Lemma wfq_ready fuel (w : world cookie) :
  vq_used (queue w) <> [] -> is_Some (wfq (S fuel) w).
Proof.
  intros Hne. apply wait_for_queue_hit.
  cbn [tick queue]. unfold used_ring_not_empty. rewrite vq_used_host_inject.
  destruct (vq_used (queue w)); [congruence|reflexivity].
Qed.

(** A completion posted at instant [now + j] ends the wait, within
    [j / 4 + 1] evaluations of the closure (rounded up). *)
Lemma wfq_arrives fuel : forall (w : world cookie) j,
  harness (now w + j)%nat <> [] -> (j + 1 < 4 * fuel)%nat ->
  is_Some (wfq fuel w).
Proof.
  induction fuel as [|fuel IH]; intros w j Hj Hf; [lia|].
  rewrite wait_for_queue_S.
  destruct (poll _ _ w) as [b w1] eqn:P. destruct b; [eauto|].
  apply poll_elapsed in P as (n & (N & U & G) & _ & Hb).
  destruct (Hb eq_refl) as [-> U1]. rewrite U1 in U.
  symmetry in U. apply app_eq_nil in U as [_ U].
  cbn [seq map concat] in U.
  apply app_eq_nil in U as [A0 U]. apply app_eq_nil in U as [A1 U].
  apply app_eq_nil in U as [A2 _].
  assert (Hj3 : (3 <= j)%nat).
  { destruct j as [|[|[|j]]]; try lia; exfalso; apply Hj.
    - now rewrite Nat.add_0_r.
    - now replace (now w + 1)%nat with (S (now w)) by lia.
    - now replace (now w + 2)%nat with (S (S (now w))) by lia. }
  set (w2 := do_suspend harness w1).
  assert (N2 : now w2 = (now w + 4)%nat) by (cbn [w2 do_suspend emit tick now]; lia).
  assert (U2 : vq_used (queue w2) = harness (now w + 3)%nat).
  { cbn [w2 do_suspend emit tick queue]. rewrite vq_used_host_inject, U1, N.
    reflexivity. }
  destruct (Nat.eq_dec j 3) as [-> | Hne].
  - destruct fuel as [|fuel]; [lia|]. apply wfq_ready. now rewrite U2.
  - apply (IH w2 (j - 4)%nat); [|lia].
    rewrite N2. now replace (now w + 4 + (j - 4))%nat with (now w + j)%nat by lia.
Qed.

Lemma arrived_none t0 n :
  (forall i, (i < n)%nat -> harness (t0 + i)%nat = []) -> arrived t0 n = [].
Proof.
  induction n as [|n IH]; intros H; [reflexivity|].
  rewrite arrived_S. cbv beta in IH. rewrite IH by (intros i Hi; apply H; lia).
  rewrite H by lia. reflexivity.
Qed.

Lemma arrived_first t0 n j :
  (forall i, (i < j)%nat -> harness (t0 + i)%nat = []) ->
  (j < n)%nat ->
  arrived t0 n = harness (t0 + j)%nat ++ arrived (t0 + j + 1)%nat (n - j - 1)%nat.
Proof.
  intros Hq Hn. cbv beta.
  replace n with (j + (1 + (n - j - 1)))%nat at 1 by lia.
  rewrite seq_app, map_app, concat_app.
  pose proof (arrived_none t0 j Hq) as E. cbv beta in E. rewrite E.
  cbn [app]. rewrite seq_app, map_app, concat_app.
  cbn [seq map concat]. rewrite app_nil_r. reflexivity.
Qed.

(** The completion found first is the one posted first. *)
Lemma wfq_first fuel (w w' : world cookie) j e rest :
  wfq fuel w = Some w' ->
  vq_used (queue w) = [] ->
  (forall i, (i < j)%nat -> harness (now w + i)%nat = []) ->
  harness (now w + j)%nat = e :: rest ->
  (exists tail, vq_used (queue w') = e :: tail) /\
  vq_free (queue w') = vq_free (queue w) /\
  vq_avail (queue w') = vq_avail (queue w) /\
  vq_kicks (queue w') = vq_kicks (queue w).
Proof.
  intros W Hu Hq Hj.
  apply wfq_elapsed in W as (n & (N & U & G) & Hne).
  destruct G as (_ & _ & G3 & _ & G5 & G6).
  split; [|auto]. rewrite Hu in U. cbn [app] in U.
  destruct (Nat.le_gt_cases n j) as [Hle | Hgt].
  - exfalso. apply Hne. rewrite U. apply arrived_none.
    intros i Hi. apply Hq. lia.
  - rewrite (arrived_first _ _ j Hq Hgt), Hj in U. cbn [app] in U. eauto.
Qed.

End Arrival.

(** X20. [wait_for_queue] does not miss a completion.  Waiting for the
    used ring on a queue that has none, with the thread woken after each
    suspension: if the first completion the host posts arrives at instant
    [now + j], the call returns within [fuel] evaluations of its closure as
    soon as [j + 1 < 4 * fuel]; the completion found at the head of the used
    ring is that first one; and the free descriptors, the available ring and
    the notifications are as they were. *)
Theorem wait_for_queue_arrival
    {cookie : Type} (harness : nat -> list (Vring.used_elem cookie))
    (fuel : nat) (w : Sched.world cookie) (j : nat)
    (e : Vring.used_elem cookie) (rest : list (Vring.used_elem cookie)) :
  Vring.vq_used (Sched.queue w) = [] ->
  (forall i, (i < j)%nat -> harness (Sched.now w + i)%nat = []) ->
  harness (Sched.now w + j)%nat = e :: rest ->
  (j + 1 < 4 * fuel)%nat ->
  exists w',
    WaitForQueue.wait_for_queue Vring.used_ring_not_empty harness fuel w = Some w' /\
    Vring.get_buf_elem (Sched.queue w') =
      Some (Vring.ch_cookie (Vring.ue_chain e), Vring.ue_len e) /\
    Vring.vq_free (Sched.queue w') = Vring.vq_free (Sched.queue w) /\
    Vring.vq_avail (Sched.queue w') = Vring.vq_avail (Sched.queue w) /\
    Vring.vq_kicks (Sched.queue w') = Vring.vq_kicks (Sched.queue w).
Proof.
  intros Hu Hq Hj Hf.
  destruct (wfq_arrives harness fuel w j) as [w' W]; [rewrite Hj; discriminate|lia|].
  exists w'. split; [exact W|].
  destruct (wfq_first harness fuel w w' j e rest W Hu Hq Hj)
    as ((tail & U) & F & A & K).
  unfold Vring.get_buf_elem. rewrite U. auto.
Qed.

Lemma wait_for_queue_arrival_witness :
  let e := {| Vring.ue_chain := {| Vring.ch_cookie := 7%nat; Vring.ch_sg := [] |};
              Vring.ue_len := 16 |} in
  let harness := fun n : nat => if Nat.eqb n 9 then [e] else [] in
  let w := {| Sched.now := 0; Sched.queue := Vring.new_vring 4 0;
              Sched.trace := [] |} in
  exists w',
    WaitForQueue.wait_for_queue Vring.used_ring_not_empty harness 3 w = Some w' /\
    Vring.get_buf_elem (Sched.queue w') = Some (7%nat, 16%Z).
Proof.
  intros e harness w.
  destruct (wait_for_queue_arrival harness 3 w 9 e [])
    as (w' & W & G & _).
  - reflexivity.
  - intros i Hi. unfold harness. cbn [Sched.now w Nat.add].
    destruct (Nat.eqb_spec i 9); [lia|reflexivity].
  - reflexivity.
  - lia.
  - exists w'. split; [exact W | exact G].
Defined.

(** ** The entropy device: a round of the worker *)

(** X21. A round of [rng::worker] with a host that answers.  With the pool
    below [_pool_size], a free descriptor and an empty used ring, if the
    first completion the host posts (at instant [_now + j]) reports a length
    within the buffer, the round returns once [j + 1 < 4 * fuel]: the request
    was published without waiting for room and the host was notified exactly
    once; the pool keeps its bytes and gains, at the back, the first [len]
    bytes of the buffer, so it stays within [_pool_size]; all consumers are
    woken; and the descriptors of the completed chain are back on the free
    list. *)
Theorem worker_round_completes
    (_pool_size data_paddr : Z)
    (harness : nat -> list (Vring.used_elem (list Rng.byte)))
    (beyond : nat -> Rng.byte)
    (fuel : nat) (r : Rng.rng) (j : nat)
    (e : Vring.used_elem (list Rng.byte))
    (rest : list (Vring.used_elem (list Rng.byte))) :
  (0 <= _pool_size < 2 ^ 64)%Z ->
  (Z.of_nat (length (Rng._entropy r)) < _pool_size)%Z ->
  Vring.vq_used (Rng._queue r) = [] ->
  (1 <= Vring.vq_free (Rng._queue r))%nat ->
  (forall i, (i < j)%nat -> harness (Rng._now r + i)%nat = []) ->
  harness (Rng._now r + j)%nat = e :: rest ->
  let remaining := (_pool_size - Z.of_nat (length (Rng._entropy r)))%Z in
  (0 <= Vring.ue_len e <= remaining)%Z ->
  (j + 1 < 4 * fuel)%nat ->
  exists r',
    Rng.worker_round _pool_size data_paddr harness beyond fuel r = Some r' /\
    Rng._entropy r' =
      Rng._entropy r ++
      take (Z.to_nat (Vring.ue_len e))
        (resize (Z.to_nat remaining) Byte.x00
           (Vring.ch_cookie (Vring.ue_chain e))) /\
    Z.of_nat (length (Rng._entropy r')) =
      (Z.of_nat (length (Rng._entropy r)) + Vring.ue_len e)%Z /\
    (Z.of_nat (length (Rng._entropy r')) <= _pool_size)%Z /\
    Rng.signals r' = Rng.signals r ++ [Rng.ConsumerWakeAll] /\
    Vring.vq_kicks (Rng._queue r') = S (Vring.vq_kicks (Rng._queue r)) /\
    Vring.vq_avail (Rng._queue r') =
      Vring.vq_avail (Rng._queue r) ++
      [{| Vring.ch_cookie := replicate (Z.to_nat remaining) Byte.x00;
          Vring.ch_sg := [{| Vring.sg_dir_of := Vring.SgIn;
                             Vring.sg_paddr := data_paddr;
                             Vring.sg_len := remaining |}] |}] /\
    Vring.vq_free (Rng._queue r') =
      (Vring.vq_free (Rng._queue r) - 1
       + length (Vring.ch_sg (Vring.ue_chain e)))%nat.
Proof.
  intros Hp Hlow Hu Hfree Hq Hj remaining Hlen Hf.
  destruct fuel as [|fuel]; [lia|].
  unfold Rng.worker_round.
  replace (Z.of_nat (length (Rng._entropy r)) <? _pool_size)%Z with true
    by (symmetry; apply Z.ltb_lt; exact Hlow).
  unfold Rng.refill.
  pose proof (refill_prologue_remaining _pool_size Hp r Hlow) as Hrem.
  fold remaining in Hrem.
  unfold Rng.refill_dma. rewrite Hrem.
  assert (Hbuf : Rng.buf (Rng.refill_prologue _pool_size r)
                 = replicate (Z.to_nat remaining) Byte.x00)
    by (unfold Rng.refill_prologue at 1; cbn [Rng.buf]; unfold Rng.size_t;
        fold remaining; rewrite Z.mod_small by lia; reflexivity).
  rewrite Hbuf.
  cbn [Rng.publish]. unfold Vring.add_buf.
  cbn [Sched.on_queue Sched.queue Rng.world_of Vring.add_in_sg Vring.init_sg
       Vring._sg_vec Vring.set_sg Vring.vq_free app length].
  replace (1 <=? Vring.vq_free (Rng._queue r))%nat with true
    by (symmetry; apply Nat.leb_le; lia).
  cbn [mbind option_bind Sched.on_queue Sched.queue Sched.now Sched.trace].
  match goal with |- context [WaitForQueue.wait_for_queue _ _ _ ?w] =>
    set (w1 := w) end.
  destruct (wfq_arrives harness (S fuel) w1 j) as [w2 W];
    [cbn [w1 Sched.now Sched.on_queue Rng.world_of]; rewrite Hj; discriminate|lia|].
  destruct (wfq_first harness (S fuel) w1 w2 j e rest W Hu Hq Hj)
    as ((tail & U) & F & A & K).
  rewrite W. cbn [mbind option_bind].
  unfold Vring.get_buf_elem, Vring.get_buf_finalize. rewrite U.
  cbn [mbind option_bind].
  unfold Rng.refill_epilogue.
  rewrite copy_n_within by (rewrite length_resize; lia).
  eexists. split; [reflexivity|].
  cbn [Rng._entropy Rng.signals Rng._queue Rng.signalled Rng.set_entropy
       Rng.set_world Sched.on_queue Sched.queue].
  rewrite U.
  cbn [Vring.vq_kicks Vring.vq_avail Vring.vq_free Vring.set_used Vring.set_free].
  rewrite F, A, K.
  rewrite length_app, length_take, length_resize.
  split_and!; try reflexivity; lia.
Qed.


Lemma worker_round_completes_witness :
  let reply :=
    {| Vring.ue_chain :=
         {| Vring.ch_cookie := replicate 64 Byte.x55;
            Vring.ch_sg := [{| Vring.sg_dir_of := Vring.SgIn;
                               Vring.sg_paddr := 4096%Z;
                               Vring.sg_len := 64%Z |}] |};
       Vring.ue_len := 16%Z |} in
  let harness := fun n : nat => if Nat.eqb n 5 then [reply] else [] in
  let r := {| Rng._entropy := []; Rng._queue := Vring.new_vring 8 0;
              Rng._now := 0; Rng.signals := [] |} in
  exists r',
    Rng.worker_round 64 4096 harness (fun _ => Byte.x00) 2 r = Some r' /\
    Rng._entropy r' = replicate 16 Byte.x55 /\
    Rng.signals r' = [Rng.ConsumerWakeAll] /\
    Vring.vq_kicks (Rng._queue r') = 1%nat /\
    Vring.vq_free (Rng._queue r') = 8%nat.
Proof.
  intros reply harness r.
  destruct (worker_round_completes 64 4096 harness (fun _ => Byte.x00) 2 r 5
              reply [])
    as (r' & R & H1 & _ & _ & H4 & H5 & _ & H7).
  - lia.
  - cbn. lia.
  - reflexivity.
  - cbn. lia.
  - intros i Hi. unfold harness. cbn [Rng._now r Nat.add].
    destruct (Nat.eqb_spec i 5); [lia|reflexivity].
  - reflexivity.
  - cbn. lia.
  - lia.
  - exists r'. split; [exact R|]. split; [exact H1|]. split; [exact H4|].
    split; [exact H5 | exact H7].
Defined.

(** ** The entropy device: its queue *)

Section RngQueue.
Import Vring Virtio VirtioExt.
Local Open Scope Z_scope.
Context {cookie : Type}.
Variable hh : virtio_hh.
Variable ncpus : Z.
Variable alloc_paddr : Z -> Z.

Abbreviation driver := (virtio_driver cookie).

Ltac probe_simpl :=
  cbn -[Z.pow Z.modulo Z.shiftr Z.to_nat probe_virt_queues Z.mul Z.add
        Z.geb Z.eqb].

(** The constructor of the base class leaves the array of queues as it
    found it. *)
Lemma ctor_queues dev :
  pci_parse_ok dev = true -> pci_has_bar1 dev = true ->
  exists s : driver,
    virtio_driver_new hh dev = Done tt s /\
    _queues s = replicate (Z.to_nat (max_virtqueues_nr hh)) None /\
    _num_queues s = 0 /\ _bar1 s = true /\ _dev s = dev /\
    h_status s = Z.lor 0 (Z.lor (VIRTIO_CONFIG_S_ACKNOWLEDGE hh)
                                (VIRTIO_CONFIG_S_DRIVER hh)) mod 2 ^ 8.
Proof.
  intros Hp Hb. unfold virtio_driver_new, ctor.
  rewrite bind_eq, parse_pci_config_fresh, Hp, Hb.
  eexists. repeat split.
Qed.

(** Is the next queue one that [probe_virt_queues] will count? *)
Abbreviation usable :=
  (fun (dev : pci_device) (n : Z) =>
     negb (0 =? host_queue_num dev n mod 2 ^ 16)
     && (negb (pci_is_msix dev) || host_takes_vector dev n)).

(** The first round of [probe_virt_queues] decides whether the queue at
    [_num_queues] is counted. *)
Lemma probe_virt_queues_first fuel (s : driver) :
  _bar1 s = true ->
  0 <= _num_queues s < max_virtqueues_nr hh ->
  max_virtqueues_nr hh <= 0xffff ->
  match probe_virt_queues hh ncpus alloc_paddr (S fuel) s with
  | Done _ s' =>
      if usable (_dev s) (_num_queues s) then _num_queues s + 1 <= _num_queues s'
      else _num_queues s' = _num_queues s
  | Fault _ => False
  | OutOfFuel => True
  end.
Proof.
  intros Hbar Hn Hmax.
  assert (Hm16 : _num_queues s mod 2 ^ 16 = _num_queues s)
    by (apply Z.mod_small; lia).
  assert (Hn1 : (_num_queues s + 1) mod 2 ^ 32 = _num_queues s + 1)
    by (apply Z.mod_small; lia).
  cbn [probe_virt_queues].
  unfold bind, get, modify, ret, virtio_conf_writew, virtio_conf_readw,
    virtio_conf_writel, Virtio.virtio_conf_write, Virtio.virtio_conf_read.
  replace (_num_queues s >=? max_virtqueues_nr hh) with false
    by (symmetry; rewrite Z.geb_leb; apply Z.leb_gt; lia).
  rewrite Hbar. probe_simpl. rewrite ?Hbar, ?Hm16.
  destruct (0 =? host_queue_num (_dev s) (_num_queues s) mod 2 ^ 16) eqn:Hq;
    [reflexivity|].
  cbn [negb andb].
  assert (Htail : forall st : driver,
            _bar1 st = true ->
            _num_queues st = (_num_queues s + 1) mod 2 ^ 32 ->
            match (if (_num_queues s + 1) mod 2 ^ 32 >=? 2 * ncpus
                   then fun s1 : driver => Done tt s1
                   else probe_virt_queues hh ncpus alloc_paddr fuel) st with
            | Done _ s' => _num_queues s + 1 <= _num_queues s'
            | Fault _ => False
            | OutOfFuel => True
            end).
  { intros st Hb Hc. destruct (_ >=? 2 * ncpus); [lia|].
    pose proof (probe_virt_queues_quiet hh ncpus alloc_paddr fuel st Hb
                  ltac:(lia) ltac:(lia)) as Q.
    destruct (probe_virt_queues hh ncpus alloc_paddr fuel st); [|exact Q|exact I].
    destruct Q as (_ & _ & _ & Q & _). lia. }
  probe_simpl.
  destruct (pci_is_msix (_dev s)) eqn:Hmsix; probe_simpl.
  - set (v := if host_takes_vector (_dev s) (_num_queues s)
              then _num_queues s else 65535).
    assert (Hv : upd (h_vector s) (_num_queues s) v (_num_queues s) = v)
      by (unfold upd; now rewrite Z.eqb_refl).
    rewrite Hv. unfold v.
    destruct (host_takes_vector (_dev s) (_num_queues s)).
    + rewrite Hm16, Z.eqb_refl. cbn [negb]. probe_simpl.
      apply Htail; reflexivity.
    + change (65535 mod 2 ^ 16) with 65535.
      replace (65535 =? _num_queues s) with false
        by (symmetry; apply Z.eqb_neq; lia).
      reflexivity.
  - apply Htail; reflexivity.
Qed.

End RngQueue.

(** X22. The queue of the entropy device.  For a device with a BAR1, the
    constructor of [rng] always ends by setting [DRIVER_OK], whether it found
    a queue or not.  [_queue] is the ring of queue 0, of the size the host
    reported, exactly when that size is not 0 and (with MSI-X) the host took
    the vector for queue 0; otherwise [_queue] is null. *)
Theorem rng_new_queue
    {cookie : Type} (hh : Virtio.virtio_hh) (ncpus : Z) (alloc_paddr : Z -> Z)
    (fuel : nat) (dev : Virtio.pci_device) :
  Virtio.pci_parse_ok dev = true ->
  Virtio.pci_has_bar1 dev = true ->
  (1 <= Virtio.max_virtqueues_nr hh <= 0xffff)%Z ->
  (Z.to_nat (Virtio.max_virtqueues_nr hh) < fuel)%nat ->
  let qsize := (Virtio.host_queue_num dev 0 mod 2 ^ 16)%Z in
  let found :=
    negb (0 =? qsize)%Z
    && (negb (Virtio.pci_is_msix dev) || Virtio.host_takes_vector dev 0) in
  exists s : Virtio.virtio_driver cookie,
    Virtio.rng_new hh ncpus alloc_paddr fuel dev =
      Virtio.Done
        (if found then Some (Vring.new_vring (Z.to_nat qsize) (alloc_paddr 0%Z))
         else None) s /\
    Virtio.h_status s =
      (Z.lor (Z.lor 0 (Z.lor (Virtio.VIRTIO_CONFIG_S_ACKNOWLEDGE hh)
                             (Virtio.VIRTIO_CONFIG_S_DRIVER hh)) mod 2 ^ 8)
             (Virtio.VIRTIO_CONFIG_S_DRIVER_OK hh) mod 2 ^ 8)%Z /\
    (found = true <-> (1 <= Virtio._num_queues s)%Z).
Proof.
  intros Hp Hb Hmax Hfuel qsize found.
  destruct (@ctor_queues cookie hh dev Hp Hb) as (s1 & C & Q1 & N1 & B1 & D1 & S1).
  unfold Virtio.rng_new. rewrite bind_eq.
  change (Virtio.ctor hh (Virtio.fresh hh dev))
    with (Virtio.virtio_driver_new (cookie:=cookie) hh dev).
  rewrite C, bind_eq.
  destruct fuel as [|fuel]; [lia|].
  pose proof (probe_virt_queues_quiet hh ncpus alloc_paddr (S fuel) s1 B1
                ltac:(lia) ltac:(lia)) as PQ.
  pose proof (probe_virt_queues_first hh ncpus alloc_paddr fuel s1 B1
                ltac:(lia) ltac:(lia)) as PF.
  pose proof (probe_virt_queues_registered hh ncpus alloc_paddr (S fuel) s1 B1
                ltac:(lia) ltac:(lia)) as PR.
  destruct (Virtio.probe_virt_queues hh ncpus alloc_paddr (S fuel) s1)
    as [[] s2| |]; [|contradiction|lia].
  destruct PQ as (P1 & P2 & P3 & P4 & P5 & _).
  rewrite N1, D1 in PF. fold qsize in PF. fold found in PF.
  assert (R2 : VirtioExt.registered hh alloc_paddr s2).
  { apply PR; [rewrite Q1, length_replicate; lia|].
    intros idx Hidx. rewrite N1 in Hidx. lia. }
  rewrite bind_eq. cbn [Virtio.get]. rewrite bind_eq.
  destruct (add_dev_status_ok (Virtio.VIRTIO_CONFIG_S_DRIVER_OK hh) s2 P2)
    as (s3 & A & _ & S3).
  rewrite A. cbn [Virtio.ret].
  assert (N3 : Virtio._num_queues s3 = Virtio._num_queues s2).
  { revert A. unfold Virtio.add_dev_status, Virtio.get_dev_status,
      Virtio.set_dev_status, Virtio.virtio_conf_readb, Virtio.virtio_conf_writeb.
    rewrite bind_eq, virtio_conf_read_ok by exact P2.
    rewrite virtio_conf_write_ok by exact P2.
    intros [= <-]. reflexivity. }
  exists s3. split_and!.
  - f_equal. unfold Virtio.get_virt_queue.
    destruct found.
    + replace (0 >=? Virtio._num_queues s2)%Z with false
        by (symmetry; rewrite Z.geb_leb; apply Z.leb_gt; lia).
      destruct (R2 0%Z ltac:(lia)) as (_ & R & _).
      rewrite P3, D1 in R. fold qsize in R. cbn [Z.to_nat] in R |- *.
      rewrite R. reflexivity.
    + replace (0 >=? Virtio._num_queues s2)%Z with true
        by (symmetry; rewrite Z.geb_leb; apply Z.leb_le; lia).
      reflexivity.
  - rewrite S3, P1, S1.
    rewrite (Z.mod_mod (Z.lor 0 _)) by lia. reflexivity.
  - rewrite N3. destruct found; split; intros H; try reflexivity; try lia;
      try discriminate.
Qed.

Lemma rng_new_queue_witness :
  let dev :=
    {| Virtio.pci_parse_ok := true; Virtio.pci_has_bar1 := true;
       Virtio.pci_revision_id := 0; Virtio.pci_device_id := 0x1005;
       Virtio.pci_is_msix := true; Virtio.host_features := 0;
       Virtio.host_queue_num := fun i => if (i =? 0)%Z then 8%Z else 0%Z;
       Virtio.host_takes_vector := fun _ => false |} in
  exists s : Virtio.virtio_driver (list Rng.byte),
    Virtio.rng_new Virtio.legacy 1 (fun _ => 0x100000%Z) 65 dev =
      Virtio.Done None s /\
    Virtio.h_status s = 7%Z.
Proof.
  intros dev.
  destruct (@rng_new_queue (list Rng.byte) Virtio.legacy 1 (fun _ => 0x100000%Z)
              65 dev eq_refl eq_refl ltac:(vm_compute; split; discriminate)
              ltac:(vm_compute; lia))
    as (s & R & S & _).
  exists s. split; [exact R | exact S].
Defined.

(** ** The network device: transmit offloads *)

(** X23. Offloads are for IPv4 only.  When the first fragment holds the
    ethernet header (with its VLAN tag, if there is one) and the ethertype
    behind the tag is not IPv4, [tx_offload] returns the packet and the
    header untouched, whatever offloads the packet asks for and without
    calling [m_pullup]; so [tx_locked] sends the packet with a header that
    requests neither a checksum nor a segmentation. *)
Theorem tx_offload_non_ip
    (hh : Net.bsd_hh) (th : NetTx.tx_hh) (_tso_ecn : bool)
    (m_pullup : list Net.mbuf -> Z -> option (list Net.mbuf))
    (tso_segsz : Net.mbuf -> Z)
    (h : Net.mbuf) (rest : list Net.mbuf) (hdr : Net.net_hdr) :
  (Net.sizeof_ether_header hh <= Net.mh_len h)%Z ->
  (Net.ntohs_at h (Net.offsetof_ether_type hh) = Net.ETHERTYPE_VLAN hh ->
   NetTx.sizeof_ether_vlan_header th <= Net.mh_len h)%Z ->
  Net.eth_type_of hh h <> Net.ETHERTYPE_IP hh ->
  NetTx.tx_offload hh th _tso_ecn m_pullup tso_segsz (h :: rest) hdr =
    Some (h :: rest, hdr) /\
  Net.offload (NetTx.tx_offload hh th _tso_ecn m_pullup tso_segsz) (h :: rest) =
    Some (h :: rest, Net.hdr Net.zero_hdr) /\
  Net.flags (Net.hdr Net.zero_hdr) = 0%Z /\
  Net.gso_type (Net.hdr Net.zero_hdr) = 0%Z.
Proof.
  intros Hlen Hvlan Hip.
  assert (T : forall hdr,
    NetTx.tx_offload hh th _tso_ecn m_pullup tso_segsz (h :: rest) hdr =
      Some (h :: rest, hdr)).
  { intros hdr0. unfold NetTx.tx_offload, NetTx.pullup_if_short.
    replace (Net.mh_len h <? Net.sizeof_ether_header hh)%Z with false
      by (symmetry; apply Z.ltb_ge; exact Hlen).
    cbn [mbind option_bind head].
    unfold Net.eth_type_of in Hip.
    destruct (Net.ntohs_at h (Net.offsetof_ether_type hh) =? Net.ETHERTYPE_VLAN hh)%Z
      eqn:V.
    - apply Z.eqb_eq in V. specialize (Hvlan V).
      replace (Net.mh_len h <? NetTx.sizeof_ether_vlan_header th)%Z with false
        by (symmetry; apply Z.ltb_ge; exact Hvlan).
      cbn [mbind option_bind head].
      replace (Net.ntohs_at h (Net.offsetof_evl_proto hh) =? Net.ETHERTYPE_IP hh)%Z
        with false by (symmetry; apply Z.eqb_neq; exact Hip).
      reflexivity.
    - cbn [mbind option_bind].
      replace (Net.ntohs_at h (Net.offsetof_ether_type hh) =? Net.ETHERTYPE_IP hh)%Z
        with false by (symmetry; apply Z.eqb_neq; exact Hip).
      reflexivity. }
  split; [apply T|]. split; [|split; reflexivity].
  unfold Net.offload. destruct (negb _); [apply T|reflexivity].
Qed.

Lemma tx_offload_non_ip_witness :
  let h := {| Net.mh_len := 62;
              Net.mh_data := replicate 12 0%Z ++ [0x86%Z; 0xdd%Z] ++ replicate 48 0%Z;
              Net.mh_paddr := 0x2000; Net.csum_flags := 0x2;
              Net.csum_data := 16 |} in
  Net.offload (NetTx.tx_offload Net.bsd NetTx.wire true (fun _ _ => None)
                 (fun _ => 0%Z)) [h] =
    Some ([h], Net.hdr Net.zero_hdr).
Proof.
  intros h.
  apply (tx_offload_non_ip Net.bsd NetTx.wire true (fun _ _ => None)
           (fun _ => 0%Z) h [] (Net.hdr Net.zero_hdr)).
  - cbn. lia.
  - vm_compute. discriminate.
  - vm_compute. discriminate.
Defined.

(** X24. [tx_offload] on an IPv4 packet whose first fragment holds the
    headers it reads.  [m_pullup] is not called and the packet is returned as
    it came.  The checksum request is made exactly when [csum_flags] has a
    bit of [VIRTIO_NET_CSUM_OFFLOAD]: [csum_start] is the end of the IP
    header (the VLAN tag counted in) and [csum_offset] the packet's
    [csum_data].  The segmentation request is made exactly when [CSUM_TSO]
    is asked and the protocol is TCP: [gso_type] is TCPv4, [hdr_len] the end
    of the TCP header, [gso_size] the packet's segment size; a TSO asked for
    another protocol is dropped silently.  With [TH_CWR] in the TCP flags of
    a segmented packet the call fails when the host has no ECN, and
    otherwise or-s [VIRTIO_NET_HDR_GSO_ECN] into [flags] (not into
    [gso_type]).  It fails in no other case. *)
Theorem tx_offload_ipv4
    (hh : Net.bsd_hh) (th : NetTx.tx_hh) (_tso_ecn : bool)
    (m_pullup : list Net.mbuf -> Z -> option (list Net.mbuf))
    (tso_segsz : Net.mbuf -> Z)
    (h : Net.mbuf) (rest : list Net.mbuf) (hdr : Net.net_hdr) :
  let vlan := (Net.ntohs_at h (Net.offsetof_ether_type hh)
               =? Net.ETHERTYPE_VLAN hh)%Z in
  let ip_offset := if vlan then NetTx.sizeof_ether_vlan_header th
                   else Net.sizeof_ether_header hh in
  let start :=
    Net.u16 (ip_offset + Z.shiftl (NetTx.ip_hl th (Net.byte_at h ip_offset)) 2) in
  let csum :=
    negb (Z.land (Net.csum_flags h) (NetTx.VIRTIO_NET_CSUM_OFFLOAD th) =? 0)%Z in
  let tso :=
    negb (Z.land (Net.csum_flags h) (NetTx.CSUM_TSO th) =? 0)%Z
    && (NetTx.u8 (Net.byte_at h (ip_offset + NetTx.offsetof_ip_p th))
        =? NetTx.IPPROTO_TCP th)%Z in
  let cwr :=
    negb (Z.land (Net.byte_at h (start + NetTx.offsetof_th_flags th))
            (NetTx.TH_CWR th) =? 0)%Z in
  (Net.sizeof_ether_header hh <= Net.mh_len h)%Z ->
  (NetTx.sizeof_ether_vlan_header th <= Net.mh_len h \/ vlan = false)%Z ->
  (ip_offset + Net.sizeof_ip hh <= Net.mh_len h)%Z ->
  (tso = true -> start + NetTx.sizeof_tcphdr th <= Net.mh_len h)%Z ->
  Net.eth_type_of hh h = Net.ETHERTYPE_IP hh ->
  match NetTx.tx_offload hh th _tso_ecn m_pullup tso_segsz (h :: rest) hdr with
  | None => tso = true /\ cwr = true /\ _tso_ecn = false
  | Some (m', hdr') =>
      m' = h :: rest /\
      ~ (tso = true /\ cwr = true /\ _tso_ecn = false) /\
      Net.csum_start hdr' = (if csum then start else Net.csum_start hdr) /\
      Net.csum_offset hdr' =
        (if csum then Net.u16 (Net.csum_data h) else Net.csum_offset hdr) /\
      Net.gso_type hdr' =
        (if tso then NetTx.u8 (NetTx.VIRTIO_NET_HDR_GSO_TCPV4 th)
         else Net.gso_type hdr) /\
      Net.hdr_len hdr' =
        (if tso then
           Net.u16 (start
                    + Z.shiftl (NetTx.th_off th
                                  (Net.byte_at h (start + NetTx.offsetof_th_off th)))
                        2)
         else Net.hdr_len hdr) /\
      Net.gso_size hdr' =
        (if tso then Net.u16 (tso_segsz h) else Net.gso_size hdr) /\
      Net.flags hdr' =
        (let f := if csum
                  then NetTx.u8 (Z.lor (Net.flags hdr) Net.VIRTIO_NET_HDR_F_NEEDS_CSUM)
                  else Net.flags hdr in
         if tso && cwr then NetTx.u8 (Z.lor f (NetTx.VIRTIO_NET_HDR_GSO_ECN th))
         else f)
  end.
Proof.
  intros vlan ip_offset start csum tso cwr Hlen Hvlan Hip Htcp Heth.
  unfold NetTx.tx_offload, NetTx.pullup_if_short.
  replace (Net.mh_len h <? Net.sizeof_ether_header hh)%Z with false
    by (symmetry; apply Z.ltb_ge; exact Hlen).
  cbn [mbind option_bind head].
  unfold Net.eth_type_of in Heth. fold vlan in Heth |- *.
  assert (Hpre :
    (if vlan
     then
       m ← (if (Net.mh_len h <? NetTx.sizeof_ether_vlan_header th)%Z
            then m_pullup (h :: rest) (NetTx.sizeof_ether_vlan_header th)
            else Some (h :: rest));
       h0 ← head m;
       Some (m, NetTx.sizeof_ether_vlan_header th,
             Net.ntohs_at h0 (Net.offsetof_evl_proto hh))
     else Some (h :: rest, Net.sizeof_ether_header hh,
                Net.ntohs_at h (Net.offsetof_ether_type hh)))
    = Some (h :: rest, ip_offset, Net.ETHERTYPE_IP hh)).
  { subst ip_offset. destruct vlan.
    - destruct Hvlan as [Hv | Hv]; [|discriminate].
      replace (Net.mh_len h <? NetTx.sizeof_ether_vlan_header th)%Z with false
        by (symmetry; apply Z.ltb_ge; exact Hv).
      cbn [mbind option_bind head]. now rewrite Heth.
    - now rewrite Heth. }
  rewrite Hpre. cbn [mbind option_bind].
  rewrite Z.eqb_refl. cbn [negb].
  replace (Net.mh_len h <? ip_offset + Net.sizeof_ip hh)%Z with false
    by (symmetry; apply Z.ltb_ge; exact Hip).
  cbn [mbind option_bind head]. fold start. fold csum.
  unfold tso in *. clear tso.
  destruct (negb (Z.land (Net.csum_flags h) (NetTx.CSUM_TSO th) =? 0)%Z);
    cbn [andb] in *.
  2:{ destruct csum; cbn [NetTx.needs_csum NetTx.or_flags Net.csum_start
        Net.csum_offset Net.gso_type Net.hdr_len Net.gso_size Net.flags];
      split_and!; try reflexivity; intros (? & _); discriminate. }
  destruct (NetTx.u8 (Net.byte_at h (ip_offset + NetTx.offsetof_ip_p th))
            =? NetTx.IPPROTO_TCP th)%Z; cbn [negb andb] in *.
  2:{ destruct csum; cbn [NetTx.needs_csum NetTx.or_flags Net.csum_start
        Net.csum_offset Net.gso_type Net.hdr_len Net.gso_size Net.flags];
      split_and!; try reflexivity; intros (? & _); discriminate. }
  replace (Net.mh_len h <? start + NetTx.sizeof_tcphdr th)%Z with false
    by (symmetry; apply Z.ltb_ge; apply Htcp; reflexivity).
  cbn [mbind option_bind head]. fold cwr.
  destruct cwr; cbn [negb].
  - destruct _tso_ecn; cbn [negb]; [|auto].
    destruct csum; cbn [NetTx.needs_csum NetTx.or_flags NetTx.gso Net.csum_start
      Net.csum_offset Net.gso_type Net.hdr_len Net.gso_size Net.flags];
      split_and!; try reflexivity; intros (_ & _ & ?); discriminate.
  - destruct csum; cbn [NetTx.needs_csum NetTx.or_flags NetTx.gso Net.csum_start
      Net.csum_offset Net.gso_type Net.hdr_len Net.gso_size Net.flags];
      split_and!; try reflexivity; intros (_ & ? & _); discriminate.
Qed.

Lemma tx_offload_ipv4_witness :
  let h := {| Net.mh_len := 54;
              Net.mh_data := replicate 12 0%Z ++ [0x08%Z; 0x00%Z]
                             ++ [0x45%Z] ++ replicate 8 0%Z ++ [6%Z]
                             ++ replicate 10 0%Z
                             ++ replicate 12 0%Z ++ [0x50%Z; 0x80%Z]
                             ++ replicate 6 0%Z;
              Net.mh_paddr := 0x2000; Net.csum_flags := 0x22;
              Net.csum_data := 16 |} in
  match NetTx.tx_offload Net.bsd NetTx.wire true (fun _ _ => None)
          (fun _ => 1448%Z) [h] (Net.hdr Net.zero_hdr) with
  | None => False
  | Some (m', hdr') =>
      m' = [h] /\ Net.flags hdr' = 0x81%Z /\ Net.gso_type hdr' = 1%Z /\
      Net.csum_start hdr' = 34%Z /\ Net.hdr_len hdr' = 54%Z
  end.
Proof.
  intros h.
  pose proof (tx_offload_ipv4 Net.bsd NetTx.wire true (fun _ _ => None)
                (fun _ => 1448%Z) h [] (Net.hdr Net.zero_hdr)) as H.
  cbv zeta in H.
  assert (H1 : (Net.sizeof_ether_header Net.bsd <= Net.mh_len h)%Z)
    by (vm_compute; discriminate).
  specialize (H H1). clear H1.
  specialize (H (or_intror eq_refl)).
  assert (H3 : (Net.sizeof_ether_header Net.bsd + Net.sizeof_ip Net.bsd
                <= Net.mh_len h)%Z) by (vm_compute; discriminate).
  specialize (H H3). clear H3.
  assert (H4 : true = true -> (34 + 20 <= Net.mh_len h)%Z)
    by (intros _; vm_compute; discriminate).
  specialize (H H4). clear H4.
  specialize (H eq_refl).
  destruct (NetTx.tx_offload Net.bsd NetTx.wire true (fun _ _ => None)
              (fun _ => 1448%Z) [h] (Net.hdr Net.zero_hdr)) as [[m' hdr']|].
  - destruct H as (-> & _ & S & _ & G & L & _ & F).
    rewrite F, G, S, L. repeat split.
  - destruct H as (_ & _ & E). discriminate E.
Defined.

(** ** The entropy device: the bound on the pool *)

(** X25. The bound on the pool, step by step.  The empty pool is within
    [_pool_size]; every step of a client or of the worker keeps the pool
    within [_pool_size], together with the room a refill in flight has
    reserved, provided the length the host reports at the end of a refill is
    no more than the size of the buffer that refill asked for; the worker
    starts no refill when the pool is full; a refill that starts reserves
    exactly [_pool_size - |pool|] bytes and asks the host for one writable
    buffer of that size; its end appends as many bytes as the host
    reported; and a client only removes bytes from the front. *)
Theorem pool_bound_steps
    (_pool_size data_paddr : Z)
    (harness : nat -> list (Vring.used_elem (list Rng.byte)))
    (beyond : nat -> Rng.byte) :
  (0 <= _pool_size < 2 ^ 64)%Z ->
  (forall q, Rng.pool_inv _pool_size (Rng.init q)) /\
  (forall a s s',
     Rng.pool_inv _pool_size s ->
     Rng.exec _pool_size data_paddr harness beyond a s = Some s' ->
     (forall fuel f w len data,
        a = Rng.RefillEnd fuel -> Rng.inflight s = Some f ->
        Rng.refill_dma data_paddr harness f fuel (Rng.world_of (Rng.dev s))
          = Some (w, len, data) ->
        (len <= Rng.remaining f)%Z) ->
     Rng.pool_inv _pool_size s') /\
  (forall s fuel,
     (_pool_size <= Z.of_nat (length (Rng._entropy (Rng.dev s))))%Z ->
     Rng.exec _pool_size data_paddr harness beyond Rng.RefillBegin s = None /\
     Rng.worker_round _pool_size data_paddr harness beyond fuel (Rng.dev s) = None) /\
  (forall s s',
     Rng.exec _pool_size data_paddr harness beyond Rng.RefillBegin s = Some s' ->
     exists f,
       Rng.inflight s' = Some f /\ Rng.dev s' = Rng.dev s /\
       (0 < Rng.remaining f)%Z /\
       Rng.remaining f =
         (_pool_size - Z.of_nat (length (Rng._entropy (Rng.dev s))))%Z) /\
  (forall f fuel w w' len data,
     Rng.refill_dma data_paddr harness f fuel w = Some (w', len, data) ->
     Vring.vq_avail (Sched.queue w') =
       Vring.vq_avail (Sched.queue w) ++
       [{| Vring.ch_cookie := Rng.buf f;
           Vring.ch_sg := [{| Vring.sg_dir_of := Vring.SgIn;
                              Vring.sg_paddr := data_paddr;
                              Vring.sg_len := Rng.remaining f |}] |}] /\
     length data = Z.to_nat (Rng.remaining f)) /\
  (forall data len r,
     Z.of_nat (length (Rng._entropy (Rng.refill_epilogue beyond data len r))) =
       (Z.of_nat (length (Rng._entropy r)) + Z.max 0 len)%Z) /\
  (forall b size s s',
     Rng.exec _pool_size data_paddr harness beyond (Rng.Consume b size) s = Some s' ->
     Rng.inflight s' = Rng.inflight s /\
     exists n, Rng._entropy (Rng.dev s') = drop n (Rng._entropy (Rng.dev s))).
Proof.
  intros Hr. split_and!.
  - intros q. split; [cbn; lia | exact I].
  - intros a s s'. apply exec_inv, Hr.
  - intros s fuel H.
    unfold Rng.exec, Rng.worker_round.
    replace (_ <? _)%Z with false by (symmetry; apply Z.ltb_ge; exact H).
    split; [destruct (Rng.inflight s)|]; reflexivity.
  - intros s s' H. unfold Rng.exec in H.
    destruct (Rng.inflight s); [discriminate|].
    destruct (_ <? _)%Z eqn:G; [|discriminate]. injection H as <-.
    apply Z.ltb_lt in G. eexists. repeat split; cbn [Rng.inflight Rng.dev].
    + rewrite refill_prologue_remaining by assumption. lia.
    + now apply refill_prologue_remaining.
  - intros f fuel w w' len data. apply refill_dma_request.
  - intros data len r. apply refill_epilogue_appends.
  - intros b size s s'. apply exec_consume_shrinks.
Qed.

Lemma pool_bound_steps_witness :
  let reply :=
    {| Vring.ue_chain :=
         {| Vring.ch_cookie := replicate 64 Byte.x55;
            Vring.ch_sg := [{| Vring.sg_dir_of := Vring.SgIn;
                               Vring.sg_paddr := 4096%Z;
                               Vring.sg_len := 64%Z |}] |};
       Vring.ue_len := 64%Z |} in
  let harness := fun n : nat => if Nat.eqb n 1 then [reply] else [] in
  let beyond := fun _ : nat => Byte.x00 in
  let s := {| Rng.dev := Rng.dev (Rng.init (Vring.new_vring 8 0));
              Rng.inflight := Some (Rng.refill_prologue 64
                                      (Rng.dev (Rng.init (Vring.new_vring 8 0)))) |} in
  exists s',
    Rng.exec 64 4096 harness beyond (Rng.RefillEnd 3) s = Some s' /\
    Rng._entropy (Rng.dev s') = replicate 64 Byte.x55 /\
    Rng.pool_inv 64 s'.
Proof.
  cbv zeta.
  match goal with |- exists s', Rng.exec _ _ ?h ?b ?a ?s = _ /\ _ =>
    destruct (Rng.exec 64 4096 h b a s) as [s'|] eqn:E;
      [|vm_compute in E; discriminate];
    pose proof (proj1 (proj2 (pool_bound_steps 64 4096 h b ltac:(lia)))
                  a s s') as P
  end.
  exists s'. split; [reflexivity|].
  split; [vm_compute in E; injection E as <-; reflexivity|].
  apply P.
  - split; [cbn; lia|]. vm_compute. split; discriminate.
  - exact E.
  - intros fuel f w len data [= <-] [= <-] D.
    vm_compute in D. injection D as _ <- _. vm_compute. discriminate.
Defined.
